(** * agent-chat-finance: the chat screens and the history screen

    A shallow embedding of the handlers of the client
    ([createOrLoadConversation], [sendMessage], [loadConversations],
    [createNewConversation]) over an explicit model of what they talk to:
    the storage service, the AI webhook, the toast queue and the router.
    A handler is a computation in a state and exception monad; what the
    outside world answers to each awaited call is an argument of the
    handler, so that every path through it can be run and reasoned about.

    Two files define a Chat screen.  [src/pages/Chat.tsx] is embedded as
    module [ChatPage]; the screen of [unnamed/part_000], which reads the
    [conversation] query parameter and can navigate, as [ChatRouted].
    [src/pages/ChatHistory.tsx] is module [ChatHistory].

    Calls to [console.log] and [console.error] change neither the screen,
    the storage nor what the user sees, and are left out of the trace. *)

From Stdlib Require Import ZArith NArith List Bool Lia String Ascii.
From Stdlib Require Import DecimalString Permutation Sorted.
Import ListNotations.

Set Implicit Arguments.
Local Open Scope Z_scope.

(* ===================================================================== *)
(** ** JavaScript strings *)

Module JS.

(** A string is its sequence of UTF-16 code units. *)
Definition jsstring := list N.

(** ASCII literals of the source. *)
Definition lit (s : string) : jsstring :=
  map N_of_ascii (list_ascii_of_string s).

(** ECMAScript WhiteSpace and LineTerminator code points: what
    [String.prototype.trim] strips. *)
Definition isWhiteSpace (c : N) : bool :=
  (  (c =? 0x0009) || (c =? 0x000A) || (c =? 0x000B) || (c =? 0x000C)
  || (c =? 0x000D) || (c =? 0x0020) || (c =? 0x00A0) || (c =? 0x1680)
  || ((0x2000 <=? c) && (c <=? 0x200A))
  || (c =? 0x2028) || (c =? 0x2029) || (c =? 0x202F) || (c =? 0x205F)
  || (c =? 0x3000) || (c =? 0xFEFF))%N.

Fixpoint trimStart (s : jsstring) : jsstring :=
  match s with
  | [] => []
  | c :: rest => if isWhiteSpace c then trimStart rest else s
  end.

Definition trimEnd (s : jsstring) : jsstring := rev (trimStart (rev s)).

Definition trim (s : jsstring) : jsstring := trimEnd (trimStart s).

(** ToBoolean on a string: only the empty string is falsy. *)
Definition truthy (s : jsstring) : bool :=
  match s with [] => false | _ :: _ => true end.

(** [a || b] on strings. *)
Definition or_else (a b : jsstring) : jsstring := if truthy a then a else b.

(** Strict equality [===] of two strings. *)
Fixpoint eqb (a b : jsstring) : bool :=
  match a, b with
  | [], [] => true
  | x :: a', y :: b' => (x =? y)%N && eqb a' b'
  | _, _ => false
  end.

(** Number-to-string of a non-negative integer, as a template literal
    renders [response.status]. *)
Definition ofNumber (n : N) : jsstring :=
  lit (NilZero.string_of_uint (N.to_uint n)).

End JS.

Abbreviation jsstring := JS.jsstring.

(** Timestamps ([created_at], [updated_at], [new Date()]) are instants on one
    time line, in milliseconds; their ISO-8601 text is not modelled. *)
Definition timestamp := Z.

(* ===================================================================== *)
(** ** Data model *)

(** [role: 'user' | 'assistant'] *)
Inductive Role := user | assistant.

(** A row of [messages] ([DatabaseMessage]); the screens keep the rows they
    get back as they are ([{...msg, role: msg.role as ...}]). *)
Module Message.
Record t := mk {
  id : jsstring;
  content : jsstring;
  role : Role;
  created_at : timestamp;
  conversation_id : jsstring
}.
End Message.

(** A row of [conversations]. *)
Module ConversationRow.
Record t := mk {
  id : jsstring;
  user_id : jsstring;
  title : jsstring;
  created_at : timestamp;
  updated_at : timestamp
}.
End ConversationRow.

(** [Session]: only [session.user.id] is read. *)
Module User.
Record t := mk { id : jsstring }.
End User.

Module Session.
Record t := mk { user : User.t }.
End Session.

(** What a rejected promise or a storage [error] carries: [error.message]. *)
Module Error.
Record t := mk { message : jsstring }.
End Error.

(* ===================================================================== *)
(** ** Ordered selects *)

Section Ordering.
Context {A : Type}.
Variable le : A -> A -> bool.

Fixpoint insert_by (x : A) (l : list A) : list A :=
  match l with
  | [] => [x]
  | y :: rest => if le x y then x :: l else y :: insert_by x rest
  end.

(** [.order(...)]: rows with equal keys keep their table order. *)
Definition order_by (l : list A) : list A := fold_right insert_by [] l.
End Ordering.

(* ===================================================================== *)
(** ** The storage service *)

(** What the outside world contributes to one storage round trip: the time
    that passes until the server executes it, the error it reports (if any),
    and the id the server generates when the call inserts a row. *)
Module Reply.
Record t := mk {
  elapsed : N;
  failure : option Error.t;
  fresh_id : jsstring
}.
End Reply.

Module Backend.

Record t := mk {
  conversations : list ConversationRow.t;
  messages : list Message.t;
  now : timestamp
}.

Definition empty (t0 : timestamp) : t := mk [] [] t0.

Definition advance (n : N) (b : t) : t :=
  mk (conversations b) (messages b) (now b + Z.of_N n).

(** Modelled from the spec: the schema of [messages] is not part of the
    sources.  Section 3 gives the columns; [id] and [created_at] are never
    sent by the client, so the server fills them, [created_at] with its
    clock. *)
Definition insert_message (conversation_id content : jsstring) (role : Role)
           (new_id : jsstring) (b : t) : t * Message.t :=
  let row := Message.mk new_id content role (now b) conversation_id in
  (mk (conversations b) (messages b ++ [row]) (now b), row).

(** Modelled from the spec: the schema of [conversations] is not part of
    the sources.  Section 3 gives the columns; the client sends [user_id]
    and [title] only, the server fills [id], [created_at] and
    [updated_at] with its clock. *)
Definition insert_conversation (user_id title : jsstring)
           (new_id : jsstring) (b : t) : t * ConversationRow.t :=
  let row := ConversationRow.mk new_id user_id title (now b) (now b) in
  (mk (conversations b ++ [row]) (messages b) (now b), row).

(** [.eq('id', id).eq('user_id', uid)] *)
Definition conversation_by_id (id uid : jsstring) (b : t)
  : list ConversationRow.t :=
  filter (fun c => JS.eqb (ConversationRow.id c) id
                   && JS.eqb (ConversationRow.user_id c) uid)
         (conversations b).

(** [.eq('user_id', uid).order('updated_at', { ascending: false })] *)
Definition conversations_of (uid : jsstring) (b : t)
  : list ConversationRow.t :=
  order_by (fun x y => (ConversationRow.updated_at y
                        <=? ConversationRow.updated_at x)%Z)
           (filter (fun c => JS.eqb (ConversationRow.user_id c) uid)
                   (conversations b)).

(** [.eq('conversation_id', cid).order('created_at', { ascending: true })] *)
Definition messages_of (cid : jsstring) (b : t) : list Message.t :=
  order_by (fun x y => (Message.created_at x <=? Message.created_at y)%Z)
           (filter (fun m => JS.eqb (Message.conversation_id m) cid)
                   (messages b)).

(** [.update({ updated_at: ts }).eq('id', id)] *)
Definition touch (id : jsstring) (ts : timestamp) (b : t) : t :=
  mk (map (fun c =>
             if JS.eqb (ConversationRow.id c) id
             then ConversationRow.mk (ConversationRow.id c)
                    (ConversationRow.user_id c) (ConversationRow.title c)
                    (ConversationRow.created_at c) ts
             else c)
          (conversations b))
     (messages b) (now b).

End Backend.

(** [.single()] on the rows of a select: exactly one row, or an error. *)
Definition no_single_row : Error.t :=
  Error.mk (JS.lit "JSON object requested, multiple (or no) rows returned").

Definition single {A : Type} (rows : list A) : Error.t + A :=
  match rows with
  | [r] => inr r
  | _ => inl no_single_row
  end.

(* ===================================================================== *)
(** ** The webhook, the toast queue and the router *)

(** [JSON.stringify({ message, user_id, conversation_id })]: the object
    before it is serialised, keys in source order. *)
Module Payload.
Record t := mk {
  message : jsstring;
  user_id : jsstring;
  conversation_id : jsstring
}.
End Payload.

Module Fetch.

(** The arguments of [fetch(url, init)]; [mode] is absent when [init] does
    not set it. *)
Record Request := mkRequest {
  url : jsstring;
  method : jsstring;
  mode : option jsstring;
  content_type : jsstring;
  body : Payload.t
}.

(** A [Response]: its status line and what [response.text()] settles to. *)
Record Response := mkResponse {
  status : N;
  statusText : jsstring;
  text : Error.t + jsstring
}.

(** [response.ok]: the status is in the range 200-299. *)
Definition ok (r : Response) : bool :=
  ((200 <=? status r) && (status r <=? 299))%N.

(** A request whose [init] has no [mode] is sent with mode ["cors"]
    (Fetch standard, the default of [Request]). *)
Definition effective_mode (r : Request) : jsstring :=
  match mode r with
  | Some m => m
  | None => JS.lit "cors"
  end.

End Fetch.

Module Toast.
Record t := mk {
  title : jsstring;
  description : jsstring;
  variant : jsstring
}.
End Toast.

(** The storage calls the screens make. *)
Inductive Query :=
| InsertMessage (conversation_id content : jsstring) (role : Role)
| InsertConversation (user_id title : jsstring)
| SelectConversation (id user_id : jsstring)
| SelectRecentConversation (user_id : jsstring)
| SelectConversations (user_id : jsstring)
| SelectMessages (conversation_id : jsstring)
| UpdateConversation (id : jsstring) (updated_at : timestamp).

(** What a screen does to the outside, in the order it does it.  A storage
    event is recorded when the call has settled, with whether it succeeded. *)
Inductive Event :=
| Storage (q : Query) (succeeded : bool)
| Fetched (r : Fetch.Request)
| Toasted (t : Toast.t)
| Navigated (path : jsstring).

Module World.
Record t := mk {
  backend : Backend.t;
  trace : list Event
}.
End World.

(* ===================================================================== *)
(** ** A state and exception monad for the handlers

    A handler runs over the state of its screen and the world; it either
    completes or throws. *)

Section Handler.
Variable St : Type.

Definition M (A : Type) : Type :=
  St -> World.t -> (Error.t + A) * St * World.t.

Definition ret {A} (a : A) : M A := fun s w => (inr a, s, w).

Definition bind {A B} (c : M A) (k : A -> M B) : M B :=
  fun s w =>
    match c s w with
    | (inr a, s', w') => k a s' w'
    | (inl e, s', w') => (inl e, s', w')
    end.

Definition throw {A} (e : Error.t) : M A := fun s w => (inl e, s, w).

(** [if (error) throw error;] on a settled result; also an awaited promise
    that rejects. *)
Definition orThrow {A} (r : Error.t + A) : M A :=
  match r with
  | inl e => throw e
  | inr a => ret a
  end.

(** [try { body } catch (error) { handler error }] *)
Definition try_catch {A} (body : M A) (handler : Error.t -> M A) : M A :=
  fun s w =>
    match body s w with
    | (inl e, s', w') => handler e s' w'
    | done => done
    end.

(** [try { body } finally { cleanup }] *)
Definition try_finally {A} (body : M A) (cleanup : M unit) : M A :=
  fun s w =>
    match body s w with
    | (r, s', w') =>
        match cleanup s' w' with
        | (inl e, s'', w'') => (inl e, s'', w'')
        | (inr _, s'', w'') => (r, s'', w'')
        end
    end.

(** The state the handler closed over. *)
Definition rendered : M St := fun s w => (inr s, s, w).

(** A [useState] setter. *)
Definition setState (f : St -> St) : M unit := fun s w => (inr tt, f s, w).

Definition emit (e : Event) : M unit :=
  fun s w =>
    (inr tt, s, World.mk (World.backend w) (World.trace w ++ [e])).

Definition toast (t : Toast.t) : M unit := emit (Toasted t).

Definition navigate (path : jsstring) : M unit := emit (Navigated path).

(** One awaited storage call.  supabase-js does not throw: the promise
    resolves to [{ data, error }], here [inr data] or [inl error].  Time
    passes until the server runs the call; a call the server reports an
    error for has changed nothing. *)
Definition storage {A} (r : Reply.t) (q : Query)
           (exec : Backend.t -> Backend.t * (Error.t + A))
  : M (Error.t + A) :=
  fun s w =>
    let b := Backend.advance (Reply.elapsed r) (World.backend w) in
    let '(b', res) :=
      match Reply.failure r with
      | Some e => (b, inl e)
      | None => exec b
      end in
    (inr res, s,
     World.mk b' (World.trace w
                  ++ [Storage q (match res with inr _ => true | inl _ => false end)])).

(** [from('messages').insert({...}).select().single()] *)
Definition insertMessage (r : Reply.t) (conversation_id content : jsstring)
           (role : Role) : M (Error.t + Message.t) :=
  storage r (InsertMessage conversation_id content role)
    (fun b =>
       let '(b', row) :=
         Backend.insert_message conversation_id content role
                                (Reply.fresh_id r) b in
       (b', single [row])).

(** [from('conversations').insert({...}).select().single()] *)
Definition insertConversation (r : Reply.t) (user_id title : jsstring)
  : M (Error.t + ConversationRow.t) :=
  storage r (InsertConversation user_id title)
    (fun b =>
       let '(b', row) :=
         Backend.insert_conversation user_id title (Reply.fresh_id r) b in
       (b', single [row])).

(** [from('conversations').select(...).eq('id', id).eq('user_id', uid).single()] *)
Definition selectConversation (r : Reply.t) (id uid : jsstring)
  : M (Error.t + ConversationRow.t) :=
  storage r (SelectConversation id uid)
    (fun b => (b, single (Backend.conversation_by_id id uid b))).

(** [from('conversations').select(...).eq('user_id', uid)
      .order('updated_at', { ascending: false }).limit(1)] *)
Definition selectRecentConversation (r : Reply.t) (uid : jsstring)
  : M (Error.t + list ConversationRow.t) :=
  storage r (SelectRecentConversation uid)
    (fun b => (b, inr (firstn 1 (Backend.conversations_of uid b)))).

(** [from('conversations').select(...).eq('user_id', uid)
      .order('updated_at', { ascending: false })] *)
Definition selectConversations (r : Reply.t) (uid : jsstring)
  : M (Error.t + list ConversationRow.t) :=
  storage r (SelectConversations uid)
    (fun b => (b, inr (Backend.conversations_of uid b))).

(** [from('messages').select('*').eq('conversation_id', cid)
      .order('created_at', { ascending: true })] *)
Definition selectMessages (r : Reply.t) (cid : jsstring)
  : M (Error.t + list Message.t) :=
  storage r (SelectMessages cid)
    (fun b => (b, inr (Backend.messages_of cid b))).

(** [from('conversations').update({ updated_at: ts }).eq('id', id)] *)
Definition updateConversation (r : Reply.t) (id : jsstring) (ts : timestamp)
  : M (Error.t + unit) :=
  storage r (UpdateConversation id ts)
    (fun b => (Backend.touch id ts b, inr tt)).

(** [await fetch(url, init)]: the promise rejects (network failure) or
    resolves to a response, whatever its status. *)
Definition fetch (outcome : Error.t + Fetch.Response) (req : Fetch.Request)
  : M Fetch.Response :=
  bind (emit (Fetched req)) (fun _ => orThrow outcome).

End Handler.

Arguments ret {St A}.
Arguments bind {St A B}.
Arguments throw {St A}.
Arguments orThrow {St A}.
Arguments try_catch {St A}.
Arguments try_finally {St A}.
Arguments rendered {St}.
Arguments setState {St}.
Arguments emit {St}.
Arguments toast {St}.
Arguments navigate {St}.
Arguments storage {St A}.
Arguments insertMessage {St}.
Arguments insertConversation {St}.
Arguments selectConversation {St}.
Arguments selectRecentConversation {St}.
Arguments selectConversations {St}.
Arguments selectMessages {St}.
Arguments updateConversation {St}.
Arguments fetch {St}.

Declare Scope handler_scope.
Delimit Scope handler_scope with handler.
Notation "x <- c ;; k" := (bind c (fun x => k))
  (at level 61, c at next level, right associativity) : handler_scope.
Notation "c ;; k" := (bind c (fun _ => k))
  (at level 61, right associativity) : handler_scope.

Local Open Scope handler_scope.

(** [const { data, error } = await call; if (error) throw error;] *)
Definition checked {St A} (call : M St (Error.t + A)) : M St A :=
  res <- call ;; orThrow res.

(** [!value] for a [string | null]. *)
Definition falsy (v : option jsstring) : bool :=
  match v with
  | None => true
  | Some s => negb (JS.truthy s)
  end.

(** The value of a [string | null] when it is truthy. *)
Definition when_truthy (v : option jsstring) : option jsstring :=
  match v with
  | Some s => if JS.truthy s then Some s else None
  | None => None
  end.

(** [session?.user] is truthy. *)
Definition signed_in (s : option Session.t) : bool :=
  match s with
  | None => false
  | Some _ => true
  end.

(** The fixed endpoint of the AI agent. *)
Definition webhook_url : jsstring :=
  JS.lit "https://n8n.automabot.net.br/webhook/trader".

(** What the outside world contributes to one [sendMessage]: the replies of
    the three storage calls, how the webhook call settles, and the reading
    of [new Date()]. *)
Module SendEnv.
Record t := mk {
  user_insert : Reply.t;
  webhook : Error.t + Fetch.Response;
  ai_insert : Reply.t;
  refresh : Reply.t;
  today : timestamp
}.
End SendEnv.

(** Strings of the screens that are not ASCII, by code unit. *)
Module Text.
(** "Nao foi possivel carregar a conversa", with a-tilde and i-acute *)
Definition cannot_load_conversation : jsstring :=
  JS.lit "N" ++ [0xE3%N] ++ JS.lit "o foi poss" ++ [0xED%N]
    ++ JS.lit "vel carregar a conversa".
(** "Nao foi possivel enviar a mensagem" *)
Definition cannot_send_message : jsstring :=
  JS.lit "N" ++ [0xE3%N] ++ JS.lit "o foi poss" ++ [0xED%N]
    ++ JS.lit "vel enviar a mensagem".
(** "Nao foi possivel carregar o historico", with o-acute *)
Definition cannot_load_history : jsstring :=
  JS.lit "N" ++ [0xE3%N] ++ JS.lit "o foi poss" ++ [0xED%N]
    ++ JS.lit "vel carregar o hist" ++ [0xF3%N] ++ JS.lit "rico".
(** "Nao foi possivel criar nova conversa" *)
Definition cannot_create_conversation : jsstring :=
  JS.lit "N" ++ [0xE3%N] ++ JS.lit "o foi poss" ++ [0xED%N]
    ++ JS.lit "vel criar nova conversa".
(** "Erro na comunicacao com o agente", with c-cedilla and a-tilde *)
Definition agent_unreachable : jsstring :=
  JS.lit "Erro na comunica" ++ [0xE7%N; 0xE3%N] ++ JS.lit "o com o agente".
End Text.

Definition destructive (description : jsstring) : Toast.t :=
  Toast.mk (JS.lit "Erro") description (JS.lit "destructive").

(* ===================================================================== *)
(** ** The Chat screen of [src/pages/Chat.tsx] *)

Module ChatPage.

Record State := mkState {
  session : option Session.t;
  messages : list Message.t;
  currentMessage : jsstring;
  isLoading : bool;
  currentConversation : option jsstring
}.

(** [useState] initial values. *)
Definition initial : State := mkState None [] [] false None.

Definition setSession (v : option Session.t) : M State unit :=
  setState (fun s => mkState v (messages s) (currentMessage s)
                             (isLoading s) (currentConversation s)).
Definition setMessages (f : list Message.t -> list Message.t)
  : M State unit :=
  setState (fun s => mkState (session s) (f (messages s)) (currentMessage s)
                             (isLoading s) (currentConversation s)).
Definition setCurrentMessage (v : jsstring) : M State unit :=
  setState (fun s => mkState (session s) (messages s) v
                             (isLoading s) (currentConversation s)).
Definition setIsLoading (v : bool) : M State unit :=
  setState (fun s => mkState (session s) (messages s) (currentMessage s)
                             v (currentConversation s)).
Definition setCurrentConversation (v : option jsstring) : M State unit :=
  setState (fun s => mkState (session s) (messages s) (currentMessage s)
                             (isLoading s) v).

(** The replies to the calls of one [createOrLoadConversation]. *)
Record LoadEnv := mkLoadEnv {
  recent : Reply.t;
  history : Reply.t;
  created : Reply.t
}.

Definition createOrLoadConversation (env : LoadEnv) : M State unit :=
  st <- rendered ;;
  match session st with
  | None => ret tt
  | Some sess =>
      try_catch
        (conversations <-
           checked (selectRecentConversation (recent env)
                      (User.id (Session.user sess))) ;;
         match conversations with
         | c :: _ =>
             let conversationId := ConversationRow.id c in
             setCurrentConversation (Some conversationId) ;;
             msgs <- checked (selectMessages (history env) conversationId) ;;
             setMessages (fun _ => msgs)
         | [] =>
             newConversation <-
               checked (insertConversation (created env)
                          (User.id (Session.user sess))
                          (JS.lit "Nova Conversa")) ;;
             let conversationId := ConversationRow.id newConversation in
             setCurrentConversation (Some conversationId) ;;
             setMessages (fun _ => [])
         end)
        (fun error =>
           toast (destructive Text.cannot_load_conversation))
  end.

Definition sendMessage (env : SendEnv.t) : M State unit :=
  st <- rendered ;;
  if negb (JS.truthy (JS.trim (currentMessage st)))
     || falsy (currentConversation st)
     || negb (signed_in (session st))
  then ret tt
  else
  match session st, currentConversation st with
  | Some sess, Some conversation =>
        let userMessage := JS.trim (currentMessage st) in
        setCurrentMessage [] ;;
        setIsLoading true ;;
        try_finally
          (try_catch
             (userMessageData <-
                checked (insertMessage (SendEnv.user_insert env)
                           conversation userMessage user) ;;
              setMessages (fun prev => prev ++ [userMessageData]) ;;
              response <-
                fetch (SendEnv.webhook env)
                  (Fetch.mkRequest webhook_url (JS.lit "POST") None
                     (JS.lit "application/json")
                     (Payload.mk userMessage (User.id (Session.user sess))
                                 conversation)) ;;
              if negb (Fetch.ok response)
              then throw (Error.mk Text.agent_unreachable)
              else
                aiResponse <- orThrow (Fetch.text response) ;;
                aiMessageData <-
                  checked (insertMessage (SendEnv.ai_insert env)
                             conversation aiResponse assistant) ;;
                setMessages (fun prev => prev ++ [aiMessageData]) ;;
                _ <- updateConversation (SendEnv.refresh env) conversation
                       (SendEnv.today env) ;;
                ret tt)
             (fun error =>
                toast (destructive
                         (JS.or_else (Error.message error)
                                     Text.cannot_send_message))))
          (setIsLoading false)
  | _, _ => ret tt
  end.

End ChatPage.

(* ===================================================================== *)
(** ** The Chat screen of [unnamed/part_000] *)

Module ChatRouted.

Record State := mkState {
  session : option Session.t;
  messages : list Message.t;
  currentMessage : jsstring;
  isLoading : bool;
  currentConversation : option jsstring;
  conversationTitle : jsstring
}.

Definition initial : State := mkState None [] [] false None [].

Definition setSession (v : option Session.t) : M State unit :=
  setState (fun s => mkState v (messages s) (currentMessage s) (isLoading s)
                             (currentConversation s) (conversationTitle s)).
Definition setMessages (f : list Message.t -> list Message.t)
  : M State unit :=
  setState (fun s => mkState (session s) (f (messages s)) (currentMessage s)
                             (isLoading s) (currentConversation s)
                             (conversationTitle s)).
Definition setCurrentMessage (v : jsstring) : M State unit :=
  setState (fun s => mkState (session s) (messages s) v (isLoading s)
                             (currentConversation s) (conversationTitle s)).
Definition setIsLoading (v : bool) : M State unit :=
  setState (fun s => mkState (session s) (messages s) (currentMessage s) v
                             (currentConversation s) (conversationTitle s)).
Definition setCurrentConversation (v : option jsstring) : M State unit :=
  setState (fun s => mkState (session s) (messages s) (currentMessage s)
                             (isLoading s) v (conversationTitle s)).
Definition setConversationTitle (v : jsstring) : M State unit :=
  setState (fun s => mkState (session s) (messages s) (currentMessage s)
                             (isLoading s) (currentConversation s) v).

(** The replies to the calls of one [createOrLoadConversation]. *)
Record LoadEnv := mkLoadEnv {
  conversation : Reply.t;
  recent : Reply.t;
  history : Reply.t
}.

(** [conversationIdFromUrl] is [searchParams.get('conversation')]. *)
Definition createOrLoadConversation
           (conversationIdFromUrl : option jsstring) (env : LoadEnv)
  : M State unit :=
  st <- rendered ;;
  match session st with
  | None => ret tt
  | Some sess =>
      try_catch
        (match when_truthy conversationIdFromUrl with
         | Some fromUrl =>
             conv <- checked (selectConversation (conversation env) fromUrl
                                (User.id (Session.user sess))) ;;
             setCurrentConversation (Some fromUrl) ;;
             setConversationTitle
               (JS.or_else (ConversationRow.title conv)
                           (JS.lit "Conversa")) ;;
             msgs <- checked (selectMessages (history env) fromUrl) ;;
             setMessages (fun _ => msgs)
         | None =>
             conversations <-
               checked (selectRecentConversation (recent env)
                          (User.id (Session.user sess))) ;;
             match conversations with
             | c :: _ =>
                 let conversationId := ConversationRow.id c in
                 let title :=
                   JS.or_else (ConversationRow.title c) (JS.lit "Conversa") in
                 setCurrentConversation (Some conversationId) ;;
                 setConversationTitle title ;;
                 msgs <- checked (selectMessages (history env)
                                    conversationId) ;;
                 setMessages (fun _ => msgs)
             | [] => navigate (JS.lit "/chat-history")
             end
         end)
        (fun error =>
           toast (destructive Text.cannot_load_conversation) ;;
           navigate (JS.lit "/chat-history"))
  end.

Definition sendMessage (env : SendEnv.t) : M State unit :=
  st <- rendered ;;
  if negb (JS.truthy (JS.trim (currentMessage st)))
     || falsy (currentConversation st)
     || negb (signed_in (session st))
  then ret tt
  else
  match session st, currentConversation st with
  | Some sess, Some conversation =>
        let userMessage := JS.trim (currentMessage st) in
        setCurrentMessage [] ;;
        setIsLoading true ;;
        try_finally
          (try_catch
             (userMessageData <-
                checked (insertMessage (SendEnv.user_insert env)
                           conversation userMessage user) ;;
              setMessages (fun prev => prev ++ [userMessageData]) ;;
              response <-
                fetch (SendEnv.webhook env)
                  (Fetch.mkRequest webhook_url (JS.lit "POST")
                     (Some (JS.lit "cors")) (JS.lit "application/json")
                     (Payload.mk userMessage (User.id (Session.user sess))
                                 conversation)) ;;
              if negb (Fetch.ok response)
              then throw (Error.mk (Text.agent_unreachable ++ JS.lit ": "
                                    ++ JS.ofNumber (Fetch.status response)))
              else
                aiResponse <- orThrow (Fetch.text response) ;;
                if negb (JS.truthy aiResponse)
                   || JS.eqb (JS.trim aiResponse) []
                then throw (Error.mk (JS.lit "Resposta vazia do agente IA"))
                else
                  aiMessageData <-
                    checked (insertMessage (SendEnv.ai_insert env)
                               conversation aiResponse assistant) ;;
                  setMessages (fun prev => prev ++ [aiMessageData]) ;;
                  _ <- updateConversation (SendEnv.refresh env) conversation
                         (SendEnv.today env) ;;
                  ret tt)
             (fun error =>
                toast (destructive
                         (JS.or_else (Error.message error)
                                     Text.cannot_send_message))))
          (setIsLoading false)
  | _, _ => ret tt
  end.

End ChatRouted.

(* ===================================================================== *)
(** ** The history screen of [src/pages/ChatHistory.tsx] *)

Module ChatHistory.

(** [interface Conversation]: the columns the screen selects. *)
Record Conversation := mkConversation {
  id : jsstring;
  title : jsstring;
  created_at : timestamp;
  updated_at : timestamp
}.

(** [.select('id, title, created_at, updated_at')] *)
Definition selected (row : ConversationRow.t) : Conversation :=
  mkConversation (ConversationRow.id row) (ConversationRow.title row)
                 (ConversationRow.created_at row)
                 (ConversationRow.updated_at row).

Record State := mkState {
  session : option Session.t;
  conversations : list Conversation;
  loading : bool
}.

Definition initial : State := mkState None [] true.

Definition setSession (v : option Session.t) : M State unit :=
  setState (fun s => mkState v (conversations s) (loading s)).
Definition setConversations (v : list Conversation) : M State unit :=
  setState (fun s => mkState (session s) v (loading s)).
Definition setLoading (v : bool) : M State unit :=
  setState (fun s => mkState (session s) (conversations s) v).

Definition loadConversations (reply : Reply.t) : M State unit :=
  st <- rendered ;;
  match session st with
  | None => ret tt
  | Some sess =>
      try_finally
        (try_catch
           (data <- checked (selectConversations reply
                               (User.id (Session.user sess))) ;;
            setConversations (map selected data))
           (fun error => toast (destructive Text.cannot_load_history)))
        (setLoading false)
  end.

(** [dateLabel] is [new Date().toLocaleDateString('pt-BR')]. *)
Definition createNewConversation (dateLabel : jsstring) (reply : Reply.t)
  : M State unit :=
  st <- rendered ;;
  match session st with
  | None => ret tt
  | Some sess =>
      try_catch
        (data <- checked (insertConversation reply
                            (User.id (Session.user sess))
                            (JS.lit "Nova Conversa " ++ dateLabel)) ;;
         navigate (JS.lit "/chat?conversation=" ++ ConversationRow.id data))
        (fun error => toast (destructive Text.cannot_create_conversation))
  end.

End ChatHistory.

(* ===================================================================== *)
(** ** Running handlers; vocabulary of the properties *)

(** The screen and the world a handler leaves behind. *)
Definition after {St A} (h : M St A) (s : St) (w : World.t) : St * World.t :=
  let '(_, s', w') := h s w in (s', w').

(** A reply that reports no error. *)
Definition succeeds (r : Reply.t) : Prop := Reply.failure r = None.

(** The instant at which the server executes a call replied to by [r]. *)
Definition at_server (w : World.t) (r : Reply.t) : timestamp :=
  Backend.now (World.backend w) + Z.of_N (Reply.elapsed r).

Definition is_user_insert (e : Event) : bool :=
  match e with
  | Storage (InsertMessage _ _ user) _ => true
  | _ => false
  end.

Definition is_assistant_insert (e : Event) : bool :=
  match e with
  | Storage (InsertMessage _ _ assistant) _ => true
  | _ => false
  end.

Definition is_refresh (e : Event) : bool :=
  match e with
  | Storage (UpdateConversation _ _) _ => true
  | _ => false
  end.

Definition is_fetch (e : Event) : bool :=
  match e with
  | Fetched _ => true
  | _ => false
  end.

Definition is_toast (e : Event) : bool :=
  match e with
  | Toasted _ => true
  | _ => false
  end.

(** The transcript is in non-decreasing order of creation time. *)
Definition ascending (l : list Message.t) : Prop :=
  StronglySorted (fun a b => Message.created_at a <= Message.created_at b) l.

(** Most recently updated first. *)
Definition latest_first (l : list ConversationRow.t) : Prop :=
  StronglySorted
    (fun a b => ConversationRow.updated_at b <= ConversationRow.updated_at a) l.

(** What other clients, the server and the passing of time do to the
    storage between two steps of a screen.  A table has no order of its
    own: the server may hold and return its rows in any order, unless a
    select asks for one. *)
Inductive elsewhere : Backend.t -> Backend.t -> Prop :=
| time_passes n b :
    elsewhere b (Backend.advance n b)
| message_inserted conversation_id content role new_id b :
    elsewhere b (fst (Backend.insert_message conversation_id content role
                                             new_id b))
| conversation_inserted user_id title new_id b :
    elsewhere b (fst (Backend.insert_conversation user_id title new_id b))
| conversation_touched id ts b :
    elsewhere b (Backend.touch id ts b)
| rows_rearranged rows b :
    Permutation rows (Backend.messages b) ->
    elsewhere b (Backend.mk (Backend.conversations b) rows (Backend.now b)).

(** Two webhook requests are the same on the wire. *)
Definition same_request (a b : Fetch.Request) : Prop :=
  Fetch.url a = Fetch.url b /\ Fetch.method a = Fetch.method b
  /\ Fetch.effective_mode a = Fetch.effective_mode b
  /\ Fetch.content_type a = Fetch.content_type b
  /\ Fetch.body a = Fetch.body b.

Definition same_event (a b : Event) : Prop :=
  match a, b with
  | Fetched r1, Fetched r2 => same_request r1 r2
  | _, _ => a = b
  end.

(** The state the two Chat screens have in common. *)
Definition same_screen (p : ChatPage.State) (r : ChatRouted.State) : Prop :=
  ChatPage.session p = ChatRouted.session r
  /\ ChatPage.messages p = ChatRouted.messages r
  /\ ChatPage.currentMessage p = ChatRouted.currentMessage r
  /\ ChatPage.isLoading p = ChatRouted.isLoading r
  /\ ChatPage.currentConversation p = ChatRouted.currentConversation r.

(** The send flows of the two Chat screens agree whenever every storage
    call succeeds and the webhook answers 2xx with a body that is
    [acceptable]: same outcome, same screen, same storage, and the same
    calls in the same order. *)
Definition send_flows_agree (acceptable : jsstring -> Prop) : Prop :=
  forall (env : SendEnv.t) (p : ChatPage.State) (r : ChatRouted.State)
         (w : World.t) (response : Fetch.Response) (body : jsstring),
    same_screen p r ->
    signed_in (ChatPage.session p) = true ->
    falsy (ChatPage.currentConversation p) = false ->
    JS.trim (ChatPage.currentMessage p) <> [] ->
    succeeds (SendEnv.user_insert env) ->
    succeeds (SendEnv.ai_insert env) ->
    succeeds (SendEnv.refresh env) ->
    SendEnv.webhook env = inr response ->
    Fetch.ok response = true ->
    Fetch.text response = inr body ->
    acceptable body ->
    let '(o1, p', w1) := ChatPage.sendMessage env p w in
    let '(o2, r', w2) := ChatRouted.sendMessage env r w in
    o1 = o2 /\ same_screen p' r'
    /\ World.backend w1 = World.backend w2
    /\ Forall2 same_event (World.trace w1) (World.trace w2).

(** No row carries a creation time later than [t]. *)
Definition not_after (t : timestamp) (l : list Message.t) : Prop :=
  Forall (fun m => Message.created_at m <= t) l.

(** No row of the table is stamped later than the server's clock reads. *)
Definition punctual (w : World.t) : Prop :=
  not_after (Backend.now (World.backend w))
            (Backend.messages (World.backend w)).

(** What "exactly one user message is persisted before any webhook call"
    says of the events [events] of one send of [content] to [conv], which
    took the storage from [b] to [b']: the insert of the user message is
    issued once; and if the webhook is called at all, what precedes the
    call is that one insert, settled successfully, and the storage has
    gained exactly one user row, followed by assistant rows only. *)
Definition user_message_first (conv content : jsstring) (b b' : Backend.t)
           (events : list Event) : Prop :=
  List.length (filter is_user_insert events) = 1%nat
  /\ forall pre req post,
      events = pre ++ Fetched req :: post ->
      pre = [Storage (InsertMessage conv content user) true]
      /\ forallb (fun e => negb (is_fetch e)) post = true
      /\ exists row later,
          Backend.messages b' = Backend.messages b ++ row :: later
          /\ Message.role row = user
          /\ Message.content row = content
          /\ Message.conversation_id row = conv
          /\ Forall (fun m => Message.role m = assistant) later.

(** The state in which [sendMessage] does not return at its guard: a
    session, an active conversation, and input that is not blank. *)
Definition page_accepts (s : ChatPage.State) (sess : Session.t)
           (conv : jsstring) : Prop :=
  ChatPage.session s = Some sess
  /\ ChatPage.currentConversation s = Some conv /\ conv <> []
  /\ JS.trim (ChatPage.currentMessage s) <> [].

Definition routed_accepts (s : ChatRouted.State) (sess : Session.t)
           (conv : jsstring) : Prop :=
  ChatRouted.session s = Some sess
  /\ ChatRouted.currentConversation s = Some conv /\ conv <> []
  /\ JS.trim (ChatRouted.currentMessage s) <> [].

(* ===================================================================== *)
(** ** Handlers between their awaits

    An [async] handler runs until its next [await], leaves the call it
    awaits with the outside, and goes on when the answer is handed back.
    Until then the screen is free: other handlers start, and the answers
    to their calls are handled. *)

(** What a handler awaits: a storage call, [fetch(url, init)], or
    [response.text()]. *)
Inductive Await : Type -> Type :=
| Stored (A : Type) (call : Reply.t -> M unit (Error.t + A))
  : Await (Error.t + A)
| Fetching (req : Fetch.Request) : Await (Error.t + Fetch.Response)
| Reading (response : Fetch.Response) : Await (Error.t + jsstring).

(** What is left of a handler: nothing; code that runs at once, none of
    which throws; or a call to await, and what to do with its answer. *)
Inductive Task (St : Type) : Type :=
| Done : Task St
| Sync (code : M St unit) (next : Task St) : Task St
| Parked (A : Type) (call : Await A) (resume : A -> Task St) : Task St.

Arguments Done {St}.

(** A handler at an [await] the outside has not answered yet. *)
Inductive Pending (St : Type) : Type :=
| Waiting (A : Type) (call : Await A) (resume : A -> Task St).

(** What the outside contributes to one awaited call: the reply of the
    storage, or how the webhook call settles. *)
Module Service.
Record t := mk {
  reply : Reply.t;
  outcome : Error.t + Fetch.Response
}.
End Service.

(** The outside answers a call: the server executes a storage call at its
    clock, the webhook settles, the body of a response is read. *)
Definition serve {A} (call : Await A) (sv : Service.t) (w : World.t)
  : A * World.t :=
  match call in Await T return T * World.t with
  | Stored call =>
      match call (Service.reply sv) tt w with
      | (inr res, _, w') => (res, w')
      | (inl e, _, w') => (inl e, w')
      end
  | Fetching _ => (Service.outcome sv, w)
  | Reading response => (Fetch.text response, w)
  end.

(** A task runs on the screen until its next [await]. *)
Fixpoint proceed {St} (task : Task St) (s : St) (w : World.t)
  : St * World.t * list (Pending St) :=
  match task with
  | Done => (s, w, [])
  | Sync code next =>
      let '(s', w') := after code s w in proceed next s' w'
  | Parked call resume => (s, w, [Waiting call resume])
  end.

(** A handler that nothing interrupts: each call is answered, and the
    answer handled, before anything else happens. *)
Fixpoint complete {St} (task : Task St) (services : list Service.t)
         (s : St) (w : World.t) : St * World.t :=
  match task with
  | Done => (s, w)
  | Sync code next =>
      let '(s', w') := after code s w in complete next services s' w'
  | Parked call resume =>
      match services with
      | [] => (s, w)
      | sv :: rest =>
          let '(answer, w') := serve call sv w in
          complete (resume answer) rest s w'
      end
  end.

(** [createOrLoadConversation] and [sendMessage] of [src/pages/Chat.tsx],
    cut at their awaits.  What a handler reads of the state it closed over
    is an argument; [today] is what [new Date()] reads for the final
    update. *)
Module ChatPageAsync.

Import ChatPage.

(** [catch] of [createOrLoadConversation] *)
Definition load_failed : Task State :=
  Sync (toast (destructive Text.cannot_load_conversation)) Done.

Definition createOrLoadConversation (session : option Session.t)
  : Task State :=
  match session with
  | None => Done
  | Some sess =>
      Parked
        (Stored (fun r => selectRecentConversation r
                            (User.id (Session.user sess))))
        (fun res =>
           match res with
           | inl error => load_failed
           | inr (c :: _) =>
               let conversationId := ConversationRow.id c in
               Sync (setCurrentConversation (Some conversationId))
                 (Parked
                    (Stored (fun r => selectMessages r conversationId))
                    (fun res =>
                       match res with
                       | inl error => load_failed
                       | inr msgs => Sync (setMessages (fun _ => msgs)) Done
                       end))
           | inr [] =>
               Parked
                 (Stored (fun r => insertConversation r
                                     (User.id (Session.user sess))
                                     (JS.lit "Nova Conversa")))
                 (fun res =>
                    match res with
                    | inl error => load_failed
                    | inr newConversation =>
                        Sync (setCurrentConversation
                                (Some (ConversationRow.id newConversation)) ;;
                              setMessages (fun _ => []))
                             Done
                    end)
           end)
  end.

(** [catch] and [finally] of [sendMessage] *)
Definition failed (error : Error.t) : Task State :=
  Sync (toast (destructive (JS.or_else (Error.message error)
                                       Text.cannot_send_message)) ;;
        setIsLoading false)
       Done.

(** The rest of a send once the reply of the agent has been read. *)
Definition store_reply (conversation aiResponse : jsstring)
           (today : timestamp) : Task State :=
  Parked
    (Stored (fun r => insertMessage r conversation aiResponse assistant))
    (fun res =>
       match res with
       | inl error => failed error
       | inr aiMessageData =>
           Sync (setMessages (fun prev => prev ++ [aiMessageData]))
             (Parked
                (Stored (fun r => updateConversation r conversation today))
                (fun _ => Sync (setIsLoading false) Done))
       end).

Definition sendMessage (st : State) (today : timestamp) : Task State :=
  if negb (JS.truthy (JS.trim (currentMessage st)))
     || falsy (currentConversation st)
     || negb (signed_in (session st))
  then Done
  else
  match session st, currentConversation st with
  | Some sess, Some conversation =>
      let userMessage := JS.trim (currentMessage st) in
      let request :=
        Fetch.mkRequest webhook_url (JS.lit "POST") None
          (JS.lit "application/json")
          (Payload.mk userMessage (User.id (Session.user sess))
                      conversation) in
      Sync (setCurrentMessage [] ;; setIsLoading true)
        (Parked
           (Stored (fun r => insertMessage r conversation userMessage user))
           (fun res =>
              match res with
              | inl error => failed error
              | inr userMessageData =>
                  Sync (setMessages (fun prev => prev ++ [userMessageData]) ;;
                        emit (Fetched request))
                    (Parked (Fetching request)
                       (fun res =>
                          match res with
                          | inl error => failed error
                          | inr response =>
                              if negb (Fetch.ok response)
                              then failed (Error.mk Text.agent_unreachable)
                              else
                                Parked (Reading response)
                                  (fun res =>
                                     match res with
                                     | inl error => failed error
                                     | inr aiResponse =>
                                         store_reply conversation
                                                     aiResponse today
                                     end)
                          end))
              end))
  | _, _ => Done
  end.

(** [setSession(session)] in the callbacks of [getSession] and
    [onAuthStateChange], then the effect that depends on [session]. *)
Definition sessionChanged (v : option Session.t) : Task State :=
  Sync (setSession v)
       (if signed_in v then createOrLoadConversation v else Done).

(** [onChange] of the input *)
Definition inputChanged (v : jsstring) : Task State :=
  Sync (setCurrentMessage v) Done.

(** What starts a handler on the screen.  The input and the send button
    are disabled while [isLoading]. *)
Inductive event : State -> Task State -> Prop :=
| session_event v s :
    event s (sessionChanged v)
| input_event v s :
    isLoading s = false -> event s (inputChanged v)
| send_event today s :
    isLoading s = false -> event s (sendMessage s today).

End ChatPageAsync.

(** The same for the screen of [unnamed/part_000]. *)
Module ChatRoutedAsync.

Import ChatRouted.

Definition load_failed : Task State :=
  Sync (toast (destructive Text.cannot_load_conversation) ;;
        navigate (JS.lit "/chat-history"))
       Done.

(** The rest of a load once the conversation is known. *)
Definition open_conversation (conversationId title : jsstring)
  : Task State :=
  Sync (setCurrentConversation (Some conversationId) ;;
        setConversationTitle title)
    (Parked
       (Stored (fun r => selectMessages r conversationId))
       (fun res =>
          match res with
          | inl error => load_failed
          | inr msgs => Sync (setMessages (fun _ => msgs)) Done
          end)).

Definition createOrLoadConversation (session : option Session.t)
           (conversationIdFromUrl : option jsstring) : Task State :=
  match session with
  | None => Done
  | Some sess =>
      match when_truthy conversationIdFromUrl with
      | Some fromUrl =>
          Parked
            (Stored (fun r => selectConversation r fromUrl
                                (User.id (Session.user sess))))
            (fun res =>
               match res with
               | inl error => load_failed
               | inr conv =>
                   open_conversation fromUrl
                     (JS.or_else (ConversationRow.title conv)
                                 (JS.lit "Conversa"))
               end)
      | None =>
          Parked
            (Stored (fun r => selectRecentConversation r
                                (User.id (Session.user sess))))
            (fun res =>
               match res with
               | inl error => load_failed
               | inr (c :: _) =>
                   open_conversation (ConversationRow.id c)
                     (JS.or_else (ConversationRow.title c)
                                 (JS.lit "Conversa"))
               | inr [] => Sync (navigate (JS.lit "/chat-history")) Done
               end)
      end
  end.

Definition failed (error : Error.t) : Task State :=
  Sync (toast (destructive (JS.or_else (Error.message error)
                                       Text.cannot_send_message)) ;;
        setIsLoading false)
       Done.

(** The rest of a send once the reply of the agent has been read. *)
Definition store_reply (conversation aiResponse : jsstring)
           (today : timestamp) : Task State :=
  Parked
    (Stored (fun r => insertMessage r conversation aiResponse assistant))
    (fun res =>
       match res with
       | inl error => failed error
       | inr aiMessageData =>
           Sync (setMessages (fun prev => prev ++ [aiMessageData]))
             (Parked
                (Stored (fun r => updateConversation r conversation today))
                (fun _ => Sync (setIsLoading false) Done))
       end).

Definition sendMessage (st : State) (today : timestamp) : Task State :=
  if negb (JS.truthy (JS.trim (currentMessage st)))
     || falsy (currentConversation st)
     || negb (signed_in (session st))
  then Done
  else
  match session st, currentConversation st with
  | Some sess, Some conversation =>
      let userMessage := JS.trim (currentMessage st) in
      let request :=
        Fetch.mkRequest webhook_url (JS.lit "POST") (Some (JS.lit "cors"))
          (JS.lit "application/json")
          (Payload.mk userMessage (User.id (Session.user sess))
                      conversation) in
      Sync (setCurrentMessage [] ;; setIsLoading true)
        (Parked
           (Stored (fun r => insertMessage r conversation userMessage user))
           (fun res =>
              match res with
              | inl error => failed error
              | inr userMessageData =>
                  Sync (setMessages (fun prev => prev ++ [userMessageData]) ;;
                        emit (Fetched request))
                    (Parked (Fetching request)
                       (fun res =>
                          match res with
                          | inl error => failed error
                          | inr response =>
                              if negb (Fetch.ok response)
                              then failed
                                     (Error.mk
                                        (Text.agent_unreachable ++ JS.lit ": "
                                         ++ JS.ofNumber
                                              (Fetch.status response)))
                              else
                                Parked (Reading response)
                                  (fun res =>
                                     match res with
                                     | inl error => failed error
                                     | inr aiResponse =>
                                         if negb (JS.truthy aiResponse)
                                            || JS.eqb (JS.trim aiResponse) []
                                         then failed
                                                (Error.mk
                                                   (JS.lit
                                                      "Resposta vazia do agente IA"))
                                         else store_reply conversation
                                                          aiResponse today
                                     end)
                          end))
              end))
  | _, _ => Done
  end.

(** The effect reads [searchParams.get('conversation')] as the address
    then is. *)
Definition sessionChanged (v : option Session.t)
           (conversationIdFromUrl : option jsstring) : Task State :=
  Sync (setSession v)
       (if signed_in v
        then createOrLoadConversation v conversationIdFromUrl
        else Done).

Definition inputChanged (v : jsstring) : Task State :=
  Sync (setCurrentMessage v) Done.

Inductive event : State -> Task State -> Prop :=
| session_event v fromUrl s :
    event s (sessionChanged v fromUrl)
| input_event v s :
    isLoading s = false -> event s (inputChanged v)
| send_event today s :
    isLoading s = false -> event s (sendMessage s today).

End ChatRoutedAsync.

(** A screen, the world, the calls the outside has not answered yet, and
    the answers on their way back, oldest first, each as the rest of its
    handler. *)
Module System.
Record t (St : Type) := mk {
  screen : St;
  world : World.t;
  calls : list (Pending St);
  answers : list (Task St)
}.
End System.

(** The list without its [n]th element. *)
Definition without {A} (n : nat) (l : list A) : list A :=
  firstn n l ++ skipn (S n) l.

(** A task starts, or goes on, on the screen. *)
Definition launch {St} (task : Task St) (x : System.t St) : System.t St :=
  let '(s, w, parked) := proceed task (System.screen x) (System.world x) in
  System.mk s w (System.calls x ++ parked) (System.answers x).

(** The outside answers the [n]th call. *)
Definition answered {St} (n : nat) (sv : Service.t) (x : System.t St)
  : System.t St :=
  match nth_error (System.calls x) n with
  | Some (Waiting call resume) =>
      let '(answer, w) := serve call sv (System.world x) in
      System.mk (System.screen x) w (without n (System.calls x))
                (System.answers x ++ [resume answer])
  | None => x
  end.

(** The screen handles the [n]th answer. *)
Definition handled {St} (n : nat) (x : System.t St) : System.t St :=
  match nth_error (System.answers x) n with
  | Some task =>
      launch task (System.mk (System.screen x) (System.world x)
                             (System.calls x) (without n (System.answers x)))
  | None => x
  end.

(** Something happens to the storage elsewhere. *)
Definition outside {St} (b : Backend.t) (x : System.t St) : System.t St :=
  System.mk (System.screen x)
            (World.mk b (World.trace (System.world x)))
            (System.calls x) (System.answers x).

(** The steps of a screen whose handlers start on [event]s.  Any pending
    call may be answered next.  With [in_order] the screen handles the
    answers in the order in which the outside gave them; without, in any
    order. *)
Section Scheduling.
Variable St : Type.
Variable initial : St.
Variable event : St -> Task St -> Prop.
Variable in_order : bool.

Inductive step : System.t St -> System.t St -> Prop :=
| step_event task x :
    event (System.screen x) task -> step x (launch task x)
| step_answered n sv x :
    (n < List.length (System.calls x))%nat -> step x (answered n sv x)
| step_handled n x :
    (n < List.length (System.answers x))%nat ->
    (in_order = true -> n = 0%nat) ->
    step x (handled n x)
| step_outside b x :
    elsewhere (World.backend (System.world x)) b -> step x (outside b x).

(** The screen is mounted over any storage whose rows are not stamped in
    the future. *)
Inductive reachable : System.t St -> Prop :=
| reach_mounted w :
    punctual w -> reachable (System.mk initial w [] [])
| reach_step x y :
    reachable x -> step x y -> reachable y.

End Scheduling.

(** "In every reachable state the transcript is ascending", for the steps
    that handle answers [in_order] or not. *)
Definition transcript_always_ascending (in_order : bool) : Prop :=
  (forall x,
      reachable ChatPage.initial ChatPageAsync.event in_order x ->
      ascending (ChatPage.messages (System.screen x)))
  /\ (forall x,
         reachable ChatRouted.initial ChatRoutedAsync.event in_order x ->
         ascending (ChatRouted.messages (System.screen x))).

(** The invariant behind the ordered transcript.  A task is orderly at [t]
    when the code it runs at once leaves the storage alone and keeps a
    transcript ascending and not stamped after [t], and every call it
    awaits is answered, on a punctual storage, by a punctual storage whose
    clock has not gone back, with the rest of the task orderly at the time
    of the answer. *)
Section Orderly.
Variable St : Type.
Variable transcript : St -> list Message.t.

Fixpoint orderly (t : timestamp) (task : Task St) : Prop :=
  match task with
  | Done => True
  | Sync code next =>
      (forall s w,
          let '(s', w') := after code s w in
          World.backend w' = World.backend w
          /\ (ascending (transcript s) -> not_after t (transcript s) ->
              ascending (transcript s') /\ not_after t (transcript s')))
      /\ orderly t next
  | Parked call resume =>
      forall sv w,
        punctual w ->
        let '(answer, w') := serve call sv w in
        punctual w'
        /\ Backend.now (World.backend w) <= Backend.now (World.backend w')
        /\ orderly (Backend.now (World.backend w')) (resume answer)
  end.

Definition answerable (p : Pending St) : Prop :=
  match p with
  | Waiting call resume => orderly 0 (Parked call resume)
  end.

(** The answers in the queue are orderly at times that do not decrease,
    from [t] up to [now]. *)
Fixpoint queued (now t : timestamp) (q : list (Task St)) : Prop :=
  match q with
  | [] => t <= now
  | task :: rest =>
      exists t', t <= t' /\ orderly t' task /\ queued now t' rest
  end.

Definition in_step (x : System.t St) : Prop :=
  punctual (System.world x)
  /\ Forall answerable (System.calls x)
  /\ exists t,
      ascending (transcript (System.screen x))
      /\ not_after t (transcript (System.screen x))
      /\ queued (Backend.now (World.backend (System.world x))) t
                (System.answers x).

End Orderly.

(* ===================================================================== *)
(** ** A concrete exchange

    The scenario of the specification: a signed-in user with one
    conversation asks "What is a good ETF?". *)

Module Scenario.

Definition alice : Session.t := Session.mk (User.mk (JS.lit "user-1")).

Definition conv1 : jsstring := JS.lit "conv-1".

Definition world : World.t :=
  World.mk
    (Backend.mk
       [ConversationRow.mk conv1 (JS.lit "user-1") (JS.lit "Nova Conversa")
                           100 100]
       [] 200)
    [].

Definition page : ChatPage.State :=
  ChatPage.mkState (Some alice) [] (JS.lit "  What is a good ETF? ") false
                   (Some conv1).

Definition routed : ChatRouted.State :=
  ChatRouted.mkState (Some alice) [] (JS.lit "  What is a good ETF? ") false
                     (Some conv1) (JS.lit "Nova Conversa").

Definition accepted (new_id : string) (ms : N) : Reply.t :=
  Reply.mk ms None (JS.lit new_id).

Definition refused (ms : N) : Reply.t :=
  Reply.mk ms (Some (Error.mk (JS.lit "permission denied"))) [].

Definition response (status : N) (body : string) : Fetch.Response :=
  Fetch.mkResponse status [] (inr (JS.lit body)).

(** Every storage call succeeds; the webhook answers [status] and [body]. *)
Definition answering (status : N) (body : string) : SendEnv.t :=
  SendEnv.mk (accepted "msg-1" 5) (inr (response status body))
             (accepted "msg-2" 7) (accepted "" 3) 1000.

(** As [answering], but the final update of [updated_at] is refused. *)
Definition unrefreshed (status : N) (body : string) : SendEnv.t :=
  SendEnv.mk (accepted "msg-1" 5) (inr (response status body))
             (accepted "msg-2" 7) (refused 3) 1000.

(** A second user, who has no conversation. *)
Definition bob : Session.t := Session.mk (User.mk (JS.lit "user-2")).

Definition page_of (sess : Session.t) : ChatPage.State :=
  ChatPage.mkState (Some sess) [] [] false None.

Definition routed_of (sess : Session.t) : ChatRouted.State :=
  ChatRouted.mkState (Some sess) [] [] false None [].

Definition page_loading : ChatPage.LoadEnv :=
  ChatPage.mkLoadEnv (accepted "" 4) (accepted "" 6) (accepted "conv-9" 8).

Definition routed_loading : ChatRouted.LoadEnv :=
  ChatRouted.mkLoadEnv (accepted "" 2) (accepted "" 4) (accepted "" 6).

(** The storage as the history screen finds it: two conversations of the
    first user around one of the second. *)
Definition shelf : World.t :=
  World.mk
    (Backend.mk
       [ConversationRow.mk (JS.lit "conv-1") (JS.lit "user-1")
                           (JS.lit "Nova Conversa") 100 100;
        ConversationRow.mk (JS.lit "conv-2") (JS.lit "user-2")
                           (JS.lit "Nova Conversa") 120 300;
        ConversationRow.mk (JS.lit "conv-3") (JS.lit "user-1")
                           (JS.lit "Nova Conversa") 150 200]
       [] 400)
    [].

Definition history : ChatHistory.State :=
  ChatHistory.mkState (Some alice) [] true.

End Scenario.

(* ===================================================================== *)
(** ** Keys, session events and the send button of the Chat screens *)

(** What [handleKeyPress] reads of a [React.KeyboardEvent]. *)
Module KeyboardEvent.
Record t := mk {
  key : jsstring;
  shiftKey : bool
}.
End KeyboardEvent.

(** [e.key === 'Enter' && !e.shiftKey] *)
Definition plain_enter (e : KeyboardEvent.t) : bool :=
  JS.eqb (KeyboardEvent.key e) (JS.lit "Enter")
  && negb (KeyboardEvent.shiftKey e).

Module ChatPageUI.

(** [handleKeyPress]; [e.preventDefault()] has no effect on the model. *)
Definition handleKeyPress (e : KeyboardEvent.t) (env : SendEnv.t)
  : M ChatPage.State unit :=
  if plain_enter e then ChatPage.sendMessage env else ret tt.

(** [setSession(session)] in the callbacks of [getSession] and
    [onAuthStateChange], followed by the effect that depends on [session]:
    [if (session) createOrLoadConversation()]. *)
Definition sessionChanged (v : option Session.t) (env : ChatPage.LoadEnv)
  : M ChatPage.State unit :=
  ChatPage.setSession v ;;
  if signed_in v then ChatPage.createOrLoadConversation env else ret tt.

(** [disabled={!currentMessage.trim() || isLoading}] of the send button. *)
Definition sendDisabled (s : ChatPage.State) : bool :=
  negb (JS.truthy (JS.trim (ChatPage.currentMessage s)))
  || ChatPage.isLoading s.

End ChatPageUI.

Module ChatRoutedUI.

Definition handleKeyPress (e : KeyboardEvent.t) (env : SendEnv.t)
  : M ChatRouted.State unit :=
  if plain_enter e then ChatRouted.sendMessage env else ret tt.

Definition sessionChanged (v : option Session.t) (fromUrl : option jsstring)
           (env : ChatRouted.LoadEnv) : M ChatRouted.State unit :=
  ChatRouted.setSession v ;;
  if signed_in v
  then ChatRouted.createOrLoadConversation fromUrl env
  else ret tt.

Definition sendDisabled (s : ChatRouted.State) : bool :=
  negb (JS.truthy (JS.trim (ChatRouted.currentMessage s)))
  || ChatRouted.isLoading s.

(** [goBack] *)
Definition goBack : M ChatRouted.State unit :=
  navigate (JS.lit "/chat-history").

End ChatRoutedUI.

Module ChatHistoryUI.

(** [setSession(session); if (!session) navigate("/auth")] in the callbacks
    of [getSession] and [onAuthStateChange], followed by the effect that
    depends on [session]: [if (session) loadConversations()]. *)
Definition sessionChanged (v : option Session.t) (reply : Reply.t)
  : M ChatHistory.State unit :=
  ChatHistory.setSession v ;;
  (if signed_in v then ret tt else navigate (JS.lit "/auth")) ;;
  if signed_in v then ChatHistory.loadConversations reply else ret tt.

(** [openConversation] *)
Definition openConversation (conversationId : jsstring)
  : M ChatHistory.State unit :=
  navigate (JS.lit "/chat?conversation=" ++ conversationId).

End ChatHistoryUI.

(* ===================================================================== *)
(** ** The Auth screen of [src/pages/Auth.tsx] *)

(** The calls the Auth screen makes to the identity service. *)
Module Identity.
Inductive Call :=
| GetSession
| SignInWithPassword (email password : jsstring)
| SignUp (email password emailRedirectTo : jsstring).
End Identity.

Module Auth.

Record State := mkState {
  isLogin : bool;
  email : jsstring;
  password : jsstring;
  loading : bool
}.

Definition initial : State := mkState true [] [] false.

(** The screen together with the identity calls it has made so far, oldest
    first: the identity service is not part of [World.t]. *)
Record Mounted := mkMounted {
  screen : State;
  identity : list Identity.Call
}.

Definition setIsLogin (v : bool) : M Mounted unit :=
  setState (fun m => mkMounted
                       (mkState v (email (screen m)) (password (screen m))
                                (loading (screen m)))
                       (identity m)).
Definition setEmail (v : jsstring) : M Mounted unit :=
  setState (fun m => mkMounted
                       (mkState (isLogin (screen m)) v (password (screen m))
                                (loading (screen m)))
                       (identity m)).
Definition setPassword (v : jsstring) : M Mounted unit :=
  setState (fun m => mkMounted
                       (mkState (isLogin (screen m)) (email (screen m)) v
                                (loading (screen m)))
                       (identity m)).
Definition setLoading (v : bool) : M Mounted unit :=
  setState (fun m => mkMounted
                       (mkState (isLogin (screen m)) (email (screen m))
                                (password (screen m)) v)
                       (identity m)).

(** One awaited call to [supabase.auth]. *)
Definition called (c : Identity.Call) : M Mounted unit :=
  setState (fun m => mkMounted (screen m) (identity m ++ [c])).

(** [if (error) throw error;] *)
Definition throwIf (error : option Error.t) : M Mounted unit :=
  match error with
  | Some e => throw e
  | None => ret tt
  end.

(** A toast without [variant]; the absent variant is the empty string. *)
Definition plain (title description : jsstring) : Toast.t :=
  Toast.mk title description [].

(** What the outside contributes to one [handleAuth]:
    [window.location.origin] and the [error] of the identity call. *)
Record Env := mkEnv {
  origin : jsstring;
  error : option Error.t
}.

(** [checkUser], given what [getSession] resolves to. *)
Definition checkUser (session : option Session.t) : M Mounted unit :=
  called Identity.GetSession ;;
  if signed_in session then navigate (JS.lit "/") else ret tt.

(** [handleAuth]; [e.preventDefault()] has no effect on the model. *)
Definition handleAuth (env : Env) : M Mounted unit :=
  m <- rendered ;;
  setLoading true ;;
  try_finally
    (try_catch
       (if isLogin (screen m)
        then
          called (Identity.SignInWithPassword (email (screen m))
                                              (password (screen m))) ;;
          throwIf (error env) ;;
          toast (plain (JS.lit "Login realizado com sucesso!")
                       (JS.lit "Bem-vindo ao Agente Trader")) ;;
          navigate (JS.lit "/")
        else
          called (Identity.SignUp (email (screen m)) (password (screen m))
                                  (origin env ++ JS.lit "/")) ;;
          throwIf (error env) ;;
          toast (plain (JS.lit "Conta criada com sucesso!")
                       (JS.lit "Verifique seu email para confirmar a conta")))
       (fun error =>
          toast (Toast.mk (JS.lit "Erro") (Error.message error)
                          (JS.lit "destructive"))))
    (setLoading false).

End Auth.

(* ===================================================================== *)
(** ** The user message and the history list, as first claimed *)

(** The storage has gained exactly one user row, with [content] in [conv],
    followed by assistant rows only. *)
Definition one_user_message_stored (conv content : jsstring)
           (b b' : Backend.t) : Prop :=
  exists row later,
    Backend.messages b' = Backend.messages b ++ row :: later
    /\ Message.role row = user
    /\ Message.content row = content
    /\ Message.conversation_id row = conv
    /\ Forall (fun m => Message.role m = assistant) later.

(** "Every send that passes the guard stores exactly one user message, and
    calls the webhook only after that", for the sends whose answers from
    the outside satisfy [limit]. *)
Definition send_stores_user_message_first (limit : SendEnv.t -> Prop) : Prop :=
  forall (env : SendEnv.t) (p : ChatPage.State) (r : ChatRouted.State)
         (sess : Session.t) (conv : jsstring) (w : World.t),
    limit env ->
    (page_accepts p sess conv ->
     let '(_, w') := after (ChatPage.sendMessage env) p w in
     one_user_message_stored conv (JS.trim (ChatPage.currentMessage p))
                             (World.backend w) (World.backend w')
     /\ exists events,
         World.trace w' = World.trace w ++ events
         /\ user_message_first conv (JS.trim (ChatPage.currentMessage p))
                               (World.backend w) (World.backend w') events)
    /\ (routed_accepts r sess conv ->
        let '(_, w') := after (ChatRouted.sendMessage env) r w in
        one_user_message_stored conv (JS.trim (ChatRouted.currentMessage r))
                                (World.backend w) (World.backend w')
        /\ exists events,
            World.trace w' = World.trace w ++ events
            /\ user_message_first conv (JS.trim (ChatRouted.currentMessage r))
                                  (World.backend w) (World.backend w') events).

(** What a send does about its user message whatever the outside answers:
    if the storage accepts the insert, the insert and then the webhook call
    are the first two events; if it refuses, the table is as it was and the
    webhook is not called. *)
Definition user_insert_decides (env : SendEnv.t) (conv content : jsstring)
           (mode : option jsstring) (sess : Session.t) (b b' : Backend.t)
           (events : list Event) : Prop :=
  (succeeds (SendEnv.user_insert env) ->
   exists rest,
     events
     = Storage (InsertMessage conv content user) true
       :: Fetched (Fetch.mkRequest webhook_url (JS.lit "POST") mode
                     (JS.lit "application/json")
                     (Payload.mk content (User.id (Session.user sess)) conv))
       :: rest)
  /\ (Reply.failure (SendEnv.user_insert env) <> None ->
      Backend.messages b' = Backend.messages b
      /\ forallb (fun e => negb (is_fetch e)) events = true).

(** "A conversation just created from the history screen is the first of
    the list the next load shows", for the worlds, users and creations that
    satisfy [limit]. *)
Definition created_conversation_listed_first
           (limit : World.t -> Session.t -> Reply.t -> Prop) : Prop :=
  forall (dateLabel : jsstring) (creation reply : Reply.t)
         (h : ChatHistory.State) (sess : Session.t) (w : World.t),
    ChatHistory.session h = Some sess ->
    succeeds creation -> succeeds reply ->
    limit w sess creation ->
    let '(h1, w1) :=
      after (ChatHistory.createNewConversation dateLabel creation) h w in
    let '(h2, _) := after (ChatHistory.loadConversations reply) h1 w1 in
    hd_error (ChatHistory.conversations h2)
    = Some (ChatHistory.mkConversation
              (Reply.fresh_id creation) (JS.lit "Nova Conversa " ++ dateLabel)
              (at_server w creation) (at_server w creation)).

(* ===================================================================== *)
(** ** Vocabulary of the further properties *)

(** The request [sendMessage] sends to the webhook; [mode] is what the
    screen passes as [init.mode]. *)
Definition webhook_request (mode : option jsstring) (message : jsstring)
           (sess : Session.t) (conv : jsstring) : Fetch.Request :=
  Fetch.mkRequest webhook_url (JS.lit "POST") mode (JS.lit "application/json")
                  (Payload.mk message (User.id (Session.user sess)) conv).

(** The toast of the [catch] of [sendMessage]:
    [error.message || "Nao foi possivel enviar a mensagem"]. *)
Definition send_failed (e : Error.t) : Toast.t :=
  destructive (JS.or_else (Error.message e) Text.cannot_send_message).

(** Every step of a send before the final update succeeds. *)
Definition exchanged (env : SendEnv.t) (body : jsstring) : Prop :=
  succeeds (SendEnv.user_insert env)
  /\ succeeds (SendEnv.ai_insert env)
  /\ exists response,
      SendEnv.webhook env = inr response
      /\ Fetch.ok response = true
      /\ Fetch.text response = inr body.

(** No whitespace at either end. *)
Definition trimmed (s : jsstring) : Prop :=
  (forall c rest, s = c :: rest -> JS.isWhiteSpace c = false)
  /\ (forall front c, s = front ++ [c] -> JS.isWhiteSpace c = false).

(** [c'] is the row [c], or [c] with nothing but [updated_at] changed, and
    this only if [c] has the id [active]. *)
Definition at_most_refreshed (active : option jsstring) (ts : timestamp)
           (c c' : ConversationRow.t) : Prop :=
  c' = c
  \/ (active = Some (ConversationRow.id c)
      /\ c' = ConversationRow.mk (ConversationRow.id c)
                (ConversationRow.user_id c) (ConversationRow.title c)
                (ConversationRow.created_at c) ts).

(** Every row of the transcript belongs to the active conversation; with no
    active conversation the transcript is empty. *)
Definition in_conversation (active : option jsstring)
           (msgs : list Message.t) : Prop :=
  match active with
  | Some conv => Forall (fun m => Message.conversation_id m = conv) msgs
  | None => msgs = []
  end.

(* ===================================================================== *)
(** ** Further cases to run the handlers on *)

Module Cases.

(** A storage error without a message. *)
Definition mute : Error.t := Error.mk [].

Definition offline : Error.t := Error.mk (JS.lit "Failed to fetch").

Definition failing (e : Error.t) (ms : N) : Reply.t := Reply.mk ms (Some e) [].

(** The Chat screens before a session has arrived, with text typed. *)
Definition page_signed_out : ChatPage.State :=
  ChatPage.mkState None [] (JS.lit "hello") false None.

Definition routed_signed_out : ChatRouted.State :=
  ChatRouted.mkState None [] (JS.lit "hello") false None [].

Definition history_signed_out : ChatHistory.State :=
  ChatHistory.mkState None [] true.

(** A session and a conversation, and only blanks typed. *)
Definition page_blank : ChatPage.State :=
  ChatPage.mkState (Some Scenario.alice) [] (JS.lit "   ") false
                   (Some Scenario.conv1).

Definition routed_blank : ChatRouted.State :=
  ChatRouted.mkState (Some Scenario.alice) [] (JS.lit "   ") false
                     (Some Scenario.conv1) (JS.lit "Nova Conversa").

(** The send in which the insert of the user message is refused with [e]. *)
Definition user_insert_refused (e : Error.t) : SendEnv.t :=
  SendEnv.mk (failing e 5)
             (inr (Scenario.response 200 "Buy and hold."))
             (Scenario.accepted "msg-2" 7) (Scenario.accepted "" 3) 1000.

(** The send in which [fetch] rejects. *)
Definition webhook_unreachable : SendEnv.t :=
  SendEnv.mk (Scenario.accepted "msg-1" 5) (inl offline)
             (Scenario.accepted "msg-2" 7) (Scenario.accepted "" 3) 1000.

(** The send in which the insert of the reply is refused with [e]. *)
Definition reply_insert_refused (e : Error.t) : SendEnv.t :=
  SendEnv.mk (Scenario.accepted "msg-1" 5)
             (inr (Scenario.response 200 "Buy and hold."))
             (failing e 7) (Scenario.accepted "" 3) 1000.

(** A storage with one conversation of [alice] that holds two messages,
    stored out of order, and a message of another conversation. *)
Definition archive : World.t :=
  World.mk
    (Backend.mk
       [ConversationRow.mk Scenario.conv1 (JS.lit "user-1") [] 100 100]
       [Message.mk (JS.lit "m2") (JS.lit "Hold.") assistant 120 Scenario.conv1;
        Message.mk (JS.lit "m9") (JS.lit "Hi") user 115 (JS.lit "conv-7");
        Message.mk (JS.lit "m1") (JS.lit "Buy?") user 110 Scenario.conv1]
       200)
    [].

Definition routed_replies : ChatRouted.LoadEnv :=
  ChatRouted.mkLoadEnv (Scenario.accepted "" 2) (Scenario.accepted "" 4)
                       (Scenario.accepted "" 6).

(** The load in which the select of the messages fails. *)
Definition page_history_lost : ChatPage.LoadEnv :=
  ChatPage.mkLoadEnv (Scenario.accepted "" 4) (failing offline 6)
                     (Scenario.accepted "conv-9" 8).

(** The Auth screen with credentials typed, blanks included. *)
Definition signing_in : Auth.Mounted :=
  Auth.mkMounted
    (Auth.mkState true (JS.lit " ana@example.com") (JS.lit "secret ") false)
    [].

(** The load in which the select of the most recent conversation fails. *)
Definition page_recent_lost : ChatPage.LoadEnv :=
  ChatPage.mkLoadEnv (failing offline 4) (Scenario.accepted "" 6)
                     (Scenario.accepted "conv-9" 8).

(** The send of a client whose clock is ahead of the server's. *)
Definition clock_ahead : SendEnv.t :=
  SendEnv.mk (Scenario.accepted "msg-1" 5)
             (inr (Scenario.response 200 "Buy and hold."))
             (Scenario.accepted "msg-2" 7) (Scenario.accepted "" 3) 5000.

End Cases.

(* ===================================================================== *)
(** ** Two runs of the Chat screen of [src/pages/Chat.tsx] *)

(** The outside answers after five milliseconds; what the storage inserts
    gets the id [new_id], and the agent answers "Buy and hold.". *)
Definition prompt (new_id : string) : Service.t :=
  Service.mk (Scenario.accepted new_id 5)
             (inr (Scenario.response 200 "Buy and hold.")).

(** The answer to the insert of a send is overtaken.  The user signs in,
    the conversation is loaded, empty, and the user sends a question.  The
    storage inserts the row; while the answer is on its way, another device
    of the user adds a message to the conversation, and the session is
    refreshed, which loads the conversation again.  The answers to the two
    selects of the load are handled before that to the insert. *)
Module Overtaken.

Definition mounted : System.t ChatPage.State :=
  System.mk ChatPage.initial Scenario.world [] [].

Definition signed_in : System.t ChatPage.State :=
  launch (ChatPageAsync.sessionChanged (Some Scenario.alice)) mounted.

Definition found : System.t ChatPage.State :=
  handled 0 (answered 0 (prompt "") signed_in).

Definition loaded : System.t ChatPage.State :=
  handled 0 (answered 0 (prompt "") found).

Definition typed : System.t ChatPage.State :=
  launch (ChatPageAsync.inputChanged (JS.lit "What is a good ETF?")) loaded.

Definition sent : System.t ChatPage.State :=
  launch (ChatPageAsync.sendMessage (System.screen typed) 1000) typed.

(** The row is in the table; the answer is on its way. *)
Definition stored : System.t ChatPage.State :=
  answered 0 (prompt "msg-1") sent.

Definition later : System.t ChatPage.State :=
  outside (Backend.advance 5 (World.backend (System.world stored))) stored.

Definition elsewhere_sent : System.t ChatPage.State :=
  outside (fst (Backend.insert_message Scenario.conv1 (JS.lit "And bonds?")
                  user (JS.lit "msg-2")
                  (World.backend (System.world later))))
          later.

Definition refreshed : System.t ChatPage.State :=
  launch (ChatPageAsync.sessionChanged (Some Scenario.alice)) elsewhere_sent.

(** The answers to the selects are handled; that to the insert waits. *)
Definition found_again : System.t ChatPage.State :=
  handled 1 (answered 0 (prompt "") refreshed).

Definition reloaded : System.t ChatPage.State :=
  handled 1 (answered 0 (prompt "") found_again).

Definition delivered : System.t ChatPage.State :=
  handled 0 reloaded.

End Overtaken.

(** The same events over a conversation that holds two messages, stored
    out of order, with every answer handled in its turn; then the send
    goes on to its end. *)
Module InTurn.

Definition mounted : System.t ChatPage.State :=
  System.mk ChatPage.initial Cases.archive [] [].

Definition signed_in : System.t ChatPage.State :=
  launch (ChatPageAsync.sessionChanged (Some Scenario.alice)) mounted.

Definition found : System.t ChatPage.State :=
  handled 0 (answered 0 (prompt "") signed_in).

Definition loaded : System.t ChatPage.State :=
  handled 0 (answered 0 (prompt "") found).

Definition typed : System.t ChatPage.State :=
  launch (ChatPageAsync.inputChanged (JS.lit "What is a good ETF?")) loaded.

Definition sent : System.t ChatPage.State :=
  launch (ChatPageAsync.sendMessage (System.screen typed) 1000) typed.

Definition stored : System.t ChatPage.State :=
  answered 0 (prompt "msg-1") sent.

Definition later : System.t ChatPage.State :=
  outside (Backend.advance 5 (World.backend (System.world stored))) stored.

Definition elsewhere_sent : System.t ChatPage.State :=
  outside (fst (Backend.insert_message Scenario.conv1 (JS.lit "And bonds?")
                  user (JS.lit "msg-2")
                  (World.backend (System.world later))))
          later.

Definition refreshed : System.t ChatPage.State :=
  launch (ChatPageAsync.sessionChanged (Some Scenario.alice)) elsewhere_sent.

(** The answer to the insert is handled first: the webhook is called. *)
Definition appended : System.t ChatPage.State :=
  handled 0 (answered 0 (prompt "") refreshed).

Definition found_again : System.t ChatPage.State :=
  handled 0 appended.

(** The select of the messages is answered before the webhook answers. *)
Definition reloaded : System.t ChatPage.State :=
  handled 0 (answered 1 (prompt "") found_again).

Definition replied : System.t ChatPage.State :=
  handled 0 (answered 0 (prompt "") reloaded).

Definition read : System.t ChatPage.State :=
  handled 0 (answered 0 (prompt "") replied).

Definition reply_stored : System.t ChatPage.State :=
  handled 0 (answered 0 (prompt "msg-3") read).

Definition finished : System.t ChatPage.State :=
  handled 0 (answered 0 (prompt "") reply_stored).

End InTurn.

(* ===================================================================== *)
(** * Properties *)

(** ** Strings *)

Lemma JS_eqb_eq (a b : jsstring) : JS.eqb a b = true <-> a = b.
Proof.
  revert b; induction a as [|x a IH]; intros [|y b]; simpl;
    try (split; [discriminate | discriminate]); try tauto.
  rewrite andb_true_iff, N.eqb_eq, IH.
  split; [intros [-> ->]; reflexivity | intros H; inversion H; auto].
Qed.

Lemma JS_truthy_nonempty (s : jsstring) : s <> [] -> JS.truthy s = true.
Proof. destruct s; [congruence | reflexivity]. Qed.

Lemma JS_eqb_nil (s : jsstring) : s <> [] -> JS.eqb s [] = false.
Proof. destruct s; [congruence | reflexivity]. Qed.

Lemma JS_trim_nonempty (s : jsstring) : JS.trim s <> [] -> s <> [].
Proof. intros H ->; apply H; reflexivity. Qed.

(** ** Ordered selects *)

Section OrderingFacts.
Context {A : Type}.
Variable le : A -> A -> bool.
Hypothesis le_total : forall x y, le x y = true \/ le y x = true.
Hypothesis le_trans :
  forall x y z, le x y = true -> le y z = true -> le x z = true.

Lemma insert_by_perm (x : A) (l : list A) :
  Permutation (insert_by le x l) (x :: l).
Proof.
  induction l as [|y l IH]; simpl; [reflexivity|].
  destruct (le x y); [reflexivity|].
  rewrite IH; apply perm_swap.
Qed.

Lemma order_by_perm (l : list A) : Permutation (order_by le l) l.
Proof.
  induction l as [|x l IH]; simpl; [constructor|].
  rewrite insert_by_perm; constructor; exact IH.
Qed.

Lemma insert_by_sorted (x : A) (l : list A) :
  StronglySorted (fun a b => le a b = true) l ->
  StronglySorted (fun a b => le a b = true) (insert_by le x l).
Proof.
  induction 1 as [|y l Hs IH Hy]; simpl.
  - repeat constructor.
  - destruct (le x y) eqn:E.
    + constructor; [constructor; assumption|].
      constructor; [exact E|].
      rewrite Forall_forall in *; intros z Hz; eauto.
    + constructor; [exact IH|].
      rewrite Forall_forall in *; intros z Hz.
      apply (Permutation_in _ (insert_by_perm x l)) in Hz.
      destruct Hz as [<-|Hz]; [|auto].
      destruct (le_total x y) as [H|H]; congruence.
Qed.

Lemma order_by_sorted (l : list A) :
  StronglySorted (fun a b => le a b = true) (order_by le l).
Proof.
  induction l as [|x l IH]; simpl; [constructor|].
  apply insert_by_sorted; exact IH.
Qed.

Lemma order_by_In (x : A) (l : list A) : In x (order_by le l) <-> In x l.
Proof.
  split; apply Permutation_in;
    [apply order_by_perm | symmetry; apply order_by_perm].
Qed.
End OrderingFacts.

Lemma StronglySorted_weaken {A : Type} (R R' : A -> A -> Prop) (l : list A) :
  (forall x y, R x y -> R' x y) -> StronglySorted R l -> StronglySorted R' l.
Proof.
  intros HR; induction 1 as [|x l Hs IH Hx]; constructor; [exact IH|].
  eapply Forall_impl; [|exact Hx]; auto.
Qed.

Lemma messages_of_ascending (cid : jsstring) (b : Backend.t) :
  ascending (Backend.messages_of cid b).
Proof.
  unfold ascending, Backend.messages_of.
  eapply StronglySorted_weaken;
    [| apply order_by_sorted with
         (le := fun x y => Message.created_at x <=? Message.created_at y)].
  - intros x y H; apply Z.leb_le; exact H.
  - intros x y; rewrite !Z.leb_le; lia.
  - intros x y z; rewrite !Z.leb_le; lia.
Qed.

Lemma messages_of_In (cid : jsstring) (b : Backend.t) (m : Message.t) :
  In m (Backend.messages_of cid b) <->
  In m (Backend.messages b) /\ Message.conversation_id m = cid.
Proof.
  unfold Backend.messages_of.
  rewrite order_by_In, filter_In, JS_eqb_eq; reflexivity.
Qed.

Lemma conversations_of_latest_first (uid : jsstring) (b : Backend.t) :
  latest_first (Backend.conversations_of uid b).
Proof.
  unfold latest_first, Backend.conversations_of.
  eapply StronglySorted_weaken;
    [| apply order_by_sorted with
         (le := fun x y => ConversationRow.updated_at y
                           <=? ConversationRow.updated_at x)].
  - intros x y H; apply Z.leb_le; exact H.
  - intros x y; rewrite !Z.leb_le; lia.
  - intros x y z; rewrite !Z.leb_le; lia.
Qed.

Lemma conversations_of_perm (uid : jsstring) (b : Backend.t) :
  Permutation (Backend.conversations_of uid b)
              (filter (fun c => JS.eqb (ConversationRow.user_id c) uid)
                      (Backend.conversations b)).
Proof. apply order_by_perm. Qed.

Lemma conversations_of_In (uid : jsstring) (b : Backend.t)
      (c : ConversationRow.t) :
  In c (Backend.conversations_of uid b) <->
  In c (Backend.conversations b) /\ ConversationRow.user_id c = uid.
Proof.
  unfold Backend.conversations_of.
  rewrite order_by_In, filter_In, JS_eqb_eq; reflexivity.
Qed.

(** The head of a latest-first list is a latest element. *)
Lemma latest_first_head (c : ConversationRow.t) (l : list ConversationRow.t) :
  latest_first (c :: l) ->
  forall c', In c' (c :: l) ->
             ConversationRow.updated_at c' <= ConversationRow.updated_at c.
Proof.
  intros H c' [<-|Hin]; [lia|].
  apply StronglySorted_inv in H; destruct H as [_ H].
  rewrite Forall_forall in H; auto.
Qed.

(* ===================================================================== *)
(** ** Sending a message *)

(** Unfolds the handler combinators down to the state passing. *)
Ltac run_handler :=
  unfold checked, fetch, insertMessage, insertConversation,
    selectConversation, selectRecentConversation, selectConversations,
    selectMessages, updateConversation, storage, try_finally, try_catch,
    toast, navigate, emit, orThrow, throw, bind, ret, rendered, setState;
  simpl.

(** Rewrites with the facts known about the replies, then recomputes. *)
Ltac settle :=
  repeat match goal with
         | H : Reply.failure _ = _ |- _ => rewrite H; simpl
         | H : SendEnv.webhook _ = _ |- _ => rewrite H; simpl
         | H : Fetch.ok _ = _ |- _ => rewrite H; simpl
         | H : Fetch.text _ = _ |- _ => rewrite H; simpl
         | H : JS.truthy _ = _ |- _ => rewrite H; simpl
         | H : JS.eqb _ _ = _ |- _ => rewrite H; simpl
         end.

Ltac tidy :=
  unfold at_server, Backend.advance, Backend.touch; simpl;
  rewrite <- ?app_assoc; simpl; rewrite <- ?Z.add_assoc.

(** [src/pages/Chat.tsx]: the send in which both inserts succeed and the
    webhook answers 2xx, whatever the body and whatever becomes of the
    final update. *)
Lemma page_send_exchange (env : SendEnv.t) (sess : Session.t)
      (conv input : jsstring) (msgs : list Message.t) (loading : bool)
      (w : World.t) (response : Fetch.Response) (body : jsstring) :
  JS.trim input <> [] -> conv <> [] ->
  succeeds (SendEnv.user_insert env) ->
  succeeds (SendEnv.ai_insert env) ->
  SendEnv.webhook env = inr response ->
  Fetch.ok response = true ->
  Fetch.text response = inr body ->
  let b := World.backend w in
  let t1 := at_server w (SendEnv.user_insert env) in
  let t2 := t1 + Z.of_N (Reply.elapsed (SendEnv.ai_insert env)) in
  let t3 := t2 + Z.of_N (Reply.elapsed (SendEnv.refresh env)) in
  let u := Message.mk (Reply.fresh_id (SendEnv.user_insert env))
                      (JS.trim input) user t1 conv in
  let a := Message.mk (Reply.fresh_id (SendEnv.ai_insert env))
                      body assistant t2 conv in
  let refreshed :=
    match Reply.failure (SendEnv.refresh env) with
    | None => true
    | Some _ => false
    end in
  ChatPage.sendMessage env
    (ChatPage.mkState (Some sess) msgs input loading (Some conv)) w
  = (inr tt,
     ChatPage.mkState (Some sess) (msgs ++ [u; a]) [] false (Some conv),
     World.mk
       (Backend.mk
          (if refreshed
           then Backend.conversations (Backend.touch conv (SendEnv.today env) b)
           else Backend.conversations b)
          (Backend.messages b ++ [u; a]) t3)
       (World.trace w
        ++ [Storage (InsertMessage conv (JS.trim input) user) true;
            Fetched (Fetch.mkRequest webhook_url (JS.lit "POST") None
                       (JS.lit "application/json")
                       (Payload.mk (JS.trim input)
                                   (User.id (Session.user sess)) conv));
            Storage (InsertMessage conv body assistant) true;
            Storage (UpdateConversation conv (SendEnv.today env)) refreshed])).
Proof.
  intros Hin Hconv Hu Ha Hw Hok Hbody; unfold succeeds in *.
  pose proof (JS_truthy_nonempty Hin) as Tin.
  pose proof (JS_truthy_nonempty Hconv) as Tconv.
  unfold ChatPage.sendMessage, ChatPage.setMessages,
    ChatPage.setCurrentMessage, ChatPage.setIsLoading.
  run_handler; settle.
  destruct (Reply.failure (SendEnv.refresh env)); tidy; reflexivity.
Qed.

(** [unnamed/part_000]: the same, for a body that is not blank. *)
Lemma routed_send_exchange (env : SendEnv.t) (sess : Session.t)
      (conv input title : jsstring) (msgs : list Message.t) (loading : bool)
      (w : World.t) (response : Fetch.Response) (body : jsstring) :
  JS.trim input <> [] -> conv <> [] ->
  succeeds (SendEnv.user_insert env) ->
  succeeds (SendEnv.ai_insert env) ->
  SendEnv.webhook env = inr response ->
  Fetch.ok response = true ->
  Fetch.text response = inr body ->
  JS.trim body <> [] ->
  let b := World.backend w in
  let t1 := at_server w (SendEnv.user_insert env) in
  let t2 := t1 + Z.of_N (Reply.elapsed (SendEnv.ai_insert env)) in
  let t3 := t2 + Z.of_N (Reply.elapsed (SendEnv.refresh env)) in
  let u := Message.mk (Reply.fresh_id (SendEnv.user_insert env))
                      (JS.trim input) user t1 conv in
  let a := Message.mk (Reply.fresh_id (SendEnv.ai_insert env))
                      body assistant t2 conv in
  let refreshed :=
    match Reply.failure (SendEnv.refresh env) with
    | None => true
    | Some _ => false
    end in
  ChatRouted.sendMessage env
    (ChatRouted.mkState (Some sess) msgs input loading (Some conv) title) w
  = (inr tt,
     ChatRouted.mkState (Some sess) (msgs ++ [u; a]) [] false (Some conv)
                        title,
     World.mk
       (Backend.mk
          (if refreshed
           then Backend.conversations (Backend.touch conv (SendEnv.today env) b)
           else Backend.conversations b)
          (Backend.messages b ++ [u; a]) t3)
       (World.trace w
        ++ [Storage (InsertMessage conv (JS.trim input) user) true;
            Fetched (Fetch.mkRequest webhook_url (JS.lit "POST")
                       (Some (JS.lit "cors")) (JS.lit "application/json")
                       (Payload.mk (JS.trim input)
                                   (User.id (Session.user sess)) conv));
            Storage (InsertMessage conv body assistant) true;
            Storage (UpdateConversation conv (SendEnv.today env)) refreshed])).
Proof.
  intros Hin Hconv Hu Ha Hw Hok Hbody Hblank; unfold succeeds in *.
  pose proof (JS_truthy_nonempty Hin) as Tin.
  pose proof (JS_truthy_nonempty Hconv) as Tconv.
  pose proof (JS_truthy_nonempty (JS_trim_nonempty Hblank)) as Tbody.
  pose proof (JS_eqb_nil Hblank) as Ebody.
  unfold ChatRouted.sendMessage, ChatRouted.setMessages,
    ChatRouted.setCurrentMessage, ChatRouted.setIsLoading.
  run_handler; settle.
  destruct (Reply.failure (SendEnv.refresh env)); tidy; reflexivity.
Qed.

Lemma touch_sets_updated_at (id : jsstring) (ts : timestamp) (b : Backend.t)
      (c : ConversationRow.t) :
  In c (Backend.conversations (Backend.touch id ts b)) ->
  ConversationRow.id c = id -> ConversationRow.updated_at c = ts.
Proof.
  unfold Backend.touch; simpl; rewrite in_map_iff.
  intros (c0 & E & _) Hid.
  destruct (JS.eqb (ConversationRow.id c0) id) eqn:Q; subst c; simpl in *.
  - reflexivity.
  - apply JS_eqb_eq in Hid; congruence.
Qed.

(** C1. A fully successful send appends exactly two rows to [messages], the
    user's with the trimmed input and then the assistant's with the body of
    the webhook's response, shows both at the end of the transcript, and
    then sets [updated_at] of the conversation to the current time.  For
    the screen of [unnamed/part_000] a send is fully successful only when
    the body is not blank. *)
Theorem send_appends_user_then_assistant
        (env : SendEnv.t) (sess : Session.t) (conv input title : jsstring)
        (msgs : list Message.t) (loading : bool) (w : World.t)
        (response : Fetch.Response) (body : jsstring) :
  JS.trim input <> [] -> conv <> [] ->
  succeeds (SendEnv.user_insert env) ->
  succeeds (SendEnv.ai_insert env) ->
  succeeds (SendEnv.refresh env) ->
  SendEnv.webhook env = inr response ->
  Fetch.ok response = true ->
  Fetch.text response = inr body ->
  let b := World.backend w in
  let t1 := at_server w (SendEnv.user_insert env) in
  let t2 := t1 + Z.of_N (Reply.elapsed (SendEnv.ai_insert env)) in
  let t3 := t2 + Z.of_N (Reply.elapsed (SendEnv.refresh env)) in
  let u := Message.mk (Reply.fresh_id (SendEnv.user_insert env))
                      (JS.trim input) user t1 conv in
  let a := Message.mk (Reply.fresh_id (SendEnv.ai_insert env))
                      body assistant t2 conv in
  let touched := Backend.touch conv (SendEnv.today env) b in
  let final (mode : option jsstring) :=
    World.mk
      (Backend.mk (Backend.conversations touched)
                  (Backend.messages b ++ [u; a]) t3)
      (World.trace w
       ++ [Storage (InsertMessage conv (JS.trim input) user) true;
           Fetched (Fetch.mkRequest webhook_url (JS.lit "POST") mode
                      (JS.lit "application/json")
                      (Payload.mk (JS.trim input)
                                  (User.id (Session.user sess)) conv));
           Storage (InsertMessage conv body assistant) true;
           Storage (UpdateConversation conv (SendEnv.today env)) true]) in
  ChatPage.sendMessage env
    (ChatPage.mkState (Some sess) msgs input loading (Some conv)) w
  = (inr tt,
     ChatPage.mkState (Some sess) (msgs ++ [u; a]) [] false (Some conv),
     final None)
  /\ (JS.trim body <> [] ->
      ChatRouted.sendMessage env
        (ChatRouted.mkState (Some sess) msgs input loading (Some conv) title) w
      = (inr tt,
         ChatRouted.mkState (Some sess) (msgs ++ [u; a]) [] false (Some conv)
                            title,
         final (Some (JS.lit "cors"))))
  /\ (forall c, In c (Backend.conversations touched) ->
                ConversationRow.id c = conv ->
                ConversationRow.updated_at c = SendEnv.today env).
Proof.
  intros Hin Hconv Hu Ha Hr Hw Hok Hbody; simpl.
  split; [|split].
  - rewrite (@page_send_exchange env sess conv input msgs loading w response
               body Hin Hconv Hu Ha Hw Hok Hbody).
    rewrite Hr; reflexivity.
  - intros Hblank.
    rewrite (@routed_send_exchange env sess conv input title msgs loading w
               response body Hin Hconv Hu Ha Hw Hok Hbody Hblank).
    rewrite Hr; reflexivity.
  - intros c; apply touch_sets_updated_at.
Qed.

Lemma send_appends_user_then_assistant_witness :
  ChatPage.sendMessage
    (Scenario.answering 200 "Consider low-cost index funds.")
    Scenario.page Scenario.world
  = (inr tt,
     ChatPage.mkState (Some Scenario.alice)
       [Message.mk (JS.lit "msg-1") (JS.lit "What is a good ETF?") user 205
                   Scenario.conv1;
        Message.mk (JS.lit "msg-2") (JS.lit "Consider low-cost index funds.")
                   assistant 212 Scenario.conv1]
       [] false (Some Scenario.conv1),
     World.mk
       (Backend.mk
          [ConversationRow.mk Scenario.conv1 (JS.lit "user-1")
                              (JS.lit "Nova Conversa") 100 1000]
          [Message.mk (JS.lit "msg-1") (JS.lit "What is a good ETF?") user 205
                      Scenario.conv1;
           Message.mk (JS.lit "msg-2")
                      (JS.lit "Consider low-cost index funds.")
                      assistant 212 Scenario.conv1]
          215)
       [Storage (InsertMessage Scenario.conv1 (JS.lit "What is a good ETF?")
                               user) true;
        Fetched (Fetch.mkRequest webhook_url (JS.lit "POST") None
                   (JS.lit "application/json")
                   (Payload.mk (JS.lit "What is a good ETF?")
                               (JS.lit "user-1") Scenario.conv1));
        Storage (InsertMessage Scenario.conv1
                               (JS.lit "Consider low-cost index funds.")
                               assistant) true;
        Storage (UpdateConversation Scenario.conv1 1000) true]).
Proof.
  refine (proj1 (@send_appends_user_then_assistant
            (Scenario.answering 200 "Consider low-cost index funds.")
            Scenario.alice Scenario.conv1 (JS.lit "  What is a good ETF? ")
            [] [] false Scenario.world
            (Scenario.response 200 "Consider low-cost index funds.")
            (JS.lit "Consider low-cost index funds.")
            _ _ _ _ _ _ _ _));
    solve [ reflexivity | vm_compute; discriminate ].
Defined.

(** ** The user message comes first *)

Lemma no_fetch_split (l pre post : list Event) (req : Fetch.Request) :
  forallb (fun e => negb (is_fetch e)) l = true ->
  l <> pre ++ Fetched req :: post.
Proof.
  intros H E; subst l.
  rewrite forallb_app in H; simpl in H.
  rewrite andb_false_r in H; discriminate.
Qed.

Lemma fetch_second (e : Event) (r req : Fetch.Request)
      (rest pre post : list Event) :
  is_fetch e = false ->
  forallb (fun x => negb (is_fetch x)) rest = true ->
  e :: Fetched r :: rest = pre ++ Fetched req :: post ->
  pre = [e] /\ post = rest.
Proof.
  intros He Hrest E.
  destruct pre as [|p [|q pre]]; simpl in E; inversion E; subst.
  - discriminate He.
  - split; reflexivity.
  - exfalso; eapply no_fetch_split; [exact Hrest | reflexivity].
Qed.

(** Settles [user_message_first] for the events of one path of a send. *)
Ltac first_in_trace :=
  split;
  [ reflexivity
  | intros pre req post E;
    first
      [ exfalso; eapply no_fetch_split; [| exact E]; reflexivity
      | apply fetch_second in E; [| reflexivity | reflexivity];
        destruct E as [-> ->];
        split; [reflexivity |];
        split; [reflexivity |];
        eexists; eexists;
        split; [tidy; reflexivity |];
        repeat split; repeat constructor ] ].

Lemma page_send_user_first (env : SendEnv.t) (s : ChatPage.State)
      (sess : Session.t) (conv : jsstring) (w : World.t) :
  page_accepts s sess conv ->
  let '(_, w') := after (ChatPage.sendMessage env) s w in
  exists events,
    World.trace w' = World.trace w ++ events
    /\ user_message_first conv (JS.trim (ChatPage.currentMessage s))
                          (World.backend w) (World.backend w') events.
Proof.
  destruct s as [se msgs input loading cc]; unfold page_accepts; simpl.
  intros (-> & -> & Hconv & Hin).
  pose proof (JS_truthy_nonempty Hin) as Tin.
  pose proof (JS_truthy_nonempty Hconv) as Tconv.
  unfold after, ChatPage.sendMessage, ChatPage.setMessages,
    ChatPage.setCurrentMessage, ChatPage.setIsLoading.
  run_handler; settle.
  destruct (Reply.failure (SendEnv.user_insert env)); simpl.
  { eexists; split; [tidy; reflexivity | first_in_trace]. }
  destruct (SendEnv.webhook env) as [e | response]; simpl.
  { eexists; split; [tidy; reflexivity | first_in_trace]. }
  destruct (Fetch.ok response); simpl.
  2:{ eexists; split; [tidy; reflexivity | first_in_trace]. }
  destruct (Fetch.text response) as [e | body]; simpl.
  { eexists; split; [tidy; reflexivity | first_in_trace]. }
  destruct (Reply.failure (SendEnv.ai_insert env)); simpl.
  { eexists; split; [tidy; reflexivity | first_in_trace]. }
  destruct (Reply.failure (SendEnv.refresh env)); simpl;
    (eexists; split; [tidy; reflexivity | first_in_trace]).
Qed.

Lemma routed_send_user_first (env : SendEnv.t) (s : ChatRouted.State)
      (sess : Session.t) (conv : jsstring) (w : World.t) :
  routed_accepts s sess conv ->
  let '(_, w') := after (ChatRouted.sendMessage env) s w in
  exists events,
    World.trace w' = World.trace w ++ events
    /\ user_message_first conv (JS.trim (ChatRouted.currentMessage s))
                          (World.backend w) (World.backend w') events.
Proof.
  destruct s as [se msgs input loading cc title]; unfold routed_accepts; simpl.
  intros (-> & -> & Hconv & Hin).
  pose proof (JS_truthy_nonempty Hin) as Tin.
  pose proof (JS_truthy_nonempty Hconv) as Tconv.
  unfold after, ChatRouted.sendMessage, ChatRouted.setMessages,
    ChatRouted.setCurrentMessage, ChatRouted.setIsLoading.
  run_handler; settle.
  destruct (Reply.failure (SendEnv.user_insert env)); simpl.
  { eexists; split; [tidy; reflexivity | first_in_trace]. }
  destruct (SendEnv.webhook env) as [e | response]; simpl.
  { eexists; split; [tidy; reflexivity | first_in_trace]. }
  destruct (Fetch.ok response); simpl.
  2:{ eexists; split; [tidy; reflexivity | first_in_trace]. }
  destruct (Fetch.text response) as [e | body]; simpl.
  { eexists; split; [tidy; reflexivity | first_in_trace]. }
  destruct (negb (JS.truthy body) || JS.eqb (JS.trim body) []); simpl.
  { eexists; split; [tidy; reflexivity | first_in_trace]. }
  destruct (Reply.failure (SendEnv.ai_insert env)); simpl.
  { eexists; split; [tidy; reflexivity | first_in_trace]. }
  destruct (Reply.failure (SendEnv.refresh env)); simpl;
    (eexists; split; [tidy; reflexivity | first_in_trace]).
Qed.

(** What the acceptance or refusal of the user insert decides, on one path
    of a send. *)
Ltac decided :=
  split;
  [ intros Hacc;
    first [ discriminate Hacc
          | eexists; tidy; reflexivity ]
  | intros Href;
    first [ exfalso; apply Href; reflexivity
          | split; reflexivity ] ].

Ltac one_row :=
  eexists; eexists; split; [tidy; reflexivity |];
  repeat split; repeat constructor.

Lemma page_send_user_insert_decides (env : SendEnv.t) (s : ChatPage.State)
      (sess : Session.t) (conv : jsstring) (w : World.t) :
  page_accepts s sess conv ->
  let '(_, w') := after (ChatPage.sendMessage env) s w in
  (succeeds (SendEnv.user_insert env) ->
   one_user_message_stored conv (JS.trim (ChatPage.currentMessage s))
                           (World.backend w) (World.backend w'))
  /\ exists events,
      World.trace w' = World.trace w ++ events
      /\ user_insert_decides env conv (JS.trim (ChatPage.currentMessage s))
                             None sess (World.backend w) (World.backend w')
                             events.
Proof.
  destruct s as [se msgs input loading cc]; unfold page_accepts; simpl.
  intros (Hs & Hc & Hconv & Hin); inversion Hs; inversion Hc; subst se cc.
  pose proof (JS_truthy_nonempty Hin) as Tin.
  pose proof (JS_truthy_nonempty Hconv) as Tconv.
  unfold after, ChatPage.sendMessage, ChatPage.setMessages,
    ChatPage.setCurrentMessage, ChatPage.setIsLoading,
    user_insert_decides, succeeds.
  run_handler; settle.
  destruct (Reply.failure (SendEnv.user_insert env)); simpl.
  { split; [discriminate|].
    eexists; split; [tidy; reflexivity | decided]. }
  destruct (SendEnv.webhook env) as [e | response]; simpl.
  { split; [intros _; one_row|].
    eexists; split; [tidy; reflexivity | decided]. }
  destruct (Fetch.ok response); simpl.
  2:{ split; [intros _; one_row|].
      eexists; split; [tidy; reflexivity | decided]. }
  destruct (Fetch.text response) as [e | body]; simpl.
  { split; [intros _; one_row|].
    eexists; split; [tidy; reflexivity | decided]. }
  destruct (Reply.failure (SendEnv.ai_insert env)); simpl.
  { split; [intros _; one_row|].
    eexists; split; [tidy; reflexivity | decided]. }
  destruct (Reply.failure (SendEnv.refresh env)); simpl;
    (split; [intros _; one_row|];
     eexists; split; [tidy; reflexivity | decided]).
Qed.

Lemma routed_send_user_insert_decides (env : SendEnv.t)
      (s : ChatRouted.State) (sess : Session.t) (conv : jsstring)
      (w : World.t) :
  routed_accepts s sess conv ->
  let '(_, w') := after (ChatRouted.sendMessage env) s w in
  (succeeds (SendEnv.user_insert env) ->
   one_user_message_stored conv (JS.trim (ChatRouted.currentMessage s))
                           (World.backend w) (World.backend w'))
  /\ exists events,
      World.trace w' = World.trace w ++ events
      /\ user_insert_decides env conv (JS.trim (ChatRouted.currentMessage s))
                             (Some (JS.lit "cors")) sess
                             (World.backend w) (World.backend w') events.
Proof.
  destruct s as [se msgs input loading cc title]; unfold routed_accepts; simpl.
  intros (Hs & Hc & Hconv & Hin); inversion Hs; inversion Hc; subst se cc.
  pose proof (JS_truthy_nonempty Hin) as Tin.
  pose proof (JS_truthy_nonempty Hconv) as Tconv.
  unfold after, ChatRouted.sendMessage, ChatRouted.setMessages,
    ChatRouted.setCurrentMessage, ChatRouted.setIsLoading,
    user_insert_decides, succeeds.
  run_handler; settle.
  destruct (Reply.failure (SendEnv.user_insert env)); simpl.
  { split; [discriminate|].
    eexists; split; [tidy; reflexivity | decided]. }
  destruct (SendEnv.webhook env) as [e | response]; simpl.
  { split; [intros _; one_row|].
    eexists; split; [tidy; reflexivity | decided]. }
  destruct (Fetch.ok response); simpl.
  2:{ split; [intros _; one_row|].
      eexists; split; [tidy; reflexivity | decided]. }
  destruct (Fetch.text response) as [e | body]; simpl.
  { split; [intros _; one_row|].
    eexists; split; [tidy; reflexivity | decided]. }
  destruct (negb (JS.truthy body) || JS.eqb (JS.trim body) []); simpl.
  { split; [intros _; one_row|].
    eexists; split; [tidy; reflexivity | decided]. }
  destruct (Reply.failure (SendEnv.ai_insert env)); simpl.
  { split; [intros _; one_row|].
    eexists; split; [tidy; reflexivity | decided]. }
  destruct (Reply.failure (SendEnv.refresh env)); simpl;
    (split; [intros _; one_row|];
     eexists; split; [tidy; reflexivity | decided]).
Qed.

(** C2 as stated fails: when the storage refuses the insert of the user
    message, the send passes the guard and no user message is stored. *)
Lemma refused_insert_stores_no_user_message :
  ~ send_stores_user_message_first (fun _ => True).
Proof.
  intros H.
  destruct (H (Cases.user_insert_refused Cases.offline)
              Scenario.page Scenario.routed Scenario.alice Scenario.conv1
              Scenario.world I) as [P _].
  assert (A : page_accepts Scenario.page Scenario.alice Scenario.conv1)
    by (repeat split; solve [reflexivity | vm_compute; discriminate]).
  specialize (P A).
  vm_compute in P.
  destruct P as [(row & later & E & _) _].
  discriminate E.
Qed.

(** C2, amended.  On both Chat screens, a send that passes the guard issues
    the insert of the user message exactly once, before any other call.  If
    the storage accepts the insert, exactly one user row is stored and the
    webhook call is the next event, so the webhook is called only after the
    row is stored; if the storage refuses it, no row is stored and the
    webhook is not called.  In no case is the webhook called without the
    user message having been stored first. *)
Theorem accepted_user_insert_precedes_webhook :
  send_stores_user_message_first
    (fun env => succeeds (SendEnv.user_insert env))
  /\ forall (env : SendEnv.t) (p : ChatPage.State) (r : ChatRouted.State)
            (sess : Session.t) (conv : jsstring) (w : World.t),
      (page_accepts p sess conv ->
       let '(_, w') := after (ChatPage.sendMessage env) p w in
       exists events,
         World.trace w' = World.trace w ++ events
         /\ user_message_first conv (JS.trim (ChatPage.currentMessage p))
                               (World.backend w) (World.backend w') events
         /\ user_insert_decides env conv
              (JS.trim (ChatPage.currentMessage p)) None sess
              (World.backend w) (World.backend w') events)
      /\ (routed_accepts r sess conv ->
          let '(_, w') := after (ChatRouted.sendMessage env) r w in
          exists events,
            World.trace w' = World.trace w ++ events
            /\ user_message_first conv (JS.trim (ChatRouted.currentMessage r))
                                  (World.backend w) (World.backend w') events
            /\ user_insert_decides env conv
                 (JS.trim (ChatRouted.currentMessage r))
                 (Some (JS.lit "cors")) sess
                 (World.backend w) (World.backend w') events).
Proof.
  split.
  - intros env p r sess conv w Hok; split; intros Hacc.
    + pose proof (page_send_user_first env w Hacc) as F.
      pose proof (page_send_user_insert_decides env w Hacc) as D.
      destruct (after (ChatPage.sendMessage env) p w) as [p' w'].
      destruct D as [D _]; split; [exact (D Hok) | exact F].
    + pose proof (routed_send_user_first env w Hacc) as F.
      pose proof (routed_send_user_insert_decides env w Hacc) as D.
      destruct (after (ChatRouted.sendMessage env) r w) as [r' w'].
      destruct D as [D _]; split; [exact (D Hok) | exact F].
  - intros env p r sess conv w; split; intros Hacc.
    + pose proof (page_send_user_first env w Hacc) as F.
      pose proof (page_send_user_insert_decides env w Hacc) as D.
      destruct (after (ChatPage.sendMessage env) p w) as [p' w'].
      destruct F as (events & E & F), D as (_ & events' & E' & D).
      rewrite E in E'; apply app_inv_head in E'; subst events'.
      exists events; split; [exact E | split; [exact F | exact D]].
    + pose proof (routed_send_user_first env w Hacc) as F.
      pose proof (routed_send_user_insert_decides env w Hacc) as D.
      destruct (after (ChatRouted.sendMessage env) r w) as [r' w'].
      destruct F as (events & E & F), D as (_ & events' & E' & D).
      rewrite E in E'; apply app_inv_head in E'; subst events'.
      exists events; split; [exact E | split; [exact F | exact D]].
Qed.

Lemma accepted_user_insert_precedes_webhook_witness :
  let '(_, w') :=
    after (ChatPage.sendMessage (Scenario.answering 200 "Buy and hold."))
          Scenario.page Scenario.world in
  one_user_message_stored Scenario.conv1
    (JS.trim (ChatPage.currentMessage Scenario.page))
    (World.backend Scenario.world) (World.backend w')
  /\ exists events,
      World.trace w' = World.trace Scenario.world ++ events
      /\ user_message_first Scenario.conv1
           (JS.trim (ChatPage.currentMessage Scenario.page))
           (World.backend Scenario.world) (World.backend w') events.
Proof.
  apply (proj1 (proj1 accepted_user_insert_precedes_webhook
                  (Scenario.answering 200 "Buy and hold.")
                  Scenario.page Scenario.routed Scenario.alice Scenario.conv1
                  Scenario.world eq_refl)).
  repeat split; solve [reflexivity | vm_compute; discriminate].
Defined.

(** ** When the webhook refuses *)

Lemma not_ok_outside_2xx (response : Fetch.Response) :
  (Fetch.status response < 200 \/ 299 < Fetch.status response)%N ->
  Fetch.ok response = false.
Proof.
  unfold Fetch.ok; intros [H | H].
  - apply andb_false_iff; left; apply N.leb_gt; exact H.
  - apply andb_false_iff; right; apply N.leb_gt; exact H.
Qed.

(** C3. When the webhook answers with a status outside 200-299, the send
    ends after the webhook call: the only storage call is the insert of the
    user message, whose row stays in [messages] and in the transcript; no
    assistant row is inserted, [conversations] is left as it was, and the
    failure is shown in a toast. *)
Theorem non_2xx_keeps_user_message_only
        (env : SendEnv.t) (sess : Session.t) (conv input title : jsstring)
        (msgs : list Message.t) (loading : bool) (w : World.t)
        (response : Fetch.Response) :
  JS.trim input <> [] -> conv <> [] ->
  succeeds (SendEnv.user_insert env) ->
  SendEnv.webhook env = inr response ->
  (Fetch.status response < 200 \/ 299 < Fetch.status response)%N ->
  let b := World.backend w in
  let t1 := at_server w (SendEnv.user_insert env) in
  let u := Message.mk (Reply.fresh_id (SendEnv.user_insert env))
                      (JS.trim input) user t1 conv in
  let final (mode : option jsstring) (description : jsstring) :=
    World.mk
      (Backend.mk (Backend.conversations b) (Backend.messages b ++ [u]) t1)
      (World.trace w
       ++ [Storage (InsertMessage conv (JS.trim input) user) true;
           Fetched (Fetch.mkRequest webhook_url (JS.lit "POST") mode
                      (JS.lit "application/json")
                      (Payload.mk (JS.trim input)
                                  (User.id (Session.user sess)) conv));
           Toasted (destructive description)]) in
  ChatPage.sendMessage env
    (ChatPage.mkState (Some sess) msgs input loading (Some conv)) w
  = (inr tt,
     ChatPage.mkState (Some sess) (msgs ++ [u]) [] false (Some conv),
     final None Text.agent_unreachable)
  /\ ChatRouted.sendMessage env
       (ChatRouted.mkState (Some sess) msgs input loading (Some conv) title) w
     = (inr tt,
        ChatRouted.mkState (Some sess) (msgs ++ [u]) [] false (Some conv)
                           title,
        final (Some (JS.lit "cors"))
              (Text.agent_unreachable ++ JS.lit ": "
               ++ JS.ofNumber (Fetch.status response))).
Proof.
  intros Hin Hconv Hu Hw Hstatus; unfold succeeds in *.
  pose proof (not_ok_outside_2xx response Hstatus) as Hok.
  pose proof (JS_truthy_nonempty Hin) as Tin.
  pose proof (JS_truthy_nonempty Hconv) as Tconv.
  split.
  - unfold ChatPage.sendMessage, ChatPage.setMessages,
      ChatPage.setCurrentMessage, ChatPage.setIsLoading.
    run_handler; settle; tidy; reflexivity.
  - unfold ChatRouted.sendMessage, ChatRouted.setMessages,
      ChatRouted.setCurrentMessage, ChatRouted.setIsLoading.
    run_handler; settle; tidy; reflexivity.
Qed.

Lemma non_2xx_keeps_user_message_only_witness :
  ChatRouted.sendMessage (Scenario.answering 500 "Internal Server Error")
    Scenario.routed Scenario.world
  = (inr tt,
     ChatRouted.mkState (Some Scenario.alice)
       [Message.mk (JS.lit "msg-1") (JS.lit "What is a good ETF?") user 205
                   Scenario.conv1]
       [] false (Some Scenario.conv1) (JS.lit "Nova Conversa"),
     World.mk
       (Backend.mk
          [ConversationRow.mk Scenario.conv1 (JS.lit "user-1")
                              (JS.lit "Nova Conversa") 100 100]
          [Message.mk (JS.lit "msg-1") (JS.lit "What is a good ETF?") user 205
                      Scenario.conv1]
          205)
       [Storage (InsertMessage Scenario.conv1 (JS.lit "What is a good ETF?")
                               user) true;
        Fetched (Fetch.mkRequest webhook_url (JS.lit "POST")
                   (Some (JS.lit "cors")) (JS.lit "application/json")
                   (Payload.mk (JS.lit "What is a good ETF?")
                               (JS.lit "user-1") Scenario.conv1));
        Toasted (destructive (Text.agent_unreachable ++ JS.lit ": 500"))]).
Proof.
  refine (proj2 (@non_2xx_keeps_user_message_only
            (Scenario.answering 500 "Internal Server Error")
            Scenario.alice Scenario.conv1 (JS.lit "  What is a good ETF? ")
            (JS.lit "Nova Conversa") [] false Scenario.world
            (Scenario.response 500 "Internal Server Error")
            _ _ _ _ _));
    solve [ reflexivity | vm_compute; discriminate
          | right; reflexivity ].
Defined.

(** ** An empty reply *)

(** [unnamed/part_000] treats a 2xx response whose body is empty or blank
    as a failure: the user row stays, nothing else is written, and the
    toast reads "Resposta vazia do agente IA". *)
Lemma routed_blank_reply_fails
      (env : SendEnv.t) (sess : Session.t) (conv input title : jsstring)
      (msgs : list Message.t) (loading : bool) (w : World.t)
      (response : Fetch.Response) (body : jsstring) :
  JS.trim input <> [] -> conv <> [] ->
  succeeds (SendEnv.user_insert env) ->
  SendEnv.webhook env = inr response ->
  Fetch.ok response = true ->
  Fetch.text response = inr body ->
  JS.trim body = [] ->
  let b := World.backend w in
  let t1 := at_server w (SendEnv.user_insert env) in
  let u := Message.mk (Reply.fresh_id (SendEnv.user_insert env))
                      (JS.trim input) user t1 conv in
  ChatRouted.sendMessage env
    (ChatRouted.mkState (Some sess) msgs input loading (Some conv) title) w
  = (inr tt,
     ChatRouted.mkState (Some sess) (msgs ++ [u]) [] false (Some conv) title,
     World.mk
       (Backend.mk (Backend.conversations b) (Backend.messages b ++ [u]) t1)
       (World.trace w
        ++ [Storage (InsertMessage conv (JS.trim input) user) true;
            Fetched (Fetch.mkRequest webhook_url (JS.lit "POST")
                       (Some (JS.lit "cors")) (JS.lit "application/json")
                       (Payload.mk (JS.trim input)
                                   (User.id (Session.user sess)) conv));
            Toasted (destructive (JS.lit "Resposta vazia do agente IA"))])).
Proof.
  intros Hin Hconv Hu Hw Hok Hbody Hblank; unfold succeeds in *.
  pose proof (JS_truthy_nonempty Hin) as Tin.
  pose proof (JS_truthy_nonempty Hconv) as Tconv.
  unfold ChatRouted.sendMessage, ChatRouted.setMessages,
    ChatRouted.setCurrentMessage, ChatRouted.setIsLoading.
  run_handler; settle.
  rewrite Hblank; simpl; rewrite orb_true_r; simpl.
  tidy; reflexivity.
Qed.

(** C4, on [src/pages/Chat.tsx].  The webhook answers 200 with an empty
    body and every storage call succeeds.  The send does not fail: it
    inserts an assistant row with empty content, shows it, refreshes
    [updated_at] and raises no toast.  On the same input the screen of
    [unnamed/part_000] inserts no assistant row and raises the toast. *)
Theorem page_persists_empty_reply :
  let '(p', w1) :=
    after (ChatPage.sendMessage (Scenario.answering 200 ""))
          Scenario.page Scenario.world in
  let '(r', w2) :=
    after (ChatRouted.sendMessage (Scenario.answering 200 ""))
          Scenario.routed Scenario.world in
  let empty_reply := Message.mk (JS.lit "msg-2") [] assistant 212
                                Scenario.conv1 in
  (In empty_reply (Backend.messages (World.backend w1))
   /\ In empty_reply (ChatPage.messages p')
   /\ existsb is_refresh (World.trace w1) = true
   /\ existsb is_toast (World.trace w1) = false)
  /\ (existsb is_assistant_insert (World.trace w2) = false
      /\ existsb is_refresh (World.trace w2) = false
      /\ In (Toasted (destructive (JS.lit "Resposta vazia do agente IA")))
            (World.trace w2)).
Proof.
  vm_compute.
  repeat split; auto.
Qed.

(** ** The final update *)

(** C9, on both Chat screens.  Both inserts succeed, the webhook answers,
    and the storage refuses the final update of [updated_at].  The result
    of the update is dropped: the handler completes, [updated_at] keeps its
    old value, and no toast is raised. *)
Theorem refused_refresh_goes_unnoticed :
  let '(o1, _, w1) :=
    ChatPage.sendMessage (Scenario.unrefreshed 200 "Buy and hold.")
                         Scenario.page Scenario.world in
  let '(o2, _, w2) :=
    ChatRouted.sendMessage (Scenario.unrefreshed 200 "Buy and hold.")
                           Scenario.routed Scenario.world in
  let refused := Storage (UpdateConversation Scenario.conv1 1000) false in
  (o1 = inr tt
   /\ In refused (World.trace w1)
   /\ Backend.conversations (World.backend w1)
      = Backend.conversations (World.backend Scenario.world)
   /\ existsb is_toast (World.trace w1) = false)
  /\ (o2 = inr tt
      /\ In refused (World.trace w2)
      /\ Backend.conversations (World.backend w2)
         = Backend.conversations (World.backend Scenario.world)
      /\ existsb is_toast (World.trace w2) = false).
Proof.
  vm_compute.
  repeat split; auto 10.
Qed.

(** ** The two send flows *)

Lemma same_event_refl (e : Event) : same_event e e.
Proof.
  destruct e; simpl; try reflexivity.
  repeat split; reflexivity.
Qed.

Lemma same_trace_refl (l : list Event) : Forall2 same_event l l.
Proof. induction l; constructor; [apply same_event_refl | assumption]. Qed.

(** C10 as stated fails: with a body of one space, which is not empty, the
    screen of [src/pages/Chat.tsx] stores the reply and the screen of
    [unnamed/part_000] rejects it. *)
Lemma flows_differ_on_blank_body :
  ~ send_flows_agree (fun body => body <> []).
Proof.
  intros H.
  specialize (H (Scenario.answering 200 " ") Scenario.page Scenario.routed
                Scenario.world (Scenario.response 200 " ") (JS.lit " ")).
  vm_compute in H.
  destruct H as (_ & (_ & Hm & _) & _);
    try solve [ reflexivity | repeat split; reflexivity
              | intros E; discriminate E ].
  discriminate Hm.
Qed.

(** C10, amended.  When every storage call succeeds and the webhook answers
    2xx with a body that is not blank, the two send flows agree: same
    outcome, same screen state, same storage, and the same calls with the
    same payload in the same order (the explicit [mode: 'cors'] of one is
    the default of the other). *)
Theorem send_flows_agree_on_nonblank_body :
  send_flows_agree (fun body => JS.trim body <> []).
Proof.
  intros env p r w response body Hsame Hsess Hconv Hin Hu Ha Hr Hw Hok Hbody
         Hblank.
  destruct p as [se msgs input loading cc].
  destruct r as [se' msgs' input' loading' cc' title].
  unfold same_screen in Hsame; simpl in *.
  destruct Hsame as (<- & <- & <- & <- & <-).
  destruct se as [sess|]; [|discriminate Hsess].
  destruct cc as [conv|]; [|discriminate Hconv].
  assert (Hc : conv <> []) by (intros ->; discriminate Hconv).
  rewrite (@page_send_exchange env sess conv input msgs loading w response
             body Hin Hc Hu Ha Hw Hok Hbody).
  rewrite (@routed_send_exchange env sess conv input title msgs loading w
             response body Hin Hc Hu Ha Hw Hok Hbody Hblank).
  split; [reflexivity|].
  split; [repeat split; reflexivity|].
  split; [reflexivity|].
  simpl.
  apply Forall2_app; [apply same_trace_refl|].
  repeat constructor; reflexivity.
Qed.

Lemma send_flows_agree_on_nonblank_body_witness :
  let '(o1, p', w1) :=
    ChatPage.sendMessage (Scenario.answering 200 "Buy and hold.")
                         Scenario.page Scenario.world in
  let '(o2, r', w2) :=
    ChatRouted.sendMessage (Scenario.answering 200 "Buy and hold.")
                           Scenario.routed Scenario.world in
  o1 = o2 /\ same_screen p' r'
  /\ World.backend w1 = World.backend w2
  /\ Forall2 same_event (World.trace w1) (World.trace w2).
Proof.
  refine (@send_flows_agree_on_nonblank_body
            (Scenario.answering 200 "Buy and hold.")
            Scenario.page Scenario.routed Scenario.world
            (Scenario.response 200 "Buy and hold.")
            (JS.lit "Buy and hold.") _ _ _ _ _ _ _ _ _ _ _);
    solve [ reflexivity | repeat split; reflexivity
          | vm_compute; discriminate ].
Defined.

(* ===================================================================== *)
(** ** Resolving the conversation *)

Lemma conversation_by_id_none (cid uid : jsstring) (b : Backend.t) :
  (forall c, In c (Backend.conversations b) ->
             ~ (ConversationRow.id c = cid /\ ConversationRow.user_id c = uid)) ->
  Backend.conversation_by_id cid uid b = [].
Proof.
  unfold Backend.conversation_by_id; intros H.
  induction (Backend.conversations b) as [|c l IH]; simpl; [reflexivity|].
  destruct (JS.eqb (ConversationRow.id c) cid
            && JS.eqb (ConversationRow.user_id c) uid) eqn:E.
  - exfalso; apply (H c); [left; reflexivity|].
    apply andb_true_iff in E; rewrite !JS_eqb_eq in E; exact E.
  - apply IH; intros c' Hin; apply H; right; exact Hin.
Qed.

(** C5. With a non-empty [conversation] parameter the screen asks the
    storage for the conversation with that id and the session user's id.
    When the user has no conversation with that id, or the storage reports
    an error, the load fails: an error toast is raised, the router is sent
    to the history screen, and the screen state, transcript included, is
    left as it was; the messages are never requested. *)
Theorem missing_conversation_redirects
        (env : ChatRouted.LoadEnv) (s : ChatRouted.State) (sess : Session.t)
        (cid : jsstring) (w : World.t) :
  ChatRouted.session s = Some sess ->
  cid <> [] ->
  (forall c, In c (Backend.conversations (World.backend w)) ->
             ~ (ConversationRow.id c = cid
                /\ ConversationRow.user_id c = User.id (Session.user sess))) ->
  ChatRouted.createOrLoadConversation (Some cid) env s w
  = (inr tt, s,
     World.mk
       (Backend.advance (Reply.elapsed (ChatRouted.conversation env))
                        (World.backend w))
       (World.trace w
        ++ [Storage (SelectConversation cid (User.id (Session.user sess)))
                    false;
            Toasted (destructive Text.cannot_load_conversation);
            Navigated (JS.lit "/chat-history")])).
Proof.
  intros Hs Hcid Hnone.
  unfold ChatRouted.createOrLoadConversation.
  run_handler; rewrite Hs; simpl.
  rewrite (JS_truthy_nonempty Hcid); simpl.
  destruct (Reply.failure (ChatRouted.conversation env)); simpl.
  - tidy; reflexivity.
  - rewrite (@conversation_by_id_none cid (User.id (Session.user sess))
               (Backend.advance (Reply.elapsed (ChatRouted.conversation env))
                                (World.backend w)) Hnone).
    simpl; tidy; reflexivity.
Qed.

Lemma missing_conversation_redirects_witness :
  ChatRouted.createOrLoadConversation (Some (JS.lit "conv-2"))
    (ChatRouted.mkLoadEnv (Scenario.accepted "" 4) (Scenario.accepted "" 4)
                          (Scenario.accepted "" 4))
    Scenario.routed Scenario.world
  = (inr tt, Scenario.routed,
     World.mk
       (Backend.advance 4 (World.backend Scenario.world))
       [Storage (SelectConversation (JS.lit "conv-2") (JS.lit "user-1")) false;
        Toasted (destructive Text.cannot_load_conversation);
        Navigated (JS.lit "/chat-history")]).
Proof.
  refine (@missing_conversation_redirects
            (ChatRouted.mkLoadEnv (Scenario.accepted "" 4)
                                  (Scenario.accepted "" 4)
                                  (Scenario.accepted "" 4))
            Scenario.routed Scenario.alice (JS.lit "conv-2") Scenario.world
            _ _ _).
  - reflexivity.
  - vm_compute; discriminate.
  - intros c [<- | []] [E _]; vm_compute in E; discriminate E.
Defined.

Lemma conversations_of_advance (uid : jsstring) (n : N) (b : Backend.t) :
  Backend.conversations_of uid (Backend.advance n b)
  = Backend.conversations_of uid b.
Proof. reflexivity. Qed.

Lemma conversations_of_none (uid : jsstring) (b : Backend.t) :
  (forall c, In c (Backend.conversations b) ->
             ConversationRow.user_id c <> uid) ->
  Backend.conversations_of uid b = [].
Proof.
  intros H.
  destruct (Backend.conversations_of uid b) as [|c l] eqn:E; [reflexivity|].
  assert (Hc : In c (Backend.conversations_of uid b))
    by (rewrite E; left; reflexivity).
  apply conversations_of_In in Hc; destruct Hc as [Hin Hu].
  exfalso; exact (H c Hin Hu).
Qed.

(** The first row of the ordered select is a conversation of the user that
    no other conversation of the user is more recent than. *)
Lemma conversations_of_head (uid : jsstring) (b : Backend.t)
      (c : ConversationRow.t) (l : list ConversationRow.t) :
  Backend.conversations_of uid b = c :: l ->
  (In c (Backend.conversations b) /\ ConversationRow.user_id c = uid)
  /\ forall c', In c' (Backend.conversations b) ->
                ConversationRow.user_id c' = uid ->
                ConversationRow.updated_at c' <= ConversationRow.updated_at c.
Proof.
  intros E; split.
  - apply conversations_of_In; rewrite E; left; reflexivity.
  - intros c' Hin Hu.
    apply latest_first_head with (l := l).
    + rewrite <- E; apply conversations_of_latest_first.
    + rewrite <- E; apply conversations_of_In; split; assumption.
Qed.

(** C6. Without a [conversation] parameter both screens ask for the
    conversations of the session user, most recently updated first, one row
    at most.  If the user has any, the row is a conversation of the user
    with maximal [updated_at]; it becomes the active one and its messages
    are shown.  If the user has none, the screen of [unnamed/part_000]
    navigates to the history screen and writes nothing, and the screen of
    [src/pages/Chat.tsx] inserts a conversation titled "Nova Conversa" for
    the user, makes it active and shows an empty transcript. *)
Theorem load_without_identifier
        (penv : ChatPage.LoadEnv) (renv : ChatRouted.LoadEnv)
        (p : ChatPage.State) (r : ChatRouted.State) (sess : Session.t)
        (fromUrl : option jsstring) (w : World.t) :
  ChatPage.session p = Some sess ->
  ChatRouted.session r = Some sess ->
  when_truthy fromUrl = None ->
  succeeds (ChatPage.recent penv) -> succeeds (ChatPage.history penv) ->
  succeeds (ChatPage.created penv) ->
  succeeds (ChatRouted.recent renv) -> succeeds (ChatRouted.history renv) ->
  let uid := User.id (Session.user sess) in
  let b := World.backend w in
  let mine c :=
    In c (Backend.conversations b) /\ ConversationRow.user_id c = uid in
  ((exists c, mine c) ->
   exists c,
     mine c
     /\ (forall c', mine c' ->
                    ConversationRow.updated_at c'
                    <= ConversationRow.updated_at c)
     /\ (let '(p', w') :=
           after (ChatPage.createOrLoadConversation penv) p w in
         ChatPage.currentConversation p' = Some (ConversationRow.id c)
         /\ ChatPage.messages p'
            = Backend.messages_of (ConversationRow.id c) b
         /\ Backend.conversations (World.backend w')
            = Backend.conversations b
         /\ World.trace w'
            = World.trace w
              ++ [Storage (SelectRecentConversation uid) true;
                  Storage (SelectMessages (ConversationRow.id c)) true])
     /\ (let '(r', w') :=
           after (ChatRouted.createOrLoadConversation fromUrl renv) r w in
         ChatRouted.currentConversation r' = Some (ConversationRow.id c)
         /\ ChatRouted.messages r'
            = Backend.messages_of (ConversationRow.id c) b
         /\ Backend.conversations (World.backend w')
            = Backend.conversations b
         /\ World.trace w'
            = World.trace w
              ++ [Storage (SelectRecentConversation uid) true;
                  Storage (SelectMessages (ConversationRow.id c)) true]))
  /\ ((forall c, ~ mine c) ->
      let t := at_server w (ChatPage.recent penv)
               + Z.of_N (Reply.elapsed (ChatPage.created penv)) in
      let fresh :=
        ConversationRow.mk (Reply.fresh_id (ChatPage.created penv)) uid
                           (JS.lit "Nova Conversa") t t in
      after (ChatPage.createOrLoadConversation penv) p w
      = (ChatPage.mkState (Some sess) [] (ChatPage.currentMessage p)
                          (ChatPage.isLoading p)
                          (Some (ConversationRow.id fresh)),
         World.mk
           (Backend.mk (Backend.conversations b ++ [fresh])
                       (Backend.messages b) t)
           (World.trace w
            ++ [Storage (SelectRecentConversation uid) true;
                Storage (InsertConversation uid (JS.lit "Nova Conversa"))
                        true]))
      /\ after (ChatRouted.createOrLoadConversation fromUrl renv) r w
         = (r,
            World.mk
              (Backend.advance (Reply.elapsed (ChatRouted.recent renv)) b)
              (World.trace w
               ++ [Storage (SelectRecentConversation uid) true;
                   Navigated (JS.lit "/chat-history")]))).
Proof.
  intros Hp Hr Hurl Hpr Hph Hpc Hrr Hrh uid b mine; unfold succeeds in *.
  split.
  - intros [c0 [Hin0 Hu0]].
    destruct (Backend.conversations_of uid b) as [|c l] eqn:E.
    { assert (Hc : In c0 (Backend.conversations_of uid b))
        by (apply conversations_of_In; split; assumption).
      rewrite E in Hc; destruct Hc. }
    destruct (conversations_of_head _ _ E) as [Hmine Hmax].
    exists c; split; [exact Hmine|].
    split; [intros c' [Hin Hu]; apply Hmax; assumption|].
    split.
    + unfold after, ChatPage.createOrLoadConversation,
        ChatPage.setCurrentConversation, ChatPage.setMessages.
      run_handler; rewrite Hp; simpl; settle.
      rewrite conversations_of_advance; fold b uid; rewrite E; simpl; settle.
      repeat split; tidy; reflexivity.
    + unfold after, ChatRouted.createOrLoadConversation,
        ChatRouted.setCurrentConversation, ChatRouted.setMessages,
        ChatRouted.setConversationTitle.
      run_handler; rewrite Hr; simpl; rewrite Hurl; simpl; settle.
      rewrite conversations_of_advance; fold b uid; rewrite E; simpl; settle.
      repeat split; tidy; reflexivity.
  - intros Hnone.
    assert (E : Backend.conversations_of uid b = [])
      by (apply conversations_of_none; intros c Hin Hu; apply (Hnone c);
          split; assumption).
    split.
    + unfold after, ChatPage.createOrLoadConversation,
        ChatPage.setCurrentConversation, ChatPage.setMessages.
      run_handler; rewrite Hp; simpl; settle.
      rewrite conversations_of_advance; fold b uid; rewrite E; simpl; settle.
      destruct p; simpl in *; subst; tidy; reflexivity.
    + unfold after, ChatRouted.createOrLoadConversation.
      run_handler; rewrite Hr; simpl; rewrite Hurl; simpl; settle.
      rewrite conversations_of_advance; fold b uid; rewrite E; simpl.
      tidy; reflexivity.
Qed.

Lemma load_without_identifier_witness :
  (exists c,
      In c (Backend.conversations (World.backend Scenario.world))
      /\ ChatPage.currentConversation
           (fst (after (ChatPage.createOrLoadConversation Scenario.page_loading)
                       (Scenario.page_of Scenario.alice) Scenario.world))
         = Some (ConversationRow.id c))
  /\ after (ChatRouted.createOrLoadConversation None Scenario.routed_loading)
           (Scenario.routed_of Scenario.bob) Scenario.world
     = (Scenario.routed_of Scenario.bob,
        World.mk (Backend.advance 4 (World.backend Scenario.world))
                 [Storage (SelectRecentConversation (JS.lit "user-2")) true;
                  Navigated (JS.lit "/chat-history")]).
Proof.
  split.
  - destruct (@load_without_identifier
                Scenario.page_loading Scenario.routed_loading
                (Scenario.page_of Scenario.alice)
                (Scenario.routed_of Scenario.alice)
                Scenario.alice None Scenario.world
                eq_refl eq_refl eq_refl eq_refl eq_refl eq_refl eq_refl
                eq_refl) as [Found _].
    destruct Found as (c & [Hin _] & _ & Hpage & _).
    + eexists; split; [left; reflexivity | reflexivity].
    + exists c; split; [exact Hin|].
      destruct (after (ChatPage.createOrLoadConversation Scenario.page_loading)
                      (Scenario.page_of Scenario.alice) Scenario.world)
        as [p' w'].
      exact (proj1 Hpage).
  - destruct (@load_without_identifier
                Scenario.page_loading Scenario.routed_loading
                (Scenario.page_of Scenario.bob)
                (Scenario.routed_of Scenario.bob)
                Scenario.bob None Scenario.world
                eq_refl eq_refl eq_refl eq_refl eq_refl eq_refl eq_refl
                eq_refl) as [_ Nothing].
    apply Nothing.
    intros c [[<- | []] E]; vm_compute in E; discriminate E.
Defined.

(* ===================================================================== *)
(** ** The transcript is ordered *)

Lemma ascending_app (l1 l2 : list Message.t) (t : timestamp) :
  ascending l1 -> not_after t l1 ->
  ascending l2 -> Forall (fun m => t <= Message.created_at m) l2 ->
  ascending (l1 ++ l2).
Proof.
  unfold ascending, not_after; intros H1 B1 H2 B2.
  induction H1 as [|x l Hs IH Hx]; simpl; [exact H2|].
  apply Forall_cons_iff in B1; destruct B1 as [Bx Bl].
  constructor; [apply IH; exact Bl|].
  apply Forall_app; split; [exact Hx|].
  eapply Forall_impl; [|exact B2]; simpl; intros; lia.
Qed.

Lemma not_after_later (t t' : timestamp) (l : list Message.t) :
  t <= t' -> not_after t l -> not_after t' l.
Proof.
  unfold not_after; intros Ht H.
  eapply Forall_impl; [|exact H]; simpl; intros; lia.
Qed.

Lemma not_after_messages_of (t : timestamp) (cid : jsstring) (b : Backend.t) :
  not_after t (Backend.messages b) -> not_after t (Backend.messages_of cid b).
Proof.
  unfold not_after; rewrite !Forall_forall; intros H m Hm.
  apply messages_of_In in Hm; apply H; tauto.
Qed.

(** Case analysis on every reply of the outside world a handler looks at. *)
Ltac each_reply :=
  repeat (simpl;
          match goal with
          | |- context [Reply.failure ?r] => destruct (Reply.failure r)
          | |- context [SendEnv.webhook ?e] => destruct (SendEnv.webhook e)
          | |- context [Fetch.ok ?r] => destruct (Fetch.ok r)
          | |- context [Fetch.text ?r] => destruct (Fetch.text r)
          | |- context [JS.truthy ?x] => destruct (JS.truthy x)
          | |- context [JS.eqb ?x ?y] => destruct (JS.eqb x y)
          end).

Ltac stamps := unfold at_server, Backend.advance; simpl; lia.

(** *** A handler cut at its awaits is the handler

    Answered at once, call after call, the tasks do what the handlers of
    the previous sections do. *)

Lemma page_load_in_one_go (s : ChatPage.State) (w : World.t)
      (recent next : Service.t) :
  complete (ChatPageAsync.createOrLoadConversation (ChatPage.session s))
           [recent; next] s w
  = after (ChatPage.createOrLoadConversation
             (ChatPage.mkLoadEnv (Service.reply recent) (Service.reply next)
                                 (Service.reply next)))
          s w.
Proof.
  destruct s as [[sess|] msgs input loading cc];
    unfold after, ChatPage.createOrLoadConversation,
      ChatPageAsync.createOrLoadConversation, ChatPageAsync.load_failed,
      ChatPage.setMessages, ChatPage.setCurrentConversation;
    simpl; [|reflexivity].
  unfold serve; run_handler.
  destruct (Reply.failure (Service.reply recent)); simpl; [reflexivity|].
  destruct (Backend.conversations_of _ _) as [|c rest]; simpl;
    unfold after; run_handler;
    destruct (Reply.failure (Service.reply next)); reflexivity.
Qed.

Lemma routed_load_in_one_go (s : ChatRouted.State) (w : World.t)
      (fromUrl : option jsstring) (first next : Service.t) :
  complete (ChatRoutedAsync.createOrLoadConversation
              (ChatRouted.session s) fromUrl)
           [first; next] s w
  = after (ChatRouted.createOrLoadConversation fromUrl
             (ChatRouted.mkLoadEnv (Service.reply first) (Service.reply first)
                                   (Service.reply next)))
          s w.
Proof.
  destruct s as [[sess|] msgs input loading cc title];
    unfold after, ChatRouted.createOrLoadConversation,
      ChatRoutedAsync.createOrLoadConversation, ChatRoutedAsync.load_failed,
      ChatRoutedAsync.open_conversation,
      ChatRouted.setMessages, ChatRouted.setCurrentConversation,
      ChatRouted.setConversationTitle;
    simpl; [|reflexivity].
  destruct (when_truthy fromUrl) as [url|]; simpl;
    unfold serve; run_handler;
    (destruct (Reply.failure (Service.reply first)); simpl; [reflexivity|]).
  - unfold single.
    destruct (Backend.conversation_by_id _ _ _) as [|c [|c' rest]]; simpl;
      unfold after; run_handler; try reflexivity.
    destruct (Reply.failure (Service.reply next)); reflexivity.
  - destruct (Backend.conversations_of _ _) as [|c rest]; simpl;
      unfold after; run_handler; try reflexivity.
    destruct (Reply.failure (Service.reply next)); reflexivity.
Qed.

Lemma page_send_in_one_go (s : ChatPage.State) (w : World.t)
      (today : timestamp) (insert webhook body reply refresh : Service.t) :
  complete (ChatPageAsync.sendMessage s today)
           [insert; webhook; body; reply; refresh] s w
  = after (ChatPage.sendMessage
             (SendEnv.mk (Service.reply insert) (Service.outcome webhook)
                         (Service.reply reply) (Service.reply refresh)
                         today))
          s w.
Proof.
  destruct s as [[sess|] msgs input loading [conv|]];
    unfold after, ChatPage.sendMessage, ChatPageAsync.sendMessage,
      ChatPageAsync.store_reply, ChatPageAsync.failed,
      ChatPage.setMessages, ChatPage.setCurrentMessage,
      ChatPage.setIsLoading;
    run_handler; rewrite ?orb_true_r, ?orb_false_r; simpl; try reflexivity.
  destruct (negb (JS.truthy (JS.trim input)) || negb (JS.truthy conv));
    simpl; [reflexivity|].
  unfold after, serve; run_handler.
  destruct (Reply.failure (Service.reply insert)); simpl; [reflexivity|].
  unfold after; run_handler.
  destruct (Service.outcome webhook) as [e | response]; simpl;
    [reflexivity|].
  destruct (Fetch.ok response); simpl; [|reflexivity].
  destruct (Fetch.text response) as [e | text]; simpl; [reflexivity|].
  run_handler.
  destruct (Reply.failure (Service.reply reply)); simpl; [reflexivity|].
  unfold after; run_handler.
  destruct (Reply.failure (Service.reply refresh)); reflexivity.
Qed.

Lemma routed_send_in_one_go (s : ChatRouted.State) (w : World.t)
      (today : timestamp) (insert webhook body reply refresh : Service.t) :
  complete (ChatRoutedAsync.sendMessage s today)
           [insert; webhook; body; reply; refresh] s w
  = after (ChatRouted.sendMessage
             (SendEnv.mk (Service.reply insert) (Service.outcome webhook)
                         (Service.reply reply) (Service.reply refresh)
                         today))
          s w.
Proof.
  destruct s as [[sess|] msgs input loading [conv|] title];
    unfold after, ChatRouted.sendMessage, ChatRoutedAsync.sendMessage,
      ChatRoutedAsync.store_reply, ChatRoutedAsync.failed,
      ChatRouted.setMessages, ChatRouted.setCurrentMessage,
      ChatRouted.setIsLoading;
    run_handler; rewrite ?orb_true_r, ?orb_false_r; simpl; try reflexivity.
  destruct (negb (JS.truthy (JS.trim input)) || negb (JS.truthy conv));
    simpl; [reflexivity|].
  unfold after, serve; run_handler.
  destruct (Reply.failure (Service.reply insert)); simpl; [reflexivity|].
  unfold after; run_handler.
  destruct (Service.outcome webhook) as [e | response]; simpl;
    [reflexivity|].
  destruct (Fetch.ok response); simpl; [|reflexivity].
  destruct (Fetch.text response) as [e | text]; simpl; [reflexivity|].
  destruct (negb (JS.truthy text) || JS.eqb (JS.trim text) []); simpl;
    [reflexivity|].
  run_handler.
  destruct (Reply.failure (Service.reply reply)); simpl; [reflexivity|].
  unfold after; run_handler.
  destruct (Reply.failure (Service.reply refresh)); reflexivity.
Qed.

(** *** What the outside does to the storage *)

Lemma elsewhere_clock (b b' : Backend.t) :
  elsewhere b b' -> Backend.now b <= Backend.now b'.
Proof. intros H; destruct H; simpl; lia. Qed.

Lemma elsewhere_punctual (b b' : Backend.t) (tr tr' : list Event) :
  punctual (World.mk b tr) -> elsewhere b b' -> punctual (World.mk b' tr').
Proof.
  unfold punctual, not_after; simpl; intros Hb Hstep.
  destruct Hstep; simpl; try exact Hb.
  - eapply Forall_impl; [|exact Hb]; simpl; intros; lia.
  - apply Forall_app; split; [exact Hb|].
    repeat constructor; simpl; lia.
  - rewrite Forall_forall in *; intros m Hm.
    apply Hb; eapply Permutation_in; eassumption.
Qed.

Lemma without_In {A : Type} (n : nat) (l : list A) (a : A) :
  In a (without n l) -> In a l.
Proof.
  unfold without; intros H; apply in_app_or in H.
  destruct H as [H | H].
  - rewrite <- (firstn_skipn n l); apply in_or_app; left; exact H.
  - rewrite <- (firstn_skipn (S n) l); apply in_or_app; right; exact H.
Qed.

Lemma Forall_without {A : Type} (P : A -> Prop) (n : nat) (l : list A) :
  Forall P l -> Forall P (without n l).
Proof.
  rewrite !Forall_forall; intros H a Ha.
  apply H; eapply without_In; exact Ha.
Qed.

(** *** The invariant of the steps that handle answers in order *)

Section Invariant.
Variable St : Type.
Variable transcript : St -> list Message.t.
Variable initial : St.
Variable event : St -> Task St -> Prop.

Hypothesis initially_empty : transcript initial = [].
Hypothesis event_orderly :
  forall s task, event s task -> forall t, orderly transcript t task.

Lemma proceed_orderly (task : Task St) :
  forall (t : timestamp) (s : St) (w : World.t),
    orderly transcript t task ->
    ascending (transcript s) -> not_after t (transcript s) ->
    let '(s', w', parked) := proceed task s w in
    World.backend w' = World.backend w
    /\ ascending (transcript s') /\ not_after t (transcript s')
    /\ Forall (answerable transcript) parked.
Proof.
  induction task as [| code next IH | A call resume _]; intros t s w Ho Ha Hn.
  - simpl; repeat split; solve [assumption | constructor].
  - simpl in *; destruct Ho as [Hcode Hnext].
    specialize (Hcode s w).
    destruct (after code s w) as [s1 w1].
    destruct Hcode as [Eb Hkeep]; destruct (Hkeep Ha Hn) as [Ha1 Hn1].
    specialize (IH t s1 w1 Hnext Ha1 Hn1).
    destruct (proceed next s1 w1) as [[s2 w2] parked].
    destruct IH as (Eb2 & IH); split; [congruence | exact IH].
  - simpl; repeat split; try assumption.
    constructor; [exact Ho | constructor].
Qed.

Lemma queued_later (now now' : timestamp) (q : list (Task St)) :
  now <= now' ->
  forall t, queued transcript now t q -> queued transcript now' t q.
Proof.
  intros Hnow; induction q as [|task rest IH]; simpl; intros t H; [lia|].
  destruct H as (t' & Ht & Ho & Hq).
  exists t'; repeat split; try assumption; apply IH; exact Hq.
Qed.

Lemma queued_snoc (now now' : timestamp) (task : Task St)
      (q : list (Task St)) :
  now <= now' -> orderly transcript now' task ->
  forall t, queued transcript now t q ->
            queued transcript now' t (q ++ [task]).
Proof.
  intros Hnow Htask; induction q as [|x rest IH]; simpl; intros t H.
  - exists now'; repeat split; [lia | exact Htask | lia].
  - destruct H as (t' & Ht & Ho & Hq).
    exists t'; repeat split; try assumption; apply IH; exact Hq.
Qed.

(** A task that is orderly at the bound of the transcript may go on. *)
Lemma launch_in_step (task : Task St) (x : System.t St) (t : timestamp) :
  punctual (System.world x) ->
  Forall (answerable transcript) (System.calls x) ->
  ascending (transcript (System.screen x)) ->
  not_after t (transcript (System.screen x)) ->
  queued transcript (Backend.now (World.backend (System.world x))) t
         (System.answers x) ->
  orderly transcript t task ->
  in_step transcript (launch task x).
Proof.
  intros Hp Hc Ha Hn Hq Ho; unfold launch.
  pose proof (@proceed_orderly task t (System.screen x) (System.world x)
                               Ho Ha Hn) as H.
  destruct (proceed task (System.screen x) (System.world x))
    as [[s' w'] parked].
  destruct H as (Eb & Ha' & Hn' & Hparked).
  unfold in_step, punctual in *; simpl; rewrite Eb.
  split; [exact Hp|].
  split; [apply Forall_app; split; assumption|].
  exists t; repeat split; assumption.
Qed.

Lemma step_in_step (x y : System.t St) :
  in_step transcript x -> step event true x y -> in_step transcript y.
Proof.
  intros (Hp & Hc & t & Ha & Hn & Hq) Hstep.
  destruct Hstep as [task x He | n sv x Hlt | n x Hlt Hfirst | b x Hb].
  - eapply launch_in_step; try eassumption.
    eapply event_orderly; exact He.
  - unfold answered.
    destruct (nth_error (System.calls x) n) as [[A call resume]|] eqn:E;
      [| unfold in_step; eauto 10].
    assert (Hcall : answerable transcript (Waiting call resume)).
    { rewrite Forall_forall in Hc; apply Hc.
      eapply nth_error_In; exact E. }
    simpl in Hcall; specialize (Hcall sv (System.world x) Hp).
    destruct (serve call sv (System.world x)) as [answer w'].
    destruct Hcall as (Hp' & Hnow & Ho).
    unfold in_step; simpl.
    split; [exact Hp'|].
    split; [apply Forall_without; exact Hc|].
    exists t; repeat split; try assumption.
    eapply queued_snoc; eassumption.
  - rewrite (Hfirst eq_refl) in *; unfold handled.
    destruct (System.answers x) as [|task rest] eqn:E; simpl;
      [unfold in_step; rewrite E; eauto 10|].
    simpl in Hq; destruct Hq as (t' & Ht & Ho & Hq).
    apply launch_in_step with (t := t'); simpl; try assumption.
    eapply not_after_later; eassumption.
  - unfold outside, in_step; simpl.
    destruct (System.world x) as [b0 tr]; simpl in *.
    split; [eapply elsewhere_punctual; eassumption|].
    split; [exact Hc|].
    exists t; repeat split; try assumption.
    eapply queued_later; [|exact Hq].
    apply elsewhere_clock; exact Hb.
Qed.

Lemma reachable_in_step (x : System.t St) :
  reachable initial event true x -> in_step transcript x.
Proof.
  induction 1 as [w Hw | x y _ IH Hstep].
  - unfold in_step; simpl; rewrite initially_empty.
    split; [exact Hw|]; split; [constructor|].
    exists (Backend.now (World.backend w)).
    repeat split; solve [constructor | lia].
  - eapply step_in_step; eassumption.
Qed.

End Invariant.

(** *** The handlers of the two screens are orderly *)

(** Code that leaves the transcript alone. *)
Ltac quiet :=
  intros ? ?;
  unfold after, ChatPage.setSession, ChatPage.setCurrentMessage,
    ChatPage.setIsLoading, ChatPage.setCurrentConversation,
    ChatRouted.setSession, ChatRouted.setCurrentMessage,
    ChatRouted.setIsLoading, ChatRouted.setCurrentConversation,
    ChatRouted.setConversationTitle;
  run_handler;
  split; [reflexivity | intros; split; assumption].

(** A task that ends in such code. *)
Ltac ends_quietly := simpl; split; [quiet | exact I].

(** The storage after a call it was punctual before. *)
Ltac still_punctual :=
  match goal with
  | Hp : punctual _ |- punctual _ =>
      unfold punctual, not_after in *; simpl;
      rewrite ?Forall_app;
      repeat split;
      try (eapply Forall_impl; [|exact Hp]; simpl; intros; lia);
      repeat constructor; simpl; lia
  end.

(** The answer of the storage to a call, and what is left to show of the
    rest of the task. *)
Ltac answer :=
  let sv := fresh "sv" in
  let w := fresh "w" in
  let Hp := fresh "Hp" in
  intros sv w Hp; unfold serve; run_handler;
  destruct (Reply.failure (Service.reply sv)); simpl;
  (split; [still_punctual|]; split; [lia|]).

Lemma append_keeps (msgs : list Message.t) (row : Message.t)
      (t : timestamp) :
  Message.created_at row = t ->
  ascending msgs -> not_after t msgs ->
  ascending (msgs ++ [row]) /\ not_after t (msgs ++ [row]).
Proof.
  intros Hrow Ha Hn; split.
  - eapply ascending_app; try eassumption.
    + repeat constructor.
    + repeat constructor; lia.
  - apply Forall_app; split; [exact Hn|].
    repeat constructor; lia.
Qed.

Lemma select_keeps (cid : jsstring) (w : World.t) (n : N) :
  punctual w ->
  ascending (Backend.messages_of cid (Backend.advance n (World.backend w)))
  /\ not_after (Backend.now (World.backend w) + Z.of_N n)
               (Backend.messages_of cid
                  (Backend.advance n (World.backend w))).
Proof.
  intros Hp; split; [apply messages_of_ascending|].
  apply not_after_messages_of; simpl.
  eapply not_after_later; [|exact Hp]; lia.
Qed.

(** Code that appends a row stamped at the time of the answer. *)
Ltac appends :=
  intros ? ?;
  unfold after, ChatPage.setMessages, ChatRouted.setMessages; run_handler;
  split;
  [ reflexivity
  | intros; apply append_keeps; solve [reflexivity | assumption] ].

(** Code that replaces the transcript by the rows of a select, or by none. *)
Ltac replaces :=
  intros ? ?;
  unfold after, ChatPage.setMessages, ChatRouted.setMessages,
    ChatPage.setCurrentConversation; run_handler;
  split;
  [ reflexivity
  | intros _ _;
    first [ split; constructor
          | apply select_keeps; assumption ] ].

Lemma page_store_reply_orderly (conv body : jsstring) (today t : timestamp) :
  orderly ChatPage.messages t (ChatPageAsync.store_reply conv body today).
Proof.
  unfold ChatPageAsync.store_reply; simpl.
  answer; [ends_quietly|].
  split; [appends|].
  answer; ends_quietly.
Qed.

Lemma page_load_orderly (session : option Session.t) (t : timestamp) :
  orderly ChatPage.messages t (ChatPageAsync.createOrLoadConversation session).
Proof.
  destruct session as [sess|]; simpl; [|exact I].
  answer; [ends_quietly|].
  destruct (Backend.conversations_of _ _) as [|c rest]; simpl.
  - answer; [ends_quietly|].
    split; [replaces | exact I].
  - split; [quiet|].
    answer; [ends_quietly|].
    split; [replaces | exact I].
Qed.

Lemma page_send_orderly (s : ChatPage.State) (today t : timestamp) :
  orderly ChatPage.messages t (ChatPageAsync.sendMessage s today).
Proof.
  unfold ChatPageAsync.sendMessage.
  destruct (negb (JS.truthy (JS.trim (ChatPage.currentMessage s)))
            || falsy (ChatPage.currentConversation s)
            || negb (signed_in (ChatPage.session s))); [exact I|].
  destruct (ChatPage.session s) as [sess|]; [|exact I].
  destruct (ChatPage.currentConversation s) as [conv|]; [|exact I].
  simpl.
  split; [quiet|].
  answer; [ends_quietly|].
  split; [appends|].
  intros sv0 w0 Hp0; simpl.
  split; [exact Hp0|]; split; [lia|].
  destruct (Service.outcome sv0) as [e | response]; [ends_quietly|].
  destruct (Fetch.ok response); simpl; [|ends_quietly].
  intros sv1 w1 Hp1.
  split; [exact Hp1|]; split; [lia|].
  destruct (Fetch.text response) as [e | body];
    [ends_quietly | apply page_store_reply_orderly].
Qed.

Lemma page_event_orderly (s : ChatPage.State) (task : Task ChatPage.State) :
  ChatPageAsync.event s task ->
  forall t, orderly ChatPage.messages t task.
Proof.
  intros [v s0 | v s0 _ | today s0 _] t.
  - unfold ChatPageAsync.sessionChanged; simpl.
    split; [quiet|].
    destruct (signed_in v); [apply page_load_orderly | exact I].
  - unfold ChatPageAsync.inputChanged; ends_quietly.
  - apply page_send_orderly.
Qed.

Lemma routed_store_reply_orderly (conv body : jsstring)
      (today t : timestamp) :
  orderly ChatRouted.messages t (ChatRoutedAsync.store_reply conv body today).
Proof.
  unfold ChatRoutedAsync.store_reply; simpl.
  answer; [ends_quietly|].
  split; [appends|].
  answer; ends_quietly.
Qed.

(** The rest of a load once the conversation is known. *)
Ltac opens :=
  simpl; split; [quiet|];
  answer; [ends_quietly|];
  split; [replaces | exact I].

Lemma routed_load_orderly (session : option Session.t)
      (fromUrl : option jsstring) (t : timestamp) :
  orderly ChatRouted.messages t
          (ChatRoutedAsync.createOrLoadConversation session fromUrl).
Proof.
  unfold ChatRoutedAsync.createOrLoadConversation.
  destruct session as [sess|]; [|exact I].
  destruct (when_truthy fromUrl) as [url|]; simpl.
  - answer; [ends_quietly|].
    destruct (single _) as [e | conv]; simpl;
      [ends_quietly | opens].
  - answer; [ends_quietly|].
    destruct (Backend.conversations_of _ _) as [|c rest]; simpl;
      [ends_quietly | opens].
Qed.

Lemma routed_send_orderly (s : ChatRouted.State) (today t : timestamp) :
  orderly ChatRouted.messages t (ChatRoutedAsync.sendMessage s today).
Proof.
  unfold ChatRoutedAsync.sendMessage.
  destruct (negb (JS.truthy (JS.trim (ChatRouted.currentMessage s)))
            || falsy (ChatRouted.currentConversation s)
            || negb (signed_in (ChatRouted.session s))); [exact I|].
  destruct (ChatRouted.session s) as [sess|]; [|exact I].
  destruct (ChatRouted.currentConversation s) as [conv|]; [|exact I].
  simpl.
  split; [quiet|].
  answer; [ends_quietly|].
  split; [appends|].
  intros sv0 w0 Hp0; simpl.
  split; [exact Hp0|]; split; [lia|].
  destruct (Service.outcome sv0) as [e | response]; [ends_quietly|].
  destruct (Fetch.ok response); simpl; [|ends_quietly].
  intros sv1 w1 Hp1.
  split; [exact Hp1|]; split; [lia|].
  destruct (Fetch.text response) as [e | body]; [ends_quietly|].
  destruct (negb (JS.truthy body) || JS.eqb (JS.trim body) []);
    [ends_quietly | apply routed_store_reply_orderly].
Qed.

Lemma routed_event_orderly (s : ChatRouted.State)
      (task : Task ChatRouted.State) :
  ChatRoutedAsync.event s task ->
  forall t, orderly ChatRouted.messages t task.
Proof.
  intros [v fromUrl s0 | v s0 _ | today s0 _] t.
  - unfold ChatRoutedAsync.sessionChanged; simpl.
    split; [quiet|].
    destruct (signed_in v); [apply routed_load_orderly | exact I].
  - unfold ChatRoutedAsync.inputChanged; ends_quietly.
  - apply routed_send_orderly.
Qed.

(** *** The two runs *)

Ltac by_step rule :=
  eapply reach_step; [| rule].
Ltac side := vm_compute; lia.
Ltac by_answer := by_step ltac:(apply step_answered; side).
Ltac out_of_turn :=
  by_step ltac:(apply step_handled; [side | intros H; discriminate H]).
Ltac in_turn :=
  by_step ltac:(apply step_handled; [side | intros _; reflexivity]).
Ltac by_session :=
  by_step ltac:(apply step_event; apply ChatPageAsync.session_event).
Ltac by_input :=
  by_step ltac:(apply step_event; apply ChatPageAsync.input_event;
                reflexivity).
Ltac by_send :=
  by_step ltac:(apply step_event; apply ChatPageAsync.send_event;
                reflexivity).
Ltac by_clock := by_step ltac:(apply step_outside; apply time_passes).
Ltac by_insert := by_step ltac:(apply step_outside; apply message_inserted).

Lemma overtaken_run_reachable :
  reachable ChatPage.initial ChatPageAsync.event false Overtaken.delivered.
Proof.
  unfold Overtaken.delivered; out_of_turn.
  unfold Overtaken.reloaded; out_of_turn; by_answer.
  unfold Overtaken.found_again; out_of_turn; by_answer.
  unfold Overtaken.refreshed; by_session.
  unfold Overtaken.elsewhere_sent; by_insert.
  unfold Overtaken.later; by_clock.
  unfold Overtaken.stored; by_answer.
  unfold Overtaken.sent; by_send.
  unfold Overtaken.typed; by_input.
  unfold Overtaken.loaded; out_of_turn; by_answer.
  unfold Overtaken.found; out_of_turn; by_answer.
  unfold Overtaken.signed_in; by_session.
  apply reach_mounted; repeat constructor.
Qed.

Lemma in_turn_run_reachable :
  reachable ChatPage.initial ChatPageAsync.event true InTurn.finished.
Proof.
  unfold InTurn.finished; in_turn; by_answer.
  unfold InTurn.reply_stored; in_turn; by_answer.
  unfold InTurn.read; in_turn; by_answer.
  unfold InTurn.replied; in_turn; by_answer.
  unfold InTurn.reloaded; in_turn; by_answer.
  unfold InTurn.found_again; in_turn.
  unfold InTurn.appended; in_turn; by_answer.
  unfold InTurn.refreshed; by_session.
  unfold InTurn.elsewhere_sent; by_insert.
  unfold InTurn.later; by_clock.
  unfold InTurn.stored; by_answer.
  unfold InTurn.sent; by_send.
  unfold InTurn.typed; by_input.
  unfold InTurn.loaded; in_turn; by_answer.
  unfold InTurn.found; in_turn; by_answer.
  unfold InTurn.signed_in; by_session.
  apply reach_mounted; unfold punctual, not_after; simpl.
  repeat constructor; simpl; lia.
Qed.

(** What the two runs end with. *)
Lemma overtaken_run_transcript :
  map (fun m => (Message.id m, Message.created_at m))
      (ChatPage.messages (System.screen Overtaken.delivered))
  = [(JS.lit "msg-1", 215); (JS.lit "msg-2", 220); (JS.lit "msg-1", 215)].
Proof. vm_compute; reflexivity. Qed.

Lemma in_turn_run_transcript :
  map (fun m => (Message.id m, Message.role m, Message.created_at m))
      (ChatPage.messages (System.screen InTurn.finished))
  = [(JS.lit "m1", user, 110); (JS.lit "m2", assistant, 120);
     (JS.lit "msg-1", user, 215); (JS.lit "msg-2", user, 220);
     (JS.lit "msg-3", assistant, 235)].
Proof. vm_compute; reflexivity. Qed.

(** C7 as stated fails.  An answer that is handled after later ones puts an
    older row behind newer ones: the send appends the row it inserted to
    whatever transcript is then shown, and a load that started after the
    insert has meanwhile shown that row and a newer one. *)
Lemma overtaken_answer_breaks_the_order :
  ~ transcript_always_ascending false.
Proof.
  intros [H _].
  specialize (H Overtaken.delivered overtaken_run_reachable).
  unfold ascending in H.
  remember (ChatPage.messages (System.screen Overtaken.delivered)) as l
    eqn:E.
  vm_compute in E; subst l.
  inversion H as [| a l Hs Hf]; subst.
  inversion Hs as [| b l' Hs' Hf']; subst.
  inversion Hf' as [| c l'' Hc Hrest]; subst.
  simpl in Hc; lia.
Qed.

(** C7, amended.  On both Chat screens the transcript is in non-decreasing
    order of creation time in every state reachable from the mounted
    screen, over a storage that holds its rows in any order, by session
    changes, input, loads and sends whose handlers interleave at their
    awaits with each other and with what other clients do, the states in
    the middle of a handler included, provided the screen handles the
    answers to its calls in the order in which the outside gave them.  The
    select of a load asks for the messages in ascending order of
    [created_at]: what it is answered are the rows of the conversation,
    ascending, whatever the order of the table. *)
Theorem transcript_ascending_when_answers_in_order :
  transcript_always_ascending true
  /\ (forall (cid : jsstring) (sv : Service.t) (w : World.t),
         succeeds (Service.reply sv) ->
         exists rows,
           fst (serve (Stored (fun r => selectMessages r cid)) sv w)
           = inr rows
           /\ ascending rows
           /\ forall m,
               In m rows <->
               In m (Backend.messages (World.backend w))
               /\ Message.conversation_id m = cid).
Proof.
  split; [split|].
  - intros x Hx.
    pose proof (@reachable_in_step ChatPage.State ChatPage.messages
                  ChatPage.initial ChatPageAsync.event eq_refl
                  page_event_orderly x Hx) as (_ & _ & t & Ha & _).
    exact Ha.
  - intros x Hx.
    pose proof (@reachable_in_step ChatRouted.State ChatRouted.messages
                  ChatRouted.initial ChatRoutedAsync.event eq_refl
                  routed_event_orderly x Hx) as (_ & _ & t & Ha & _).
    exact Ha.
  - intros cid sv w Hr; unfold succeeds in Hr.
    unfold serve; run_handler; rewrite Hr; simpl.
    eexists; split; [reflexivity|].
    split; [apply messages_of_ascending|].
    intros m; rewrite messages_of_In; simpl; reflexivity.
Qed.

Lemma transcript_ascending_when_answers_in_order_witness :
  reachable ChatPage.initial ChatPageAsync.event true InTurn.finished
  /\ ascending (ChatPage.messages (System.screen InTurn.finished)).
Proof.
  split; [exact in_turn_run_reachable|].
  exact (proj1 (proj1 transcript_ascending_when_answers_in_order)
               InTurn.finished in_turn_run_reachable).
Defined.

(* ===================================================================== *)
(** ** The history list *)

Lemma ConversationRow_eq_dec (x y : ConversationRow.t) : {x = y} + {x <> y}.
Proof.
  decide equality;
    try apply Z.eq_dec; apply (list_eq_dec N.eq_dec).
Qed.

(** A conversation of the user that is strictly more recent than the
    user's others is the first row of the ordered select. *)
Lemma strictly_latest_is_head (uid : jsstring) (b : Backend.t)
      (c : ConversationRow.t) :
  In c (Backend.conversations b) -> ConversationRow.user_id c = uid ->
  (forall c', In c' (Backend.conversations b) ->
              ConversationRow.user_id c' = uid -> c' <> c ->
              ConversationRow.updated_at c' < ConversationRow.updated_at c) ->
  hd_error (Backend.conversations_of uid b) = Some c.
Proof.
  intros Hin Hu Hlatest.
  destruct (Backend.conversations_of uid b) as [|h l] eqn:E.
  - assert (Hc : In c (Backend.conversations_of uid b))
      by (apply conversations_of_In; split; assumption).
    rewrite E in Hc; destruct Hc.
  - destruct (conversations_of_head _ _ E) as [[Hh Hhu] Hmax]; simpl.
    destruct (ConversationRow_eq_dec h c) as [-> | Hne]; [reflexivity|].
    pose proof (Hmax c Hin Hu).
    pose proof (Hlatest h Hh Hhu Hne).
    lia.
Qed.

Lemma hd_error_map {A B : Type} (f : A -> B) (l : list A) :
  hd_error (map f l) = option_map f (hd_error l).
Proof. destruct l; reflexivity. Qed.

(** What decides whether a conversation just created is listed first: that
    the server stamps it later than the user's other conversations were
    last updated. *)
Lemma created_conversation_first_when_latest :
  created_conversation_listed_first
    (fun w sess creation =>
       forall c, In c (Backend.conversations (World.backend w)) ->
                 ConversationRow.user_id c = User.id (Session.user sess) ->
                 ConversationRow.updated_at c < at_server w creation).
Proof.
  intros dateLabel creation reply h sess w Hs Hc Hr Hbefore.
  unfold succeeds in *.
  unfold after, ChatHistory.createNewConversation,
    ChatHistory.loadConversations, ChatHistory.setConversations,
    ChatHistory.setLoading.
  run_handler; rewrite Hs; simpl; settle.
  rewrite Hs; simpl; settle.
  rewrite conversations_of_advance.
  rewrite hd_error_map.
  rewrite strictly_latest_is_head
    with (c := ConversationRow.mk (Reply.fresh_id creation)
                 (User.id (Session.user sess))
                 (JS.lit "Nova Conversa " ++ dateLabel)
                 (at_server w creation) (at_server w creation));
    [reflexivity | | |]; simpl.
  - apply in_or_app; right; left; reflexivity.
  - reflexivity.
  - intros c' Hin Hu Hne.
    apply in_app_or in Hin; destruct Hin as [Hin | [<- | []]].
    + apply Hbefore; assumption.
    + exfalso; apply Hne; reflexivity.
Qed.

(** C8, amended.  A successful [loadConversations] shows the selected
    columns of exactly the conversations whose [user_id] is the session
    user's, all of them, most recently updated first; so a conversation of
    the user whose [updated_at] is later than that of the user's others is
    the first of the list.  A conversation just created from the history
    screen is listed first by the next load when the server stamps it later
    than the user's other conversations were last updated; a send stamps
    [updated_at] with the clock of the client, so this is not always so. *)
Theorem history_lists_own_conversations_latest_first
        (reply : Reply.t) (s : ChatHistory.State) (sess : Session.t)
        (w : World.t) :
  ChatHistory.session s = Some sess ->
  succeeds reply ->
  let uid := User.id (Session.user sess) in
  let b := World.backend w in
  (let '(s', w') := after (ChatHistory.loadConversations reply) s w in
   exists rows,
     ChatHistory.conversations s' = map ChatHistory.selected rows
     /\ Permutation rows
          (filter (fun c => JS.eqb (ConversationRow.user_id c) uid)
                  (Backend.conversations b))
     /\ (forall c, In c rows <->
                   In c (Backend.conversations b)
                   /\ ConversationRow.user_id c = uid)
     /\ latest_first rows
     /\ (forall c,
            In c (Backend.conversations b) ->
            ConversationRow.user_id c = uid ->
            (forall c', In c' (Backend.conversations b) ->
                        ConversationRow.user_id c' = uid -> c' <> c ->
                        ConversationRow.updated_at c'
                        < ConversationRow.updated_at c) ->
            hd_error (ChatHistory.conversations s')
            = Some (ChatHistory.selected c))
     /\ World.trace w'
        = World.trace w ++ [Storage (SelectConversations uid) true])
  /\ (forall (dateLabel : jsstring) (creation : Reply.t),
         succeeds creation ->
         (forall c, In c (Backend.conversations b) ->
                    ConversationRow.user_id c = uid ->
                    ConversationRow.updated_at c < at_server w creation) ->
         let '(s1, w1) :=
           after (ChatHistory.createNewConversation dateLabel creation) s w in
         let '(s2, w2) := after (ChatHistory.loadConversations reply) s1 w1 in
         hd_error (ChatHistory.conversations s2)
         = Some (ChatHistory.mkConversation
                   (Reply.fresh_id creation)
                   (JS.lit "Nova Conversa " ++ dateLabel)
                   (at_server w creation) (at_server w creation)))
  /\ created_conversation_listed_first
       (fun w sess creation =>
          forall c, In c (Backend.conversations (World.backend w)) ->
                    ConversationRow.user_id c = User.id (Session.user sess) ->
                    ConversationRow.updated_at c < at_server w creation).
Proof.
  intros Hs Hr uid b.
  split; [|split].
  - unfold succeeds in *.
    unfold after, ChatHistory.loadConversations, ChatHistory.setConversations,
      ChatHistory.setLoading.
    run_handler; rewrite Hs; simpl; settle.
    rewrite conversations_of_advance; fold b uid.
    exists (Backend.conversations_of uid b).
    split; [reflexivity|].
    split; [apply conversations_of_perm|].
    split; [intros c; apply conversations_of_In|].
    split; [apply conversations_of_latest_first|].
    split; [|tidy; reflexivity].
    intros c Hin Hu Hlatest.
    rewrite hd_error_map, (strictly_latest_is_head _ Hin Hu Hlatest).
    reflexivity.
  - intros dateLabel creation Hc Hbefore.
    exact (@created_conversation_first_when_latest
             dateLabel creation reply s sess w Hs Hc Hr Hbefore).
  - exact created_conversation_first_when_latest.
Qed.

Lemma history_lists_own_conversations_latest_first_witness :
  hd_error
    (ChatHistory.conversations
       (fst (after (ChatHistory.loadConversations (Scenario.accepted "" 1))
                   Scenario.history Scenario.shelf)))
  = Some (ChatHistory.mkConversation (JS.lit "conv-3")
                                     (JS.lit "Nova Conversa") 150 200)
  /\ (let '(s1, w1) :=
        after (ChatHistory.createNewConversation
                 (JS.lit "01/11/2026") (Scenario.accepted "conv-4" 5))
              Scenario.history Scenario.shelf in
      let '(s2, w2) :=
        after (ChatHistory.loadConversations (Scenario.accepted "" 1)) s1 w1 in
      hd_error (ChatHistory.conversations s2)
      = Some (ChatHistory.mkConversation
                (JS.lit "conv-4") (JS.lit "Nova Conversa 01/11/2026")
                405 405)).
Proof.
  destruct (@history_lists_own_conversations_latest_first
              (Scenario.accepted "" 1) Scenario.history Scenario.alice
              Scenario.shelf eq_refl eq_refl) as [Listed [Created _]].
  split.
  - destruct (after (ChatHistory.loadConversations (Scenario.accepted "" 1))
                    Scenario.history Scenario.shelf) as [s' w'].
    destruct Listed as (rows & _ & _ & _ & _ & Hhead & _).
    apply (Hhead (ConversationRow.mk (JS.lit "conv-3") (JS.lit "user-1")
                                     (JS.lit "Nova Conversa") 150 200)).
    + right; right; left; reflexivity.
    + reflexivity.
    + intros c' [<- | [<- | [<- | []]]] Hu Hne;
        solve [ reflexivity | vm_compute in Hu; discriminate Hu
              | exfalso; apply Hne; reflexivity ].
  - apply (Created (JS.lit "01/11/2026") (Scenario.accepted "conv-4" 5) eq_refl).
    intros c [<- | [<- | [<- | []]]] Hu; reflexivity.
Defined.

(** C8 as stated fails.  A send stamps [updated_at] with the clock of the
    client; the server stamps a new conversation with its own.  After a
    send from a client whose clock is ahead, a conversation created from
    the history screen is listed second by the next load. *)
Lemma created_conversation_can_be_listed_second :
  ~ created_conversation_listed_first (fun _ _ _ => True).
Proof.
  intros H.
  specialize (H (JS.lit "01/11/2026") (Scenario.accepted "conv-4" 5)
                (Scenario.accepted "" 1) Scenario.history Scenario.alice
                (snd (after (ChatPage.sendMessage Cases.clock_ahead)
                            Scenario.page Scenario.shelf))
                eq_refl eq_refl eq_refl I).
  vm_compute in H; discriminate H.
Qed.

(* ===================================================================== *)
(** ** Which failures reach the user *)

(** A send that raises no toast got through both inserts and the webhook:
    every failure before the final update is turned into a toast. *)
Lemma page_send_quiet_means_exchanged (env : SendEnv.t) (s : ChatPage.State)
      (sess : Session.t) (conv : jsstring) (w : World.t) :
  page_accepts s sess conv ->
  let '(_, w') := after (ChatPage.sendMessage env) s w in
  exists events,
    World.trace w' = World.trace w ++ events
    /\ (existsb is_toast events = false ->
        succeeds (SendEnv.user_insert env)
        /\ succeeds (SendEnv.ai_insert env)
        /\ exists response body,
            SendEnv.webhook env = inr response
            /\ Fetch.ok response = true
            /\ Fetch.text response = inr body).
Proof.
  destruct s as [se msgs input loading cc]; unfold page_accepts; simpl.
  intros (-> & -> & Hconv & Hin).
  pose proof (JS_truthy_nonempty Hin) as Tin.
  pose proof (JS_truthy_nonempty Hconv) as Tconv.
  unfold after, ChatPage.sendMessage, ChatPage.setMessages,
    ChatPage.setCurrentMessage, ChatPage.setIsLoading, succeeds.
  run_handler; settle.
  destruct (Reply.failure (SendEnv.user_insert env)) eqn:Eu; simpl.
  { eexists; split; [tidy; reflexivity | discriminate]. }
  destruct (SendEnv.webhook env) as [e | response] eqn:Ew; simpl.
  { eexists; split; [tidy; reflexivity | discriminate]. }
  destruct (Fetch.ok response) eqn:Eok; simpl.
  2:{ eexists; split; [tidy; reflexivity | discriminate]. }
  destruct (Fetch.text response) as [e | body] eqn:Et; simpl.
  { eexists; split; [tidy; reflexivity | discriminate]. }
  destruct (Reply.failure (SendEnv.ai_insert env)) eqn:Ea; simpl.
  { eexists; split; [tidy; reflexivity | discriminate]. }
  destruct (Reply.failure (SendEnv.refresh env)); simpl;
    (eexists; split; [tidy; reflexivity |]; intros _;
     repeat split; exists response, body; repeat split; assumption).
Qed.

Lemma routed_send_quiet_means_exchanged (env : SendEnv.t)
      (s : ChatRouted.State) (sess : Session.t) (conv : jsstring)
      (w : World.t) :
  routed_accepts s sess conv ->
  let '(_, w') := after (ChatRouted.sendMessage env) s w in
  exists events,
    World.trace w' = World.trace w ++ events
    /\ (existsb is_toast events = false ->
        succeeds (SendEnv.user_insert env)
        /\ succeeds (SendEnv.ai_insert env)
        /\ exists response body,
            SendEnv.webhook env = inr response
            /\ Fetch.ok response = true
            /\ Fetch.text response = inr body
            /\ JS.trim body <> []).
Proof.
  destruct s as [se msgs input loading cc title]; unfold routed_accepts; simpl.
  intros (-> & -> & Hconv & Hin).
  pose proof (JS_truthy_nonempty Hin) as Tin.
  pose proof (JS_truthy_nonempty Hconv) as Tconv.
  unfold after, ChatRouted.sendMessage, ChatRouted.setMessages,
    ChatRouted.setCurrentMessage, ChatRouted.setIsLoading, succeeds.
  run_handler; settle.
  destruct (Reply.failure (SendEnv.user_insert env)) eqn:Eu; simpl.
  { eexists; split; [tidy; reflexivity | discriminate]. }
  destruct (SendEnv.webhook env) as [e | response] eqn:Ew; simpl.
  { eexists; split; [tidy; reflexivity | discriminate]. }
  destruct (Fetch.ok response) eqn:Eok; simpl.
  2:{ eexists; split; [tidy; reflexivity | discriminate]. }
  destruct (Fetch.text response) as [e | body] eqn:Et; simpl.
  { eexists; split; [tidy; reflexivity | discriminate]. }
  destruct (negb (JS.truthy body) || JS.eqb (JS.trim body) []) eqn:Eb; simpl.
  { eexists; split; [tidy; reflexivity | discriminate]. }
  apply orb_false_iff in Eb; destruct Eb as [_ Eb].
  assert (Hb : JS.trim body <> [])
    by (intros E; rewrite E in Eb; discriminate Eb).
  destruct (Reply.failure (SendEnv.ai_insert env)) eqn:Ea; simpl.
  { eexists; split; [tidy; reflexivity | discriminate]. }
  destruct (Reply.failure (SendEnv.refresh env)); simpl;
    (eexists; split; [tidy; reflexivity |]; intros _;
     repeat split; exists response, body; repeat split; assumption).
Qed.

(** A failed load of the history list is shown in a toast. *)
Lemma history_load_failure_toasted (reply : Reply.t) (e : Error.t)
      (s : ChatHistory.State) (sess : Session.t) (w : World.t) :
  ChatHistory.session s = Some sess ->
  Reply.failure reply = Some e ->
  after (ChatHistory.loadConversations reply) s w
  = (ChatHistory.mkState (Some sess) (ChatHistory.conversations s) false,
     World.mk (Backend.advance (Reply.elapsed reply) (World.backend w))
              (World.trace w
               ++ [Storage (SelectConversations (User.id (Session.user sess)))
                           false;
                   Toasted (destructive Text.cannot_load_history)])).
Proof.
  intros Hs Hr.
  unfold after, ChatHistory.loadConversations, ChatHistory.setConversations,
    ChatHistory.setLoading.
  run_handler; rewrite Hs; simpl; settle.
  destruct s; simpl in *; subst; tidy; reflexivity.
Qed.

(** So is a failed creation of a conversation. *)
Lemma history_create_failure_toasted (dateLabel : jsstring) (reply : Reply.t)
      (e : Error.t) (s : ChatHistory.State) (sess : Session.t) (w : World.t) :
  ChatHistory.session s = Some sess ->
  Reply.failure reply = Some e ->
  after (ChatHistory.createNewConversation dateLabel reply) s w
  = (s,
     World.mk (Backend.advance (Reply.elapsed reply) (World.backend w))
              (World.trace w
               ++ [Storage (InsertConversation (User.id (Session.user sess))
                              (JS.lit "Nova Conversa " ++ dateLabel))
                           false;
                   Toasted (destructive Text.cannot_create_conversation)])).
Proof.
  intros Hs Hr.
  unfold after, ChatHistory.createNewConversation.
  run_handler; rewrite Hs; simpl; settle.
  tidy; reflexivity.
Qed.

(* ===================================================================== *)
(** * Further properties of the handlers *)

(** ** Guards *)

(** X1. Without a session no handler of the Chat screens or of the history
    screen does anything: it completes at once, and the screen, the storage
    and the trace are what they were.  So no storage call, webhook call,
    toast or navigation is made on behalf of a signed-out user. *)
Theorem signed_out_handlers_do_nothing
        (p : ChatPage.State) (r : ChatRouted.State) (h : ChatHistory.State)
        (w : World.t) :
  ChatPage.session p = None ->
  ChatRouted.session r = None ->
  ChatHistory.session h = None ->
  (forall env, ChatPage.createOrLoadConversation env p w = (inr tt, p, w))
  /\ (forall env, ChatPage.sendMessage env p w = (inr tt, p, w))
  /\ (forall fromUrl env,
         ChatRouted.createOrLoadConversation fromUrl env r w = (inr tt, r, w))
  /\ (forall env, ChatRouted.sendMessage env r w = (inr tt, r, w))
  /\ (forall reply, ChatHistory.loadConversations reply h w = (inr tt, h, w))
  /\ (forall dateLabel reply,
         ChatHistory.createNewConversation dateLabel reply h w
         = (inr tt, h, w)).
Proof.
  intros Hp Hr Hh.
  repeat split; intros.
  - unfold ChatPage.createOrLoadConversation; run_handler.
    rewrite Hp; reflexivity.
  - unfold ChatPage.sendMessage; run_handler.
    rewrite Hp; simpl; rewrite !orb_true_r; reflexivity.
  - unfold ChatRouted.createOrLoadConversation; run_handler.
    rewrite Hr; reflexivity.
  - unfold ChatRouted.sendMessage; run_handler.
    rewrite Hr; simpl; rewrite !orb_true_r; reflexivity.
  - unfold ChatHistory.loadConversations; run_handler.
    rewrite Hh; reflexivity.
  - unfold ChatHistory.createNewConversation; run_handler.
    rewrite Hh; reflexivity.
Qed.

Lemma signed_out_handlers_do_nothing_witness :
  ChatPage.sendMessage (Scenario.answering 200 "Buy and hold.")
                       Cases.page_signed_out Scenario.world
  = (inr tt, Cases.page_signed_out, Scenario.world)
  /\ ChatHistory.loadConversations (Scenario.accepted "" 1)
                                   Cases.history_signed_out Scenario.shelf
     = (inr tt, Cases.history_signed_out, Scenario.shelf).
Proof.
  split.
  - exact (proj1 (proj2 (@signed_out_handlers_do_nothing
                           Cases.page_signed_out Cases.routed_signed_out
                           Cases.history_signed_out Scenario.world
                           eq_refl eq_refl eq_refl))
                 (Scenario.answering 200 "Buy and hold.")).
  - exact (proj1 (proj2 (proj2 (proj2 (proj2
             (@signed_out_handlers_do_nothing
                Cases.page_signed_out Cases.routed_signed_out
                Cases.history_signed_out Scenario.shelf
                eq_refl eq_refl eq_refl)))))
                 (Scenario.accepted "" 1)).
Defined.

(** X2. [sendMessage] returns at its guard, leaving the input as typed,
    when the input is blank after [trim()] or when no conversation is
    active ([null] or the empty string); so does a key press that is not
    Enter without Shift.  Nothing is stored, fetched or shown. *)
Theorem blank_input_or_no_conversation_sends_nothing
        (env : SendEnv.t) (p : ChatPage.State) (r : ChatRouted.State)
        (e : KeyboardEvent.t) (w : World.t) :
  (JS.trim (ChatPage.currentMessage p) = []
   \/ falsy (ChatPage.currentConversation p) = true ->
   ChatPage.sendMessage env p w = (inr tt, p, w)
   /\ ChatPageUI.handleKeyPress e env p w = (inr tt, p, w))
  /\ (JS.trim (ChatRouted.currentMessage r) = []
      \/ falsy (ChatRouted.currentConversation r) = true ->
      ChatRouted.sendMessage env r w = (inr tt, r, w)
      /\ ChatRoutedUI.handleKeyPress e env r w = (inr tt, r, w))
  /\ (plain_enter e = false ->
      ChatPageUI.handleKeyPress e env p w = (inr tt, p, w)
      /\ ChatRoutedUI.handleKeyPress e env r w = (inr tt, r, w)).
Proof.
  split; [|split].
  - intros H.
    assert (E : ChatPage.sendMessage env p w = (inr tt, p, w)).
    { unfold ChatPage.sendMessage; run_handler.
      destruct H as [H | H]; rewrite H; simpl;
        rewrite ?orb_true_r; reflexivity. }
    split; [exact E|].
    unfold ChatPageUI.handleKeyPress; destruct (plain_enter e);
      [exact E | reflexivity].
  - intros H.
    assert (E : ChatRouted.sendMessage env r w = (inr tt, r, w)).
    { unfold ChatRouted.sendMessage; run_handler.
      destruct H as [H | H]; rewrite H; simpl;
        rewrite ?orb_true_r; reflexivity. }
    split; [exact E|].
    unfold ChatRoutedUI.handleKeyPress; destruct (plain_enter e);
      [exact E | reflexivity].
  - intros H.
    unfold ChatPageUI.handleKeyPress, ChatRoutedUI.handleKeyPress.
    rewrite H; split; reflexivity.
Qed.

Lemma blank_input_or_no_conversation_sends_nothing_witness :
  ChatPage.sendMessage (Scenario.answering 200 "Buy and hold.")
                       Cases.page_blank Scenario.world
  = (inr tt, Cases.page_blank, Scenario.world)
  /\ ChatRouted.sendMessage (Scenario.answering 200 "Buy and hold.")
                            Cases.routed_blank Scenario.world
     = (inr tt, Cases.routed_blank, Scenario.world)
  /\ ChatPageUI.handleKeyPress
       (KeyboardEvent.mk (JS.lit "Enter") true)
       (Scenario.answering 200 "Buy and hold.") Scenario.page Scenario.world
     = (inr tt, Scenario.page, Scenario.world).
Proof.
  destruct (@blank_input_or_no_conversation_sends_nothing
              (Scenario.answering 200 "Buy and hold.")
              Cases.page_blank Cases.routed_blank
              (KeyboardEvent.mk (JS.lit "Enter") true) Scenario.world)
    as (P & R & _).
  destruct (@blank_input_or_no_conversation_sends_nothing
              (Scenario.answering 200 "Buy and hold.")
              Scenario.page Scenario.routed
              (KeyboardEvent.mk (JS.lit "Enter") true) Scenario.world)
    as (_ & _ & K).
  split; [|split].
  - apply P; left; reflexivity.
  - apply R; left; reflexivity.
  - apply K; reflexivity.
Defined.

(** ** How a send ends *)

(** X3. A send that passes the guard never throws, and whatever the storage
    and the webhook answer it ends with the input cleared (the text is not
    put back when a step fails), the busy flag off, and the session, the
    active conversation and the title as they were. *)
Theorem accepted_send_clears_input_and_settles
        (env : SendEnv.t) (p : ChatPage.State) (r : ChatRouted.State)
        (sess : Session.t) (conv : jsstring) (w : World.t) :
  (page_accepts p sess conv ->
   let '(o, p', _) := ChatPage.sendMessage env p w in
   o = inr tt
   /\ ChatPage.currentMessage p' = []
   /\ ChatPage.isLoading p' = false
   /\ ChatPage.session p' = ChatPage.session p
   /\ ChatPage.currentConversation p' = ChatPage.currentConversation p)
  /\ (routed_accepts r sess conv ->
      let '(o, r', _) := ChatRouted.sendMessage env r w in
      o = inr tt
      /\ ChatRouted.currentMessage r' = []
      /\ ChatRouted.isLoading r' = false
      /\ ChatRouted.session r' = ChatRouted.session r
      /\ ChatRouted.currentConversation r' = ChatRouted.currentConversation r
      /\ ChatRouted.conversationTitle r' = ChatRouted.conversationTitle r).
Proof.
  split.
  - destruct p as [se msgs input loading cc]; unfold page_accepts; simpl.
    intros (-> & -> & Hconv & Hin).
    pose proof (JS_truthy_nonempty Hin) as Tin.
    pose proof (JS_truthy_nonempty Hconv) as Tconv.
    unfold ChatPage.sendMessage, ChatPage.setMessages,
      ChatPage.setCurrentMessage, ChatPage.setIsLoading.
    run_handler; settle; each_reply; repeat split.
  - destruct r as [se msgs input loading cc title]; unfold routed_accepts;
      simpl.
    intros (-> & -> & Hconv & Hin).
    pose proof (JS_truthy_nonempty Hin) as Tin.
    pose proof (JS_truthy_nonempty Hconv) as Tconv.
    unfold ChatRouted.sendMessage, ChatRouted.setMessages,
      ChatRouted.setCurrentMessage, ChatRouted.setIsLoading.
    run_handler; settle; each_reply; repeat split.
Qed.

Lemma accepted_send_clears_input_and_settles_witness :
  let '(o, p', _) :=
    ChatPage.sendMessage Cases.webhook_unreachable Scenario.page
                         Scenario.world in
  o = inr tt
  /\ ChatPage.currentMessage p' = []
  /\ ChatPage.isLoading p' = false
  /\ ChatPage.session p' = ChatPage.session Scenario.page
  /\ ChatPage.currentConversation p'
     = ChatPage.currentConversation Scenario.page.
Proof.
  apply (proj1 (@accepted_send_clears_input_and_settles
                  Cases.webhook_unreachable Scenario.page Scenario.routed
                  Scenario.alice Scenario.conv1 Scenario.world)).
  repeat split; solve [reflexivity | vm_compute; discriminate].
Defined.

(** X4. When the storage refuses the insert of the user message, the send
    stops there: nothing is stored, the webhook is not called, the
    transcript is unchanged, and one toast shows the message of the storage
    error, or "Nao foi possivel enviar a mensagem" when that is empty. *)
Theorem refused_user_insert_stops_the_send
        (env : SendEnv.t) (e : Error.t) (sess : Session.t)
        (conv input title : jsstring) (msgs : list Message.t)
        (loading : bool) (w : World.t) :
  JS.trim input <> [] -> conv <> [] ->
  Reply.failure (SendEnv.user_insert env) = Some e ->
  let final :=
    World.mk
      (Backend.advance (Reply.elapsed (SendEnv.user_insert env))
                       (World.backend w))
      (World.trace w
       ++ [Storage (InsertMessage conv (JS.trim input) user) false;
           Toasted (send_failed e)]) in
  ChatPage.sendMessage env
    (ChatPage.mkState (Some sess) msgs input loading (Some conv)) w
  = (inr tt, ChatPage.mkState (Some sess) msgs [] false (Some conv), final)
  /\ ChatRouted.sendMessage env
       (ChatRouted.mkState (Some sess) msgs input loading (Some conv) title) w
     = (inr tt,
        ChatRouted.mkState (Some sess) msgs [] false (Some conv) title, final)
  /\ (Error.message e = [] ->
      send_failed e = destructive Text.cannot_send_message)
  /\ (Error.message e <> [] ->
      send_failed e = destructive (Error.message e)).
Proof.
  intros Hin Hconv Hu.
  pose proof (JS_truthy_nonempty Hin) as Tin.
  pose proof (JS_truthy_nonempty Hconv) as Tconv.
  repeat split.
  - unfold ChatPage.sendMessage, ChatPage.setMessages,
      ChatPage.setCurrentMessage, ChatPage.setIsLoading.
    run_handler; settle; tidy; reflexivity.
  - unfold ChatRouted.sendMessage, ChatRouted.setMessages,
      ChatRouted.setCurrentMessage, ChatRouted.setIsLoading.
    run_handler; settle; tidy; reflexivity.
  - intros E; unfold send_failed, JS.or_else; rewrite E; reflexivity.
  - intros E; unfold send_failed, JS.or_else.
    rewrite (JS_truthy_nonempty E); reflexivity.
Qed.

Lemma refused_user_insert_stops_the_send_witness :
  ChatPage.sendMessage (Cases.user_insert_refused Cases.mute)
                       Scenario.page Scenario.world
  = (inr tt,
     ChatPage.mkState (Some Scenario.alice) [] [] false (Some Scenario.conv1),
     World.mk
       (Backend.advance 5 (World.backend Scenario.world))
       [Storage (InsertMessage Scenario.conv1 (JS.lit "What is a good ETF?")
                               user) false;
        Toasted (destructive Text.cannot_send_message)]).
Proof.
  refine (proj1 (@refused_user_insert_stops_the_send
            (Cases.user_insert_refused Cases.mute) Cases.mute
            Scenario.alice Scenario.conv1 (JS.lit "  What is a good ETF? ")
            [] [] false Scenario.world _ _ _));
    solve [reflexivity | vm_compute; discriminate].
Defined.

(** X5. When [fetch] rejects, or the response is 2xx and reading its text
    rejects, with error [e], the user message stays stored and shown, no
    assistant insert and no update is issued, and one toast shows the
    message of [e] (or the fallback when it is empty). *)
Theorem rejected_webhook_keeps_user_message
        (env : SendEnv.t) (e : Error.t) (sess : Session.t)
        (conv input title : jsstring) (msgs : list Message.t)
        (loading : bool) (w : World.t) :
  JS.trim input <> [] -> conv <> [] ->
  succeeds (SendEnv.user_insert env) ->
  (SendEnv.webhook env = inl e
   \/ exists response,
       SendEnv.webhook env = inr response
       /\ Fetch.ok response = true /\ Fetch.text response = inl e) ->
  let b := World.backend w in
  let t1 := at_server w (SendEnv.user_insert env) in
  let u := Message.mk (Reply.fresh_id (SendEnv.user_insert env))
                      (JS.trim input) user t1 conv in
  let final (mode : option jsstring) :=
    World.mk
      (Backend.mk (Backend.conversations b) (Backend.messages b ++ [u]) t1)
      (World.trace w
       ++ [Storage (InsertMessage conv (JS.trim input) user) true;
           Fetched (webhook_request mode (JS.trim input) sess conv);
           Toasted (send_failed e)]) in
  ChatPage.sendMessage env
    (ChatPage.mkState (Some sess) msgs input loading (Some conv)) w
  = (inr tt,
     ChatPage.mkState (Some sess) (msgs ++ [u]) [] false (Some conv),
     final None)
  /\ ChatRouted.sendMessage env
       (ChatRouted.mkState (Some sess) msgs input loading (Some conv) title) w
     = (inr tt,
        ChatRouted.mkState (Some sess) (msgs ++ [u]) [] false (Some conv)
                           title,
        final (Some (JS.lit "cors"))).
Proof.
  intros Hin Hconv Hu Hw; unfold succeeds in *.
  pose proof (JS_truthy_nonempty Hin) as Tin.
  pose proof (JS_truthy_nonempty Hconv) as Tconv.
  split.
  - unfold ChatPage.sendMessage, ChatPage.setMessages,
      ChatPage.setCurrentMessage, ChatPage.setIsLoading.
    run_handler; settle.
    destruct Hw as [Hw | (response & Hw & Hok & Ht)];
      settle; tidy; reflexivity.
  - unfold ChatRouted.sendMessage, ChatRouted.setMessages,
      ChatRouted.setCurrentMessage, ChatRouted.setIsLoading.
    run_handler; settle.
    destruct Hw as [Hw | (response & Hw & Hok & Ht)];
      settle; tidy; reflexivity.
Qed.

Lemma rejected_webhook_keeps_user_message_witness :
  ChatRouted.sendMessage Cases.webhook_unreachable Scenario.routed
                         Scenario.world
  = (inr tt,
     ChatRouted.mkState (Some Scenario.alice)
       [Message.mk (JS.lit "msg-1") (JS.lit "What is a good ETF?") user 205
                   Scenario.conv1]
       [] false (Some Scenario.conv1) (JS.lit "Nova Conversa"),
     World.mk
       (Backend.mk
          (Backend.conversations (World.backend Scenario.world))
          [Message.mk (JS.lit "msg-1") (JS.lit "What is a good ETF?") user 205
                      Scenario.conv1]
          205)
       [Storage (InsertMessage Scenario.conv1 (JS.lit "What is a good ETF?")
                               user) true;
        Fetched (webhook_request (Some (JS.lit "cors"))
                                 (JS.lit "What is a good ETF?")
                                 Scenario.alice Scenario.conv1);
        Toasted (destructive (JS.lit "Failed to fetch"))]).
Proof.
  refine (proj2 (@rejected_webhook_keeps_user_message
            Cases.webhook_unreachable Cases.offline
            Scenario.alice Scenario.conv1 (JS.lit "  What is a good ETF? ")
            (JS.lit "Nova Conversa") [] false Scenario.world _ _ _ _));
    solve [reflexivity | vm_compute; discriminate | left; reflexivity].
Defined.

(** X6. When the webhook has answered and the storage refuses the insert of
    the reply, the reply is lost: it is neither stored nor shown, the user
    message stays, [updated_at] is not refreshed, and one toast shows the
    storage error.  (For the screen of [unnamed/part_000] the body is one
    that passes its blank check.) *)
Theorem refused_reply_insert_loses_the_reply
        (env : SendEnv.t) (e : Error.t) (sess : Session.t)
        (conv input title : jsstring) (msgs : list Message.t)
        (loading : bool) (w : World.t)
        (response : Fetch.Response) (body : jsstring) :
  JS.trim input <> [] -> conv <> [] ->
  succeeds (SendEnv.user_insert env) ->
  SendEnv.webhook env = inr response ->
  Fetch.ok response = true ->
  Fetch.text response = inr body ->
  Reply.failure (SendEnv.ai_insert env) = Some e ->
  let b := World.backend w in
  let t1 := at_server w (SendEnv.user_insert env) in
  let t2 := t1 + Z.of_N (Reply.elapsed (SendEnv.ai_insert env)) in
  let u := Message.mk (Reply.fresh_id (SendEnv.user_insert env))
                      (JS.trim input) user t1 conv in
  let final (mode : option jsstring) :=
    World.mk
      (Backend.mk (Backend.conversations b) (Backend.messages b ++ [u]) t2)
      (World.trace w
       ++ [Storage (InsertMessage conv (JS.trim input) user) true;
           Fetched (webhook_request mode (JS.trim input) sess conv);
           Storage (InsertMessage conv body assistant) false;
           Toasted (send_failed e)]) in
  ChatPage.sendMessage env
    (ChatPage.mkState (Some sess) msgs input loading (Some conv)) w
  = (inr tt,
     ChatPage.mkState (Some sess) (msgs ++ [u]) [] false (Some conv),
     final None)
  /\ (JS.trim body <> [] ->
      ChatRouted.sendMessage env
        (ChatRouted.mkState (Some sess) msgs input loading (Some conv) title) w
      = (inr tt,
         ChatRouted.mkState (Some sess) (msgs ++ [u]) [] false (Some conv)
                            title,
         final (Some (JS.lit "cors")))).
Proof.
  intros Hin Hconv Hu Hw Hok Hbody Ha; unfold succeeds in *.
  pose proof (JS_truthy_nonempty Hin) as Tin.
  pose proof (JS_truthy_nonempty Hconv) as Tconv.
  split.
  - unfold ChatPage.sendMessage, ChatPage.setMessages,
      ChatPage.setCurrentMessage, ChatPage.setIsLoading.
    run_handler; settle; tidy; reflexivity.
  - intros Hblank.
    pose proof (JS_truthy_nonempty (JS_trim_nonempty Hblank)) as Tbody.
    pose proof (JS_eqb_nil Hblank) as Ebody.
    unfold ChatRouted.sendMessage, ChatRouted.setMessages,
      ChatRouted.setCurrentMessage, ChatRouted.setIsLoading.
    run_handler; settle; tidy; reflexivity.
Qed.

Lemma refused_reply_insert_loses_the_reply_witness :
  ChatPage.sendMessage
    (Cases.reply_insert_refused (Error.mk (JS.lit "permission denied")))
    Scenario.page Scenario.world
  = (inr tt,
     ChatPage.mkState (Some Scenario.alice)
       [Message.mk (JS.lit "msg-1") (JS.lit "What is a good ETF?") user 205
                   Scenario.conv1]
       [] false (Some Scenario.conv1),
     World.mk
       (Backend.mk
          (Backend.conversations (World.backend Scenario.world))
          [Message.mk (JS.lit "msg-1") (JS.lit "What is a good ETF?") user 205
                      Scenario.conv1]
          212)
       [Storage (InsertMessage Scenario.conv1 (JS.lit "What is a good ETF?")
                               user) true;
        Fetched (webhook_request None (JS.lit "What is a good ETF?")
                                 Scenario.alice Scenario.conv1);
        Storage (InsertMessage Scenario.conv1 (JS.lit "Buy and hold.")
                               assistant) false;
        Toasted (destructive (JS.lit "permission denied"))]).
Proof.
  refine (proj1 (@refused_reply_insert_loses_the_reply
            (Cases.reply_insert_refused (Error.mk (JS.lit "permission denied")))
            (Error.mk (JS.lit "permission denied"))
            Scenario.alice Scenario.conv1 (JS.lit "  What is a good ETF? ")
            [] [] false Scenario.world
            (Scenario.response 200 "Buy and hold.") (JS.lit "Buy and hold.")
            _ _ _ _ _ _ _));
    solve [reflexivity | vm_compute; discriminate].
Defined.

(** X7. A send that passes the guard stays silent (raises no toast) exactly
    when both inserts succeed and the webhook answers 2xx with a readable
    body; for the screen of [unnamed/part_000] the body must also be
    non-blank.  What becomes of the final update of [updated_at] has no
    part in it. *)
Theorem send_is_silent_iff_exchanged
        (env : SendEnv.t) (p : ChatPage.State) (r : ChatRouted.State)
        (sess : Session.t) (conv : jsstring) (w : World.t) :
  (page_accepts p sess conv ->
   let '(_, w') := after (ChatPage.sendMessage env) p w in
   exists events,
     World.trace w' = World.trace w ++ events
     /\ (existsb is_toast events = false <-> exists body, exchanged env body))
  /\ (routed_accepts r sess conv ->
      let '(_, w') := after (ChatRouted.sendMessage env) r w in
      exists events,
        World.trace w' = World.trace w ++ events
        /\ (existsb is_toast events = false <->
            exists body, exchanged env body /\ JS.trim body <> [])).
Proof.
  split.
  - intros Hacc.
    pose proof (page_send_quiet_means_exchanged env w Hacc) as Hq.
    destruct p as [se msgs input loading cc].
    destruct Hacc as (Hs & Hc & Hconv & Hin); simpl in *; subst se cc.
    destruct (after (ChatPage.sendMessage env) _ w) as [p' w'] eqn:E.
    destruct Hq as (events & Etr & Hq).
    exists events; split; [exact Etr|]; split.
    + intros Hsilent; destruct (Hq Hsilent) as (Hu & Ha & resp & body & H).
      exists body; repeat split; try assumption; exists resp; exact H.
    + intros (body & Hu & Ha & resp & Hw & Hok & Ht).
      unfold after in E.
      rewrite (@page_send_exchange env sess conv input msgs loading w resp
                 body Hin Hconv Hu Ha Hw Hok Ht) in E.
      inversion E; subst p' w'; simpl in Etr.
      apply app_inv_head in Etr; subst events; reflexivity.
  - intros Hacc.
    pose proof (routed_send_quiet_means_exchanged env w Hacc) as Hq.
    destruct r as [se msgs input loading cc title].
    destruct Hacc as (Hs & Hc & Hconv & Hin); simpl in *; subst se cc.
    destruct (after (ChatRouted.sendMessage env) _ w) as [r' w'] eqn:E.
    destruct Hq as (events & Etr & Hq).
    exists events; split; [exact Etr|]; split.
    + intros Hsilent;
        destruct (Hq Hsilent) as (Hu & Ha & resp & body & Hw & Hok & Ht & Hb).
      exists body; repeat split; try assumption; exists resp; auto.
    + intros (body & (Hu & Ha & resp & Hw & Hok & Ht) & Hb).
      unfold after in E.
      rewrite (@routed_send_exchange env sess conv input title msgs loading w
                 resp body Hin Hconv Hu Ha Hw Hok Ht Hb) in E.
      inversion E; subst r' w'; simpl in Etr.
      apply app_inv_head in Etr; subst events; reflexivity.
Qed.

Lemma send_is_silent_iff_exchanged_witness :
  let '(_, w') :=
    after (ChatPage.sendMessage (Scenario.unrefreshed 200 "Buy and hold."))
          Scenario.page Scenario.world in
  exists events,
    World.trace w' = World.trace Scenario.world ++ events
    /\ (existsb is_toast events = false <->
        exists body,
          exchanged (Scenario.unrefreshed 200 "Buy and hold.") body).
Proof.
  apply (proj1 (@send_is_silent_iff_exchanged
                  (Scenario.unrefreshed 200 "Buy and hold.")
                  Scenario.page Scenario.routed Scenario.alice Scenario.conv1
                  Scenario.world)).
  repeat split; solve [reflexivity | vm_compute; discriminate].
Defined.

(** ** What a send writes *)

Lemma trimStart_head (s : jsstring) (c : N) (rest : jsstring) :
  JS.trimStart s = c :: rest -> JS.isWhiteSpace c = false.
Proof.
  induction s as [|x s IH]; simpl; [discriminate|].
  destruct (JS.isWhiteSpace x) eqn:E; [exact IH|].
  intros H; inversion H; subst; exact E.
Qed.

Lemma trimStart_suffix (s : jsstring) :
  exists front, s = front ++ JS.trimStart s.
Proof.
  induction s as [|x s [front IH]]; simpl; [exists []; reflexivity|].
  destruct (JS.isWhiteSpace x).
  - exists (x :: front); simpl; f_equal; exact IH.
  - exists []; reflexivity.
Qed.

(** What [trim()] returns has no whitespace at either end. *)
Lemma trim_trimmed (s : jsstring) : trimmed (JS.trim s).
Proof.
  unfold JS.trim, JS.trimEnd; split.
  - intros c rest E.
    destruct (trimStart_suffix (rev (JS.trimStart s))) as [front Hf].
    apply (f_equal (@rev N)) in Hf.
    rewrite rev_involutive, rev_app_distr, E in Hf; simpl in Hf.
    eapply trimStart_head; exact Hf.
  - intros front c E.
    apply (f_equal (@rev N)) in E.
    rewrite rev_involutive, rev_app_distr in E; simpl in E.
    eapply trimStart_head; exact E.
Qed.

(** X8. The user message a send stores is the input after [trim()]: its
    content is never empty and has no whitespace at either end, whatever
    blanks surround the text typed. *)
Theorem stored_user_message_is_trimmed
        (env : SendEnv.t) (p : ChatPage.State) (r : ChatRouted.State)
        (sess : Session.t) (conv : jsstring) (w : World.t) :
  (page_accepts p sess conv ->
   let '(_, w') := after (ChatPage.sendMessage env) p w in
   exists appended,
     Backend.messages (World.backend w')
     = Backend.messages (World.backend w) ++ appended
     /\ Forall (fun m => Message.role m = user ->
                         Message.content m
                         = JS.trim (ChatPage.currentMessage p)
                         /\ Message.content m <> []
                         /\ trimmed (Message.content m)) appended)
  /\ (routed_accepts r sess conv ->
      let '(_, w') := after (ChatRouted.sendMessage env) r w in
      exists appended,
        Backend.messages (World.backend w')
        = Backend.messages (World.backend w) ++ appended
        /\ Forall (fun m => Message.role m = user ->
                            Message.content m
                            = JS.trim (ChatRouted.currentMessage r)
                            /\ Message.content m <> []
                            /\ trimmed (Message.content m)) appended).
Proof.
  split.
  - destruct p as [se msgs input loading cc]; unfold page_accepts; simpl.
    intros (-> & -> & Hconv & Hin).
    pose proof (JS_truthy_nonempty Hin) as Tin.
    pose proof (JS_truthy_nonempty Hconv) as Tconv.
    pose proof (trim_trimmed input) as Htrim.
    unfold after, ChatPage.sendMessage, ChatPage.setMessages,
      ChatPage.setCurrentMessage, ChatPage.setIsLoading.
    run_handler; settle; each_reply; simpl;
      first
        [ exists (@nil Message.t); rewrite ?app_nil_r;
          split; [reflexivity | constructor]
        | eexists; split; [tidy; reflexivity|];
          repeat (apply Forall_cons;
                  [ simpl; intros Hrole;
                    first [ discriminate Hrole
                          | split; [reflexivity | split; assumption] ] |]);
          apply Forall_nil ].
  - destruct r as [se msgs input loading cc title]; unfold routed_accepts;
      simpl.
    intros (-> & -> & Hconv & Hin).
    pose proof (JS_truthy_nonempty Hin) as Tin.
    pose proof (JS_truthy_nonempty Hconv) as Tconv.
    pose proof (trim_trimmed input) as Htrim.
    unfold after, ChatRouted.sendMessage, ChatRouted.setMessages,
      ChatRouted.setCurrentMessage, ChatRouted.setIsLoading.
    run_handler; settle; each_reply; simpl;
      first
        [ exists (@nil Message.t); rewrite ?app_nil_r;
          split; [reflexivity | constructor]
        | eexists; split; [tidy; reflexivity|];
          repeat (apply Forall_cons;
                  [ simpl; intros Hrole;
                    first [ discriminate Hrole
                          | split; [reflexivity | split; assumption] ] |]);
          apply Forall_nil ].
Qed.

Lemma stored_user_message_is_trimmed_witness :
  let '(_, w') :=
    after (ChatRouted.sendMessage (Scenario.answering 200 "Buy and hold."))
          Scenario.routed Scenario.world in
  exists appended,
    Backend.messages (World.backend w')
    = Backend.messages (World.backend Scenario.world) ++ appended
    /\ Forall (fun m => Message.role m = user ->
                        Message.content m
                        = JS.trim (ChatRouted.currentMessage Scenario.routed)
                        /\ Message.content m <> []
                        /\ trimmed (Message.content m)) appended.
Proof.
  apply (proj2 (@stored_user_message_is_trimmed
                  (Scenario.answering 200 "Buy and hold.")
                  Scenario.page Scenario.routed Scenario.alice Scenario.conv1
                  Scenario.world)).
  repeat split; solve [reflexivity | vm_compute; discriminate].
Defined.

Lemma at_most_refreshed_same (active : option jsstring) (ts : timestamp)
      (l : list ConversationRow.t) :
  Forall2 (at_most_refreshed active ts) l l.
Proof. induction l; constructor; [left; reflexivity | assumption]. Qed.

Lemma at_most_refreshed_touch (conv : jsstring) (ts : timestamp)
      (b : Backend.t) :
  Forall2 (at_most_refreshed (Some conv) ts)
          (Backend.conversations b)
          (Backend.conversations (Backend.touch conv ts b)).
Proof.
  unfold Backend.touch; simpl.
  induction (Backend.conversations b) as [|c l IH]; simpl; constructor;
    [|exact IH].
  destruct (JS.eqb (ConversationRow.id c) conv) eqn:E.
  - right; apply JS_eqb_eq in E; subst conv; split; reflexivity.
  - left; reflexivity.
Qed.

(** X9. Whatever the state and the answers, a send only appends to
    [messages], and only rows of the active conversation; it adds and
    removes no row of [conversations], and the only change it makes there is
    to set [updated_at] of rows whose id is the active conversation's to
    the client's current time: ids, owners, titles and creation times are
    never written. *)
Theorem send_writes_only_its_conversation
        (env : SendEnv.t) (p : ChatPage.State) (r : ChatRouted.State)
        (w : World.t) :
  (let '(_, w') := after (ChatPage.sendMessage env) p w in
   (exists appended,
       Backend.messages (World.backend w')
       = Backend.messages (World.backend w) ++ appended
       /\ Forall (fun m => ChatPage.currentConversation p
                           = Some (Message.conversation_id m)) appended)
   /\ Forall2 (at_most_refreshed (ChatPage.currentConversation p)
                                 (SendEnv.today env))
              (Backend.conversations (World.backend w))
              (Backend.conversations (World.backend w')))
  /\ (let '(_, w') := after (ChatRouted.sendMessage env) r w in
      (exists appended,
          Backend.messages (World.backend w')
          = Backend.messages (World.backend w) ++ appended
          /\ Forall (fun m => ChatRouted.currentConversation r
                              = Some (Message.conversation_id m)) appended)
      /\ Forall2 (at_most_refreshed (ChatRouted.currentConversation r)
                                    (SendEnv.today env))
                 (Backend.conversations (World.backend w))
                 (Backend.conversations (World.backend w'))).
Proof.
  split.
  - destruct p as [[sess|] msgs input loading [conv|]];
      unfold after, ChatPage.sendMessage, ChatPage.setMessages,
        ChatPage.setCurrentMessage, ChatPage.setIsLoading;
      run_handler; each_reply; simpl;
      (split;
       [ first [ exists (@nil Message.t); rewrite ?app_nil_r;
                 split; [reflexivity | constructor]
               | eexists; split; [tidy; reflexivity|];
                 repeat constructor ]
       | first [ apply at_most_refreshed_same
               | apply (at_most_refreshed_touch conv (SendEnv.today env)) ] ]).
  - destruct r as [[sess|] msgs input loading [conv|] title];
      unfold after, ChatRouted.sendMessage, ChatRouted.setMessages,
        ChatRouted.setCurrentMessage, ChatRouted.setIsLoading;
      run_handler; each_reply; simpl;
      (split;
       [ first [ exists (@nil Message.t); rewrite ?app_nil_r;
                 split; [reflexivity | constructor]
               | eexists; split; [tidy; reflexivity|];
                 repeat constructor ]
       | first [ apply at_most_refreshed_same
               | apply (at_most_refreshed_touch conv (SendEnv.today env)) ] ]).
Qed.

(** ** The transcript and the active conversation *)

(** X10. Of a handler that runs from its start to its end with no other
    handler of the screen in between: if every row of the transcript
    belongs to the active conversation when a send starts, this is so when
    the send ends, whatever its outcome; and a load in which every storage
    call succeeds either leaves the screen as it was (the screen of
    [unnamed/part_000], when it finds no conversation) or ends with a
    transcript that belongs to the conversation it made active. *)
Theorem transcript_belongs_to_active_conversation
        (p : ChatPage.State) (r : ChatRouted.State) (w : World.t) :
  (forall env,
      in_conversation (ChatPage.currentConversation p) (ChatPage.messages p) ->
      let '(p', _) := after (ChatPage.sendMessage env) p w in
      in_conversation (ChatPage.currentConversation p') (ChatPage.messages p'))
  /\ (forall env,
         in_conversation (ChatRouted.currentConversation r)
                         (ChatRouted.messages r) ->
         let '(r', _) := after (ChatRouted.sendMessage env) r w in
         in_conversation (ChatRouted.currentConversation r')
                         (ChatRouted.messages r'))
  /\ (forall env sess,
         ChatPage.session p = Some sess ->
         succeeds (ChatPage.recent env) -> succeeds (ChatPage.history env) ->
         succeeds (ChatPage.created env) ->
         let '(p', _) := after (ChatPage.createOrLoadConversation env) p w in
         in_conversation (ChatPage.currentConversation p')
                         (ChatPage.messages p'))
  /\ (forall fromUrl env,
         succeeds (ChatRouted.conversation env) ->
         succeeds (ChatRouted.recent env) ->
         succeeds (ChatRouted.history env) ->
         let '(r', _) :=
           after (ChatRouted.createOrLoadConversation fromUrl env) r w in
         r' = r
         \/ in_conversation (ChatRouted.currentConversation r')
                            (ChatRouted.messages r')).
Proof.
  assert (Hof : forall cid b,
             Forall (fun m => Message.conversation_id m = cid)
                    (Backend.messages_of cid b)).
  { intros cid b; apply Forall_forall; intros m Hm.
    apply messages_of_In in Hm; tauto. }
  repeat split.
  - intros env.
    destruct p as [[sess|] msgs input loading [conv|]];
      unfold after, ChatPage.sendMessage, ChatPage.setMessages,
        ChatPage.setCurrentMessage, ChatPage.setIsLoading;
      run_handler; intros Hin; each_reply; simpl;
      try exact Hin;
      repeat (apply Forall_app; split; [| repeat constructor]); exact Hin.
  - intros env.
    destruct r as [[sess|] msgs input loading [conv|] title];
      unfold after, ChatRouted.sendMessage, ChatRouted.setMessages,
        ChatRouted.setCurrentMessage, ChatRouted.setIsLoading;
      run_handler; intros Hin; each_reply; simpl;
      try exact Hin;
      repeat (apply Forall_app; split; [| repeat constructor]); exact Hin.
  - intros env sess Hs Hr Hh Hc; unfold succeeds in *.
    unfold after, ChatPage.createOrLoadConversation,
      ChatPage.setCurrentConversation, ChatPage.setMessages.
    run_handler; rewrite Hs; simpl; settle.
    destruct (Backend.conversations_of _ _) as [|c l]; simpl; settle.
    + constructor.
    + apply Hof.
  - intros fromUrl env Hc Hr Hh; unfold succeeds in *.
    destruct r as [[sess|] msgs input loading cc title];
      unfold after, ChatRouted.createOrLoadConversation,
        ChatRouted.setCurrentConversation, ChatRouted.setMessages,
        ChatRouted.setConversationTitle;
      run_handler; [|left; reflexivity].
    destruct (when_truthy fromUrl) as [cid|]; simpl; settle.
    + destruct (Backend.conversation_by_id _ _ _) as [|c [|c' l]]; simpl;
        settle; first [left; reflexivity | right; apply Hof].
    + destruct (Backend.conversations_of _ _) as [|c l]; simpl; settle;
        first [left; reflexivity | right; apply Hof].
Qed.

Lemma transcript_belongs_to_active_conversation_witness :
  let '(p', _) :=
    after (ChatPage.sendMessage (Scenario.answering 200 "Buy and hold."))
          Scenario.page Scenario.world in
  in_conversation (ChatPage.currentConversation p') (ChatPage.messages p').
Proof.
  apply (proj1 (@transcript_belongs_to_active_conversation
                  Scenario.page Scenario.routed Scenario.world)
               (Scenario.answering 200 "Buy and hold.")).
  constructor.
Defined.

(* ===================================================================== *)
(** ** More on resolving the conversation *)

(** [unnamed/part_000]: the load of the conversation the parameter names,
    when exactly one conversation of the user has that id. *)
Lemma routed_load_named
      (env : ChatRouted.LoadEnv) (r : ChatRouted.State) (sess : Session.t)
      (cid : jsstring) (c : ConversationRow.t) (w : World.t) :
  ChatRouted.session r = Some sess ->
  cid <> [] ->
  succeeds (ChatRouted.conversation env) ->
  succeeds (ChatRouted.history env) ->
  Backend.conversation_by_id cid (User.id (Session.user sess))
                             (World.backend w) = [c] ->
  ChatRouted.createOrLoadConversation (Some cid) env r w
  = (inr tt,
     ChatRouted.mkState (Some sess)
       (Backend.messages_of cid (World.backend w))
       (ChatRouted.currentMessage r) (ChatRouted.isLoading r) (Some cid)
       (JS.or_else (ConversationRow.title c) (JS.lit "Conversa")),
     World.mk
       (Backend.advance (Reply.elapsed (ChatRouted.history env))
          (Backend.advance (Reply.elapsed (ChatRouted.conversation env))
                           (World.backend w)))
       (World.trace w
        ++ [Storage (SelectConversation cid (User.id (Session.user sess)))
                    true;
            Storage (SelectMessages cid) true])).
Proof.
  intros Hs Hcid Hc Hh Hrow; unfold succeeds in *.
  unfold ChatRouted.createOrLoadConversation,
    ChatRouted.setCurrentConversation, ChatRouted.setMessages,
    ChatRouted.setConversationTitle.
  run_handler; rewrite Hs; simpl.
  rewrite (JS_truthy_nonempty Hcid); simpl; settle.
  change (Backend.conversation_by_id cid (User.id (Session.user sess))
            (Backend.advance (Reply.elapsed (ChatRouted.conversation env))
                             (World.backend w)))
    with (Backend.conversation_by_id cid (User.id (Session.user sess))
            (World.backend w)).
  rewrite Hrow; simpl; settle.
  destruct r; simpl in *; subst; tidy; reflexivity.
Qed.

(** X11. With a non-empty [conversation] parameter that names exactly one
    conversation of the session user, the screen of [unnamed/part_000]
    makes that conversation active, takes its title (or "Conversa" when the
    title is empty) and shows its messages in ascending order of
    [created_at]; it does not ask for the most recent conversation. *)
Theorem named_conversation_is_loaded
        (env : ChatRouted.LoadEnv) (r : ChatRouted.State) (sess : Session.t)
        (cid : jsstring) (c : ConversationRow.t) (w : World.t) :
  ChatRouted.session r = Some sess ->
  cid <> [] ->
  succeeds (ChatRouted.conversation env) ->
  succeeds (ChatRouted.history env) ->
  Backend.conversation_by_id cid (User.id (Session.user sess))
                             (World.backend w) = [c] ->
  let b := World.backend w in
  ChatRouted.createOrLoadConversation (Some cid) env r w
  = (inr tt,
     ChatRouted.mkState (Some sess) (Backend.messages_of cid b)
       (ChatRouted.currentMessage r) (ChatRouted.isLoading r) (Some cid)
       (JS.or_else (ConversationRow.title c) (JS.lit "Conversa")),
     World.mk
       (Backend.advance (Reply.elapsed (ChatRouted.history env))
          (Backend.advance (Reply.elapsed (ChatRouted.conversation env)) b))
       (World.trace w
        ++ [Storage (SelectConversation cid (User.id (Session.user sess)))
                    true;
            Storage (SelectMessages cid) true]))
  /\ ascending (Backend.messages_of cid b)
  /\ (forall m, In m (Backend.messages_of cid b) <->
                In m (Backend.messages b) /\ Message.conversation_id m = cid).
Proof.
  intros Hs Hcid Hc Hh Hrow b.
  split; [exact (@routed_load_named env r sess cid c w Hs Hcid Hc Hh Hrow)|].
  split; [apply messages_of_ascending | intros m; apply messages_of_In].
Qed.

Lemma named_conversation_is_loaded_witness :
  ChatRouted.createOrLoadConversation (Some Scenario.conv1)
    Cases.routed_replies (Scenario.routed_of Scenario.alice) Cases.archive
  = (inr tt,
     ChatRouted.mkState (Some Scenario.alice)
       [Message.mk (JS.lit "m1") (JS.lit "Buy?") user 110 Scenario.conv1;
        Message.mk (JS.lit "m2") (JS.lit "Hold.") assistant 120 Scenario.conv1]
       [] false (Some Scenario.conv1) (JS.lit "Conversa"),
     World.mk
       (Backend.advance 6 (Backend.advance 2 (World.backend Cases.archive)))
       [Storage (SelectConversation Scenario.conv1 (JS.lit "user-1")) true;
        Storage (SelectMessages Scenario.conv1) true]).
Proof.
  refine (proj1 (@named_conversation_is_loaded
            Cases.routed_replies (Scenario.routed_of Scenario.alice)
            Scenario.alice Scenario.conv1
            (ConversationRow.mk Scenario.conv1 (JS.lit "user-1") [] 100 100)
            Cases.archive _ _ _ _ _));
    solve [reflexivity | vm_compute; discriminate].
Defined.

Lemma JS_eqb_same (a : jsstring) : JS.eqb a a = true.
Proof. apply JS_eqb_eq; reflexivity. Qed.

Lemma conversations_of_empty_none (uid : jsstring) (b : Backend.t) :
  Backend.conversations_of uid b = [] ->
  forall c, In c (Backend.conversations b) -> ConversationRow.user_id c <> uid.
Proof.
  intros E c Hin Hu.
  assert (Hc : In c (Backend.conversations_of uid b))
    by (apply conversations_of_In; split; assumption).
  rewrite E in Hc; destruct Hc.
Qed.

(** X12. Resolving the conversation never touches [messages].  On the
    screen of [unnamed/part_000] it never writes to [conversations] either.
    On the screen of [src/pages/Chat.tsx] it writes at most one row, a
    conversation titled "Nova Conversa" owned by the session user, and only
    when that user owns no conversation. *)
Theorem loading_writes_at_most_a_first_conversation
        (p : ChatPage.State) (r : ChatRouted.State) (w : World.t) :
  (forall fromUrl env,
      let '(_, w') :=
        after (ChatRouted.createOrLoadConversation fromUrl env) r w in
      Backend.conversations (World.backend w')
      = Backend.conversations (World.backend w)
      /\ Backend.messages (World.backend w')
         = Backend.messages (World.backend w))
  /\ (forall env,
         let '(_, w') := after (ChatPage.createOrLoadConversation env) p w in
         Backend.messages (World.backend w')
         = Backend.messages (World.backend w)
         /\ (Backend.conversations (World.backend w')
             = Backend.conversations (World.backend w)
             \/ exists sess row,
                 ChatPage.session p = Some sess
                 /\ Backend.conversations (World.backend w')
                    = Backend.conversations (World.backend w) ++ [row]
                 /\ ConversationRow.user_id row = User.id (Session.user sess)
                 /\ ConversationRow.title row = JS.lit "Nova Conversa"
                 /\ forall c, In c (Backend.conversations (World.backend w)) ->
                              ConversationRow.user_id c
                              <> User.id (Session.user sess))).
Proof.
  split.
  - intros fromUrl env.
    destruct r as [[sess|] msgs input loading cc title];
      unfold after, ChatRouted.createOrLoadConversation,
        ChatRouted.setCurrentConversation, ChatRouted.setMessages,
        ChatRouted.setConversationTitle;
      run_handler; [|split; reflexivity].
    destruct (when_truthy fromUrl) as [cid|]; simpl.
    + destruct (Reply.failure (ChatRouted.conversation env)); simpl;
        [split; reflexivity|].
      destruct (Backend.conversation_by_id _ _ _) as [|c [|c' l]]; simpl;
        each_reply; split; reflexivity.
    + destruct (Reply.failure (ChatRouted.recent env)); simpl;
        [split; reflexivity|].
      destruct (Backend.conversations_of _ _) as [|c l]; simpl;
        each_reply; split; reflexivity.
  - intros env.
    destruct p as [[sess|] msgs input loading cc];
      unfold after, ChatPage.createOrLoadConversation,
        ChatPage.setCurrentConversation, ChatPage.setMessages;
      run_handler; [|split; [reflexivity | left; reflexivity]].
    destruct (Reply.failure (ChatPage.recent env)); simpl;
      [split; [reflexivity | left; reflexivity]|].
    destruct (Backend.conversations_of _ _) as [|c l] eqn:E; simpl.
    + destruct (Reply.failure (ChatPage.created env)); simpl;
        (split; [reflexivity|]); [left; reflexivity|].
      right; eexists; eexists; split; [reflexivity|].
      split; [reflexivity|]; split; [reflexivity|]; split; [reflexivity|].
      exact (@conversations_of_empty_none _ _ E).
    + each_reply; split; solve [reflexivity | left; reflexivity].
Qed.

(** X13. When the conversation has been resolved and the select of its
    messages then fails, the conversation is active all the same and the
    transcript is the one the screen had before: the screen of
    [src/pages/Chat.tsx] raises a toast and stays, so that the next send
    goes to a conversation whose messages are not shown; the screen of
    [unnamed/part_000] raises the toast and leaves for the history
    screen. *)
Theorem lost_message_select_still_switches_conversation
        (penv : ChatPage.LoadEnv) (renv : ChatRouted.LoadEnv)
        (p : ChatPage.State) (r : ChatRouted.State) (sess : Session.t)
        (e e' : Error.t) (c : ConversationRow.t)
        (l : list ConversationRow.t) (w : World.t) :
  ChatPage.session p = Some sess ->
  ChatRouted.session r = Some sess ->
  Backend.conversations_of (User.id (Session.user sess)) (World.backend w)
  = c :: l ->
  succeeds (ChatPage.recent penv) ->
  Reply.failure (ChatPage.history penv) = Some e ->
  succeeds (ChatRouted.recent renv) ->
  Reply.failure (ChatRouted.history renv) = Some e' ->
  let uid := User.id (Session.user sess) in
  let b := World.backend w in
  ChatPage.createOrLoadConversation penv p w
  = (inr tt,
     ChatPage.mkState (Some sess) (ChatPage.messages p)
       (ChatPage.currentMessage p) (ChatPage.isLoading p)
       (Some (ConversationRow.id c)),
     World.mk
       (Backend.advance (Reply.elapsed (ChatPage.history penv))
          (Backend.advance (Reply.elapsed (ChatPage.recent penv)) b))
       (World.trace w
        ++ [Storage (SelectRecentConversation uid) true;
            Storage (SelectMessages (ConversationRow.id c)) false;
            Toasted (destructive Text.cannot_load_conversation)]))
  /\ ChatRouted.createOrLoadConversation None renv r w
     = (inr tt,
        ChatRouted.mkState (Some sess) (ChatRouted.messages r)
          (ChatRouted.currentMessage r) (ChatRouted.isLoading r)
          (Some (ConversationRow.id c))
          (JS.or_else (ConversationRow.title c) (JS.lit "Conversa")),
        World.mk
          (Backend.advance (Reply.elapsed (ChatRouted.history renv))
             (Backend.advance (Reply.elapsed (ChatRouted.recent renv)) b))
          (World.trace w
           ++ [Storage (SelectRecentConversation uid) true;
               Storage (SelectMessages (ConversationRow.id c)) false;
               Toasted (destructive Text.cannot_load_conversation);
               Navigated (JS.lit "/chat-history")])).
Proof.
  intros Hp Hr E Hpr Hph Hrr Hrh uid b; subst uid b; unfold succeeds in *.
  split.
  - unfold ChatPage.createOrLoadConversation,
      ChatPage.setCurrentConversation, ChatPage.setMessages.
    run_handler; rewrite Hp; simpl; settle.
    rewrite conversations_of_advance, E; simpl; settle.
    destruct p; simpl in *; subst; tidy; reflexivity.
  - unfold ChatRouted.createOrLoadConversation,
      ChatRouted.setCurrentConversation, ChatRouted.setMessages,
      ChatRouted.setConversationTitle.
    run_handler; rewrite Hr; simpl; settle.
    rewrite conversations_of_advance, E; simpl; settle.
    destruct r; simpl in *; subst; tidy; reflexivity.
Qed.

Lemma lost_message_select_still_switches_conversation_witness :
  ChatPage.createOrLoadConversation Cases.page_history_lost
    (Scenario.page_of Scenario.alice) Cases.archive
  = (inr tt,
     ChatPage.mkState (Some Scenario.alice) [] [] false (Some Scenario.conv1),
     World.mk
       (Backend.advance 6 (Backend.advance 4 (World.backend Cases.archive)))
       [Storage (SelectRecentConversation (JS.lit "user-1")) true;
        Storage (SelectMessages Scenario.conv1) false;
        Toasted (destructive Text.cannot_load_conversation)]).
Proof.
  refine (proj1 (@lost_message_select_still_switches_conversation
            Cases.page_history_lost
            (ChatRouted.mkLoadEnv (Scenario.accepted "" 2)
                                  (Scenario.accepted "" 4)
                                  (Cases.failing Cases.offline 6))
            (Scenario.page_of Scenario.alice)
            (Scenario.routed_of Scenario.alice) Scenario.alice
            Cases.offline Cases.offline
            (ConversationRow.mk Scenario.conv1 (JS.lit "user-1") [] 100 100)
            [] Cases.archive _ _ _ _ _ _ _));
    reflexivity.
Defined.

(* ===================================================================== *)
(** ** How the operations compose *)

Lemma filter_none {A : Type} (f : A -> bool) (l : list A) :
  (forall x, In x l -> f x = false) -> filter f l = [].
Proof.
  induction l as [|x l IH]; simpl; intros H; [reflexivity|].
  rewrite (H x (or_introl eq_refl)); apply IH; intros y Hy; apply H; right;
    exact Hy.
Qed.

Lemma JS_eqb_neq (a b : jsstring) : a <> b -> JS.eqb a b = false.
Proof.
  intros H; destruct (JS.eqb a b) eqn:E; [|reflexivity].
  apply JS_eqb_eq in E; contradiction.
Qed.

(** The ordered select of a user who owned nothing, after one row of theirs
    is added. *)
Lemma conversations_of_first (uid : jsstring) (row : ConversationRow.t)
      (rows : list ConversationRow.t) (msgs : list Message.t) (t : timestamp) :
  (forall c, In c rows -> ConversationRow.user_id c <> uid) ->
  ConversationRow.user_id row = uid ->
  Backend.conversations_of uid (Backend.mk (rows ++ [row]) msgs t) = [row].
Proof.
  intros Hnone Hrow; unfold Backend.conversations_of; simpl.
  rewrite filter_app, filter_none; simpl.
  - rewrite Hrow, JS_eqb_same; reflexivity.
  - intros c Hc; apply JS_eqb_neq; auto.
Qed.

(** [src/pages/Chat.tsx]: the load that finds no conversation of the user
    and creates one. *)
Lemma page_load_creates (env : ChatPage.LoadEnv) (p : ChatPage.State)
      (sess : Session.t) (w : World.t) :
  ChatPage.session p = Some sess ->
  (forall c, In c (Backend.conversations (World.backend w)) ->
             ConversationRow.user_id c <> User.id (Session.user sess)) ->
  succeeds (ChatPage.recent env) -> succeeds (ChatPage.created env) ->
  let uid := User.id (Session.user sess) in
  let b := World.backend w in
  let t := at_server w (ChatPage.recent env)
           + Z.of_N (Reply.elapsed (ChatPage.created env)) in
  let fresh := ConversationRow.mk (Reply.fresh_id (ChatPage.created env)) uid
                                  (JS.lit "Nova Conversa") t t in
  ChatPage.createOrLoadConversation env p w
  = (inr tt,
     ChatPage.mkState (Some sess) [] (ChatPage.currentMessage p)
                      (ChatPage.isLoading p) (Some (ConversationRow.id fresh)),
     World.mk
       (Backend.mk (Backend.conversations b ++ [fresh]) (Backend.messages b) t)
       (World.trace w
        ++ [Storage (SelectRecentConversation uid) true;
            Storage (InsertConversation uid (JS.lit "Nova Conversa")) true])).
Proof.
  intros Hs Hnone Hr Hc uid b t fresh; subst uid b t fresh;
    unfold succeeds in *.
  pose proof (conversations_of_none _ Hnone) as E.
  unfold ChatPage.createOrLoadConversation,
    ChatPage.setCurrentConversation, ChatPage.setMessages.
  run_handler; rewrite Hs; simpl; settle.
  rewrite conversations_of_advance, E; simpl; settle.
  destruct p; simpl in *; subst; tidy; reflexivity.
Qed.

(** [src/pages/Chat.tsx]: the load that finds [c] as the most recent
    conversation of the user and reads its messages. *)
Lemma page_load_finds (env : ChatPage.LoadEnv) (p : ChatPage.State)
      (sess : Session.t) (c : ConversationRow.t)
      (l : list ConversationRow.t) (w : World.t) :
  ChatPage.session p = Some sess ->
  Backend.conversations_of (User.id (Session.user sess)) (World.backend w)
  = c :: l ->
  succeeds (ChatPage.recent env) -> succeeds (ChatPage.history env) ->
  ChatPage.createOrLoadConversation env p w
  = (inr tt,
     ChatPage.mkState (Some sess)
       (Backend.messages_of (ConversationRow.id c) (World.backend w))
       (ChatPage.currentMessage p) (ChatPage.isLoading p)
       (Some (ConversationRow.id c)),
     World.mk
       (Backend.advance (Reply.elapsed (ChatPage.history env))
          (Backend.advance (Reply.elapsed (ChatPage.recent env))
                           (World.backend w)))
       (World.trace w
        ++ [Storage (SelectRecentConversation (User.id (Session.user sess)))
                    true;
            Storage (SelectMessages (ConversationRow.id c)) true])).
Proof.
  intros Hs E Hr Hh; unfold succeeds in *.
  unfold ChatPage.createOrLoadConversation,
    ChatPage.setCurrentConversation, ChatPage.setMessages.
  run_handler; rewrite Hs; simpl; settle.
  rewrite conversations_of_advance, E; simpl; settle.
  destruct p; simpl in *; subst; tidy; reflexivity.
Qed.

(** X14. On the screen of [src/pages/Chat.tsx], when the user owns no
    conversation and the storage answers, loading twice creates one
    conversation, not two: the second load finds the conversation the
    first one created, makes it active again and shows its messages. *)
Theorem loading_twice_creates_one_conversation
        (env1 env2 : ChatPage.LoadEnv) (p : ChatPage.State) (sess : Session.t)
        (w : World.t) :
  ChatPage.session p = Some sess ->
  (forall c, In c (Backend.conversations (World.backend w)) ->
             ConversationRow.user_id c <> User.id (Session.user sess)) ->
  succeeds (ChatPage.recent env1) -> succeeds (ChatPage.created env1) ->
  succeeds (ChatPage.recent env2) -> succeeds (ChatPage.history env2) ->
  let uid := User.id (Session.user sess) in
  let b := World.backend w in
  let t := at_server w (ChatPage.recent env1)
           + Z.of_N (Reply.elapsed (ChatPage.created env1)) in
  let fresh := ConversationRow.mk (Reply.fresh_id (ChatPage.created env1)) uid
                                  (JS.lit "Nova Conversa") t t in
  let '(p1, w1) := after (ChatPage.createOrLoadConversation env1) p w in
  let '(p2, w2) := after (ChatPage.createOrLoadConversation env2) p1 w1 in
  Backend.conversations (World.backend w2)
  = Backend.conversations b ++ [fresh]
  /\ ChatPage.currentConversation p1 = Some (ConversationRow.id fresh)
  /\ ChatPage.currentConversation p2 = Some (ConversationRow.id fresh)
  /\ ChatPage.messages p2
     = Backend.messages_of (ConversationRow.id fresh) b
  /\ World.trace w2
     = World.trace w
       ++ [Storage (SelectRecentConversation uid) true;
           Storage (InsertConversation uid (JS.lit "Nova Conversa")) true;
           Storage (SelectRecentConversation uid) true;
           Storage (SelectMessages (ConversationRow.id fresh)) true].
Proof.
  intros Hs Hnone H1r H1c H2r H2h uid b t fresh.
  unfold after.
  rewrite (@page_load_creates env1 p sess w Hs Hnone H1r H1c).
  match goal with
  | |- context [ChatPage.createOrLoadConversation env2 ?p1 ?w1] =>
      rewrite (@page_load_finds env2 p1 sess fresh [] w1 eq_refl)
  end; simpl;
    [| apply conversations_of_first; [exact Hnone | reflexivity]
     | exact H2r | exact H2h ].
  subst uid b t fresh; repeat split; tidy; reflexivity.
Qed.

Lemma loading_twice_creates_one_conversation_witness :
  let '(p1, w1) :=
    after (ChatPage.createOrLoadConversation Scenario.page_loading)
          (Scenario.page_of Scenario.bob) Scenario.world in
  let '(p2, w2) :=
    after (ChatPage.createOrLoadConversation Scenario.page_loading) p1 w1 in
  Backend.conversations (World.backend w2)
  = Backend.conversations (World.backend Scenario.world)
    ++ [ConversationRow.mk (JS.lit "conv-9") (JS.lit "user-2")
                           (JS.lit "Nova Conversa") 212 212]
  /\ ChatPage.currentConversation p1 = Some (JS.lit "conv-9")
  /\ ChatPage.currentConversation p2 = Some (JS.lit "conv-9")
  /\ ChatPage.messages p2
     = Backend.messages_of (JS.lit "conv-9") (World.backend Scenario.world)
  /\ World.trace w2
     = World.trace Scenario.world
       ++ [Storage (SelectRecentConversation (JS.lit "user-2")) true;
           Storage (InsertConversation (JS.lit "user-2")
                                       (JS.lit "Nova Conversa")) true;
           Storage (SelectRecentConversation (JS.lit "user-2")) true;
           Storage (SelectMessages (JS.lit "conv-9")) true].
Proof.
  refine (@loading_twice_creates_one_conversation
            Scenario.page_loading Scenario.page_loading
            (Scenario.page_of Scenario.bob) Scenario.bob Scenario.world
            eq_refl _ eq_refl eq_refl eq_refl eq_refl).
  intros c [<- | []] E; vm_compute in E; discriminate E.
Defined.

(** [src/pages/ChatHistory.tsx]: the creation that succeeds. *)
Lemma history_create_navigates (dateLabel : jsstring) (reply : Reply.t)
      (h : ChatHistory.State) (sess : Session.t) (w : World.t) :
  ChatHistory.session h = Some sess ->
  succeeds reply ->
  let uid := User.id (Session.user sess) in
  let b := World.backend w in
  let fresh := ConversationRow.mk (Reply.fresh_id reply) uid
                 (JS.lit "Nova Conversa " ++ dateLabel)
                 (at_server w reply) (at_server w reply) in
  ChatHistory.createNewConversation dateLabel reply h w
  = (inr tt, h,
     World.mk
       (Backend.mk (Backend.conversations b ++ [fresh]) (Backend.messages b)
                   (at_server w reply))
       (World.trace w
        ++ [Storage (InsertConversation uid
                       (JS.lit "Nova Conversa " ++ dateLabel)) true;
            Navigated (JS.lit "/chat?conversation=" ++ Reply.fresh_id reply)])).
Proof.
  intros Hs Hr uid b fresh; subst uid b fresh; unfold succeeds in *.
  unfold ChatHistory.createNewConversation.
  run_handler; rewrite Hs; simpl; settle.
  tidy; reflexivity.
Qed.

(** The select by id and owner, after a row with an unused id is added. *)
Lemma conversation_by_id_fresh (uid : jsstring) (row : ConversationRow.t)
      (rows : list ConversationRow.t) (msgs : list Message.t) (t : timestamp) :
  (forall c, In c rows -> ConversationRow.id c <> ConversationRow.id row) ->
  ConversationRow.user_id row = uid ->
  Backend.conversation_by_id (ConversationRow.id row) uid
                             (Backend.mk (rows ++ [row]) msgs t) = [row].
Proof.
  intros Hnew Hrow; unfold Backend.conversation_by_id; simpl.
  rewrite filter_app, filter_none; simpl.
  - rewrite Hrow, !JS_eqb_same; reflexivity.
  - intros c Hc; rewrite (JS_eqb_neq (Hnew c Hc)); reflexivity.
Qed.

(** X15. A conversation created from the history screen opens on the screen
    of [unnamed/part_000]: when the storage accepts the insert and returns
    a non-empty id that no other conversation has, the history screen
    navigates to [/chat?conversation=<id>], and a load with that id as the
    [conversation] parameter, for the same user, makes the new conversation
    active under its title "Nova Conversa <date>" and shows the messages
    stored under that id, none if there are none. *)
Theorem created_conversation_opens
        (dateLabel : jsstring) (reply : Reply.t) (env : ChatRouted.LoadEnv)
        (h : ChatHistory.State) (r : ChatRouted.State) (sess : Session.t)
        (w : World.t) :
  ChatHistory.session h = Some sess ->
  ChatRouted.session r = Some sess ->
  succeeds reply ->
  Reply.fresh_id reply <> [] ->
  (forall c, In c (Backend.conversations (World.backend w)) ->
             ConversationRow.id c <> Reply.fresh_id reply) ->
  succeeds (ChatRouted.conversation env) ->
  succeeds (ChatRouted.history env) ->
  let uid := User.id (Session.user sess) in
  let b := World.backend w in
  let id := Reply.fresh_id reply in
  let title := JS.lit "Nova Conversa " ++ dateLabel in
  let '(h1, w1) :=
    after (ChatHistory.createNewConversation dateLabel reply) h w in
  let '(r2, w2) :=
    after (ChatRouted.createOrLoadConversation (Some id) env) r w1 in
  h1 = h
  /\ r2 = ChatRouted.mkState (Some sess) (Backend.messages_of id b)
            (ChatRouted.currentMessage r) (ChatRouted.isLoading r)
            (Some id) title
  /\ Backend.conversations (World.backend w2)
     = Backend.conversations b
       ++ [ConversationRow.mk id uid title (at_server w reply)
                              (at_server w reply)]
  /\ World.trace w2
     = World.trace w
       ++ [Storage (InsertConversation uid title) true;
           Navigated (JS.lit "/chat?conversation=" ++ id);
           Storage (SelectConversation id uid) true;
           Storage (SelectMessages id) true]
  /\ ((forall m, In m (Backend.messages b) ->
                 Message.conversation_id m <> id) ->
      Backend.messages_of id b = []).
Proof.
  intros Hh Hr Hreply Hid Hnew Hc Hm uid b id title.
  unfold after.
  rewrite (@history_create_navigates dateLabel reply h sess w Hh Hreply).
  match goal with
  | |- context [ChatRouted.createOrLoadConversation _ env r ?w1] =>
      rewrite (@routed_load_named env r sess id
                 (ConversationRow.mk id uid title (at_server w reply)
                                     (at_server w reply))
                 w1 Hr Hid Hc Hm)
  end.
  - subst uid b id title; repeat split; try (tidy; reflexivity).
    intros Hnone; unfold Backend.messages_of.
    rewrite filter_none; [reflexivity|].
    intros m Hin; apply JS_eqb_neq; auto.
  - simpl.
    apply (@conversation_by_id_fresh uid
             (ConversationRow.mk id uid title (at_server w reply)
                                 (at_server w reply))); [exact Hnew|reflexivity].
Qed.

Lemma created_conversation_opens_witness :
  let '(h1, w1) :=
    after (ChatHistory.createNewConversation
             (JS.lit "01/11/2026") (Scenario.accepted "conv-4" 5))
          Scenario.history Scenario.shelf in
  let '(r2, w2) :=
    after (ChatRouted.createOrLoadConversation (Some (JS.lit "conv-4"))
                                               Cases.routed_replies)
          (Scenario.routed_of Scenario.alice) w1 in
  r2 = ChatRouted.mkState (Some Scenario.alice) [] [] false
                          (Some (JS.lit "conv-4"))
                          (JS.lit "Nova Conversa 01/11/2026").
Proof.
  assert (Hid : Reply.fresh_id (Scenario.accepted "conv-4" 5) <> [])
    by (vm_compute; discriminate).
  assert (Hnew : forall c,
             In c (Backend.conversations (World.backend Scenario.shelf)) ->
             ConversationRow.id c
             <> Reply.fresh_id (Scenario.accepted "conv-4" 5))
    by (intros c [<- | [<- | [<- | []]]] E; vm_compute in E; discriminate E).
  pose proof (@created_conversation_opens
                (JS.lit "01/11/2026") (Scenario.accepted "conv-4" 5)
                Cases.routed_replies Scenario.history
                (Scenario.routed_of Scenario.alice) Scenario.alice
                Scenario.shelf eq_refl eq_refl eq_refl Hid Hnew
                eq_refl eq_refl) as H.
  vm_compute in H; vm_compute.
  exact (proj1 (proj2 H)).
Defined.

(** [src/pages/ChatHistory.tsx]: the load that succeeds. *)
Lemma history_load_lists (reply : Reply.t) (h : ChatHistory.State)
      (sess : Session.t) (w : World.t) :
  ChatHistory.session h = Some sess ->
  succeeds reply ->
  ChatHistory.loadConversations reply h w
  = (inr tt,
     ChatHistory.mkState (Some sess)
       (map ChatHistory.selected
            (Backend.conversations_of (User.id (Session.user sess))
                                      (World.backend w)))
       false,
     World.mk (Backend.advance (Reply.elapsed reply) (World.backend w))
              (World.trace w
               ++ [Storage (SelectConversations (User.id (Session.user sess)))
                           true])).
Proof.
  intros Hs Hr; unfold succeeds in *.
  destruct h as [se cs ld]; simpl in Hs; subst se.
  unfold ChatHistory.loadConversations, ChatHistory.setConversations,
    ChatHistory.setLoading.
  run_handler; settle.
  tidy; reflexivity.
Qed.

(** After the refresh, the conversation with the unique id [conv] is the
    first of its owner's list when [ts] is later than the owner's other
    conversations. *)
Lemma touched_is_head (uid conv : jsstring) (ts : timestamp)
      (c : ConversationRow.t) (b : Backend.t) :
  In c (Backend.conversations b) ->
  ConversationRow.id c = conv ->
  ConversationRow.user_id c = uid ->
  (forall x, In x (Backend.conversations b) ->
             ConversationRow.id x = conv -> x = c) ->
  (forall x, In x (Backend.conversations b) ->
             ConversationRow.user_id x = uid -> x <> c ->
             ConversationRow.updated_at x < ts) ->
  hd_error (Backend.conversations_of uid (Backend.touch conv ts b))
  = Some (ConversationRow.mk conv uid (ConversationRow.title c)
                             (ConversationRow.created_at c) ts).
Proof.
  intros Hin Hid Hu Huniq Hlate.
  apply strictly_latest_is_head.
  - unfold Backend.touch; simpl; apply in_map_iff.
    exists c; split; [|exact Hin].
    rewrite Hid, JS_eqb_same, Hu; reflexivity.
  - reflexivity.
  - unfold Backend.touch; simpl; intros x Hx Hxu Hne.
    apply in_map_iff in Hx; destruct Hx as (x0 & Ex & Hx0).
    destruct (JS.eqb (ConversationRow.id x0) conv) eqn:E.
    + apply JS_eqb_eq in E.
      pose proof (Huniq x0 Hx0 E); subst x0.
      exfalso; apply Hne; rewrite <- Ex, Hid, Hu; reflexivity.
    + subst x0.
      apply Hlate; [exact Hx0 | exact Hxu |].
      intros ->; rewrite Hid, JS_eqb_same in E; discriminate E.
Qed.

(** X16. After a send in which every step succeeds, the history screen of
    the same user lists the conversation first, stamped with the client's
    time of the send, provided the conversation belongs to the user, its id
    is unique, and that time is later than [updated_at] of the user's
    other conversations.  (For the screen of [unnamed/part_000] the body is
    one that passes its blank check.) *)
Theorem sent_conversation_tops_the_history
        (env : SendEnv.t) (reply : Reply.t) (h : ChatHistory.State)
        (sess : Session.t) (conv input title : jsstring)
        (msgs : list Message.t) (loading : bool) (w : World.t)
        (response : Fetch.Response) (body : jsstring)
        (c : ConversationRow.t) :
  JS.trim input <> [] -> conv <> [] ->
  succeeds (SendEnv.user_insert env) ->
  succeeds (SendEnv.ai_insert env) ->
  succeeds (SendEnv.refresh env) ->
  SendEnv.webhook env = inr response ->
  Fetch.ok response = true ->
  Fetch.text response = inr body ->
  ChatHistory.session h = Some sess ->
  succeeds reply ->
  In c (Backend.conversations (World.backend w)) ->
  ConversationRow.id c = conv ->
  ConversationRow.user_id c = User.id (Session.user sess) ->
  (forall x, In x (Backend.conversations (World.backend w)) ->
             ConversationRow.id x = conv -> x = c) ->
  (forall x, In x (Backend.conversations (World.backend w)) ->
             ConversationRow.user_id x = User.id (Session.user sess) ->
             x <> c -> ConversationRow.updated_at x < SendEnv.today env) ->
  let top :=
    ChatHistory.mkConversation conv (ConversationRow.title c)
      (ConversationRow.created_at c) (SendEnv.today env) in
  (let '(_, w1) :=
     after (ChatPage.sendMessage env)
           (ChatPage.mkState (Some sess) msgs input loading (Some conv)) w in
   let '(h2, _) := after (ChatHistory.loadConversations reply) h w1 in
   hd_error (ChatHistory.conversations h2) = Some top)
  /\ (JS.trim body <> [] ->
      let '(_, w1) :=
        after (ChatRouted.sendMessage env)
              (ChatRouted.mkState (Some sess) msgs input loading (Some conv)
                                  title) w in
      let '(h2, _) := after (ChatHistory.loadConversations reply) h w1 in
      hd_error (ChatHistory.conversations h2) = Some top).
Proof.
  intros Hin Hconv Hu Ha Hr Hw Hok Hbody Hh Hreply Hc Hid Huid Huniq Hlate top.
  assert (Hhead :
            forall msgs' t,
              hd_error
                (map ChatHistory.selected
                   (Backend.conversations_of (User.id (Session.user sess))
                      (Backend.mk
                         (Backend.conversations
                            (Backend.touch conv (SendEnv.today env)
                                           (World.backend w)))
                         msgs' t)))
              = Some top).
  { intros msgs' t.
    rewrite hd_error_map.
    change (Backend.conversations_of (User.id (Session.user sess))
              (Backend.mk
                 (Backend.conversations
                    (Backend.touch conv (SendEnv.today env) (World.backend w)))
                 msgs' t))
      with (Backend.conversations_of (User.id (Session.user sess))
              (Backend.touch conv (SendEnv.today env) (World.backend w))).
    rewrite (@touched_is_head (User.id (Session.user sess)) conv
               (SendEnv.today env) c (World.backend w)
               Hc Hid Huid Huniq Hlate); reflexivity. }
  split.
  - unfold after.
    rewrite (@page_send_exchange env sess conv input msgs loading w response
               body Hin Hconv Hu Ha Hw Hok Hbody).
    rewrite Hr.
    rewrite (@history_load_lists reply h sess _ Hh Hreply); simpl.
    apply Hhead.
  - intros Hblank; unfold after.
    rewrite (@routed_send_exchange env sess conv input title msgs loading w
               response body Hin Hconv Hu Ha Hw Hok Hbody Hblank).
    rewrite Hr.
    rewrite (@history_load_lists reply h sess _ Hh Hreply); simpl.
    apply Hhead.
Qed.

Lemma sent_conversation_tops_the_history_witness :
  let '(_, w1) :=
    after (ChatPage.sendMessage (Scenario.answering 200 "Buy and hold."))
          Scenario.page Scenario.shelf in
  let '(h2, _) :=
    after (ChatHistory.loadConversations (Scenario.accepted "" 1))
          Scenario.history w1 in
  hd_error (ChatHistory.conversations h2)
  = Some (ChatHistory.mkConversation Scenario.conv1 (JS.lit "Nova Conversa")
                                     100 1000).
Proof.
  refine (proj1 (@sent_conversation_tops_the_history
            (Scenario.answering 200 "Buy and hold.") (Scenario.accepted "" 1)
            Scenario.history Scenario.alice Scenario.conv1
            (JS.lit "  What is a good ETF? ") [] [] false Scenario.shelf
            (Scenario.response 200 "Buy and hold.") (JS.lit "Buy and hold.")
            (ConversationRow.mk (JS.lit "conv-1") (JS.lit "user-1")
                                (JS.lit "Nova Conversa") 100 100)
            _ _ eq_refl eq_refl eq_refl eq_refl eq_refl eq_refl eq_refl
            eq_refl _ eq_refl eq_refl _ _)).
  - vm_compute; discriminate.
  - vm_compute; discriminate.
  - left; reflexivity.
  - intros x [<- | [<- | [<- | []]]] E;
      first [reflexivity | vm_compute in E; discriminate E].
  - intros x [<- | [<- | [<- | []]]] Hu Hne;
      first [ exfalso; apply Hne; reflexivity
            | vm_compute in Hu; discriminate Hu
            | reflexivity ].
Defined.

(* ===================================================================== *)
(** ** Failures of the history screen and of the load *)

(** X17. On the history screen a failed load keeps the list the screen had,
    turns the spinner off and raises one toast; a failed creation stores
    nothing and raises one toast.  Neither navigates, and neither shows the
    storage error's own message. *)
Theorem failed_history_operations_only_toast
        (dateLabel : jsstring) (reply : Reply.t) (e : Error.t)
        (h : ChatHistory.State) (sess : Session.t) (w : World.t) :
  ChatHistory.session h = Some sess ->
  Reply.failure reply = Some e ->
  let uid := User.id (Session.user sess) in
  let b := Backend.advance (Reply.elapsed reply) (World.backend w) in
  after (ChatHistory.loadConversations reply) h w
  = (ChatHistory.mkState (Some sess) (ChatHistory.conversations h) false,
     World.mk b
       (World.trace w
        ++ [Storage (SelectConversations uid) false;
            Toasted (destructive Text.cannot_load_history)]))
  /\ after (ChatHistory.createNewConversation dateLabel reply) h w
     = (h,
        World.mk b
          (World.trace w
           ++ [Storage (InsertConversation uid
                          (JS.lit "Nova Conversa " ++ dateLabel)) false;
               Toasted (destructive Text.cannot_create_conversation)])).
Proof.
  intros Hs Hr; split.
  - exact (@history_load_failure_toasted reply e h sess w Hs Hr).
  - exact (@history_create_failure_toasted dateLabel reply e h sess w Hs Hr).
Qed.

Lemma failed_history_operations_only_toast_witness :
  after (ChatHistory.loadConversations (Cases.failing Cases.offline 3))
        Scenario.history Scenario.shelf
  = (ChatHistory.mkState (Some Scenario.alice) [] false,
     World.mk (Backend.advance 3 (World.backend Scenario.shelf))
              [Storage (SelectConversations (JS.lit "user-1")) false;
               Toasted (destructive Text.cannot_load_history)]).
Proof.
  exact (proj1 (@failed_history_operations_only_toast
                  (JS.lit "01/11/2026") (Cases.failing Cases.offline 3)
                  Cases.offline Scenario.history Scenario.alice
                  Scenario.shelf eq_refl eq_refl)).
Defined.

(** X18. On the screen of [src/pages/Chat.tsx], when the select of the most
    recent conversation fails (or finds nothing and the creation fails),
    the load raises one toast and changes nothing on the screen.  From a
    screen without an active conversation the user then stays on a chat
    in which sending any text does nothing at all: no storage call, no
    toast, and the text stays in the input. *)
Theorem failed_load_leaves_a_dead_chat
        (env : ChatPage.LoadEnv) (send : SendEnv.t) (e : Error.t)
        (p : ChatPage.State) (sess : Session.t) (text : jsstring)
        (w : World.t) :
  ChatPage.session p = Some sess ->
  ChatPage.currentConversation p = None ->
  (Reply.failure (ChatPage.recent env) = Some e
   \/ (succeeds (ChatPage.recent env)
       /\ Reply.failure (ChatPage.created env) = Some e
       /\ forall c, In c (Backend.conversations (World.backend w)) ->
                    ConversationRow.user_id c <> User.id (Session.user sess))) ->
  let '(p1, w1) := after (ChatPage.createOrLoadConversation env) p w in
  p1 = p
  /\ Backend.conversations (World.backend w1)
     = Backend.conversations (World.backend w)
  /\ (exists calls,
         World.trace w1
         = World.trace w
           ++ calls ++ [Toasted (destructive Text.cannot_load_conversation)]
         /\ forallb (fun ev => match ev with Storage _ _ => true | _ => false end)
                    calls = true)
  /\ let '(p2, w2) := after (ChatPage.setCurrentMessage text) p1 w1 in
     ChatPage.sendMessage send p2 w2 = (inr tt, p2, w2).
Proof.
  intros Hs Hcc Hfail.
  destruct p as [se msgs input loading cc]; simpl in Hs, Hcc; subst se cc.
  unfold after, ChatPage.createOrLoadConversation,
    ChatPage.setCurrentConversation, ChatPage.setMessages,
    ChatPage.setCurrentMessage.
  run_handler.
  destruct Hfail as [Hr | (Hr & Hc & Hnone)]; unfold succeeds in *; settle.
  - repeat split.
    + exists [Storage (SelectRecentConversation (User.id (Session.user sess)))
                      false].
      split; [rewrite <- app_assoc; reflexivity | reflexivity].
    + unfold ChatPage.sendMessage; run_handler; rewrite !orb_true_r;
        reflexivity.
  - rewrite conversations_of_advance, (conversations_of_none _ Hnone); simpl;
      settle.
    repeat split.
    + exists [Storage (SelectRecentConversation (User.id (Session.user sess)))
                      true;
              Storage (InsertConversation (User.id (Session.user sess))
                                          (JS.lit "Nova Conversa")) false].
      split; [rewrite <- !app_assoc; reflexivity | reflexivity].
    + unfold ChatPage.sendMessage; run_handler; rewrite !orb_true_r;
        reflexivity.
Qed.

Lemma failed_load_leaves_a_dead_chat_witness :
  let '(p1, w1) :=
    after (ChatPage.createOrLoadConversation Cases.page_recent_lost)
          (Scenario.page_of Scenario.alice) Scenario.world in
  p1 = Scenario.page_of Scenario.alice
  /\ (let '(p2, w2) :=
        after (ChatPage.setCurrentMessage (JS.lit "hello")) p1 w1 in
      ChatPage.sendMessage (Scenario.answering 200 "Buy and hold.") p2 w2
      = (inr tt, p2, w2)).
Proof.
  pose proof (@failed_load_leaves_a_dead_chat
                Cases.page_recent_lost
                (Scenario.answering 200 "Buy and hold.") Cases.offline
                (Scenario.page_of Scenario.alice) Scenario.alice
                (JS.lit "hello") Scenario.world eq_refl eq_refl
                (or_introl eq_refl)) as H.
  destruct (after (ChatPage.createOrLoadConversation Cases.page_recent_lost)
                  (Scenario.page_of Scenario.alice) Scenario.world)
    as [p1 w1].
  destruct H as (H1 & _ & _ & H2).
  split; [exact H1 | exact H2].
Defined.

(* ===================================================================== *)
(** ** The Auth screen and the session *)

(** X19. [handleAuth] never throws and makes exactly one call to the
    identity service, sign-in or sign-up by the mode of the form, with the
    email and the password exactly as typed (nothing is trimmed).  It
    raises exactly one toast, touches no storage, and ends with the busy
    flag off and the form as it was.  It navigates, to "/", only after a
    sign-in without error: a sign-up never navigates.  On an error the
    toast shows the error's own message, with no fallback when it is
    empty. *)
Theorem handleAuth_calls_once_and_toasts_once
        (env : Auth.Env) (m : Auth.Mounted) (w : World.t) :
  let st := Auth.screen m in
  let '(o, m', w') := Auth.handleAuth env m w in
  o = inr tt
  /\ Auth.screen m'
     = Auth.mkState (Auth.isLogin st) (Auth.email st) (Auth.password st) false
  /\ Auth.identity m'
     = Auth.identity m
       ++ [if Auth.isLogin st
           then Identity.SignInWithPassword (Auth.email st) (Auth.password st)
           else Identity.SignUp (Auth.email st) (Auth.password st)
                                (Auth.origin env ++ JS.lit "/")]
  /\ World.backend w' = World.backend w
  /\ exists t,
      World.trace w'
      = World.trace w
        ++ Toasted t
           :: (if Auth.isLogin st
                  && match Auth.error env with None => true | Some _ => false end
               then [Navigated (JS.lit "/")]
               else [])
      /\ t = match Auth.error env with
             | Some e => Toast.mk (JS.lit "Erro") (Error.message e)
                                  (JS.lit "destructive")
             | None =>
                 if Auth.isLogin st
                 then Auth.plain (JS.lit "Login realizado com sucesso!")
                                 (JS.lit "Bem-vindo ao Agente Trader")
                 else Auth.plain
                        (JS.lit "Conta criada com sucesso!")
                        (JS.lit "Verifique seu email para confirmar a conta")
             end.
Proof.
  destruct m as [[login email password loading] calls]; simpl.
  unfold Auth.handleAuth, Auth.setLoading, Auth.called, Auth.throwIf.
  run_handler.
  destruct login, (Auth.error env); simpl;
    (repeat split; eexists; split; [tidy; reflexivity | reflexivity]).
Qed.

(** X20. What the screens do when the session changes.  With no session the
    history screen navigates to "/auth" and asks the storage nothing; the
    two Chat screens ask nothing and do not navigate: they never send a
    signed-out user to the Auth screen.  With a session, each screen runs
    its load under the session that arrived, whatever session it held.
    The Auth screen leaves for "/" when it finds a session, and stays
    otherwise. *)
Theorem session_changes_redirect_only_history
        (p : ChatPage.State) (r : ChatRouted.State) (h : ChatHistory.State)
        (m : Auth.Mounted) (w : World.t) :
  (forall reply,
      ChatHistoryUI.sessionChanged None reply h w
      = (inr tt,
         ChatHistory.mkState None (ChatHistory.conversations h)
                             (ChatHistory.loading h),
         World.mk (World.backend w)
                  (World.trace w ++ [Navigated (JS.lit "/auth")])))
  /\ (forall env,
         ChatPageUI.sessionChanged None env p w
         = (inr tt,
            ChatPage.mkState None (ChatPage.messages p)
              (ChatPage.currentMessage p) (ChatPage.isLoading p)
              (ChatPage.currentConversation p),
            w))
  /\ (forall fromUrl env,
         ChatRoutedUI.sessionChanged None fromUrl env r w
         = (inr tt,
            ChatRouted.mkState None (ChatRouted.messages r)
              (ChatRouted.currentMessage r) (ChatRouted.isLoading r)
              (ChatRouted.currentConversation r)
              (ChatRouted.conversationTitle r),
            w))
  /\ (forall sess reply,
         ChatHistoryUI.sessionChanged (Some sess) reply h w
         = ChatHistory.loadConversations reply
             (ChatHistory.mkState (Some sess) (ChatHistory.conversations h)
                                  (ChatHistory.loading h)) w)
  /\ (forall sess env,
         ChatPageUI.sessionChanged (Some sess) env p w
         = ChatPage.createOrLoadConversation env
             (ChatPage.mkState (Some sess) (ChatPage.messages p)
                (ChatPage.currentMessage p) (ChatPage.isLoading p)
                (ChatPage.currentConversation p)) w)
  /\ (forall sess fromUrl env,
         ChatRoutedUI.sessionChanged (Some sess) fromUrl env r w
         = ChatRouted.createOrLoadConversation fromUrl env
             (ChatRouted.mkState (Some sess) (ChatRouted.messages r)
                (ChatRouted.currentMessage r) (ChatRouted.isLoading r)
                (ChatRouted.currentConversation r)
                (ChatRouted.conversationTitle r)) w)
  /\ (forall session,
         Auth.checkUser session m w
         = (inr tt,
            Auth.mkMounted (Auth.screen m)
                           (Auth.identity m ++ [Identity.GetSession]),
            World.mk (World.backend w)
                     (World.trace w
                      ++ (if signed_in session
                          then [Navigated (JS.lit "/")]
                          else [])))).
Proof.
  repeat apply conj; intros.
  - unfold ChatHistoryUI.sessionChanged, ChatHistory.setSession.
    run_handler; reflexivity.
  - unfold ChatPageUI.sessionChanged, ChatPage.setSession.
    run_handler; destruct w; reflexivity.
  - unfold ChatRoutedUI.sessionChanged, ChatRouted.setSession.
    run_handler; destruct w; reflexivity.
  - unfold ChatHistoryUI.sessionChanged, ChatHistory.setSession.
    run_handler; reflexivity.
  - unfold ChatPageUI.sessionChanged, ChatPage.setSession.
    run_handler; reflexivity.
  - unfold ChatRoutedUI.sessionChanged, ChatRouted.setSession.
    run_handler; reflexivity.
  - unfold Auth.checkUser, Auth.called.
    run_handler; destruct session; simpl;
      [reflexivity | rewrite app_nil_r; destruct w; reflexivity].
Qed.
